(** * phantomdb: the status reconciliation engine

    A shallow embedding of [phantomdb/models.py] (identity extraction, the
    derived tag views and the consolidated log view) and of
    [phantomdb/confluence.py] ([Log.merge_logs]), with the properties the
    specification states about them.

    Conventions.
    - Python [str] values are [string]s of ASCII characters ([isascii]);
      on them case mapping ([str.upper], [re.IGNORECASE], SQLite [LIKE]) acts
      on the ASCII letters.  Python maps further letters outside ASCII (under
      [re.IGNORECASE] the [i] of a pattern also matches U+0130, which
      [str.upper] leaves as it is): what is proved of the case of an
      identifier is stated for ASCII identifiers.
    - A missing value of a datetime column is [NaT], one of another column
      is [NaN] ([NA]); [fillna("")] fills the second kind only.
    - A Python call either returns a value or raises; a raised exception is
      recorded by the name of its class ([PyResult]).
    - [datetime.date] is a record of year, month and day. *)

From Stdlib Require Import Bool Arith ZArith Lia List String Ascii.
From Stdlib Require Import Sorting.Sorted Sorting.Permutation.
From Stdlib Require OrderedTypeEx.
Import ListNotations.

Open Scope string_scope.
Open Scope list_scope.

(** ** Results of Python calls *)

Definition PyResult (A : Type) : Type := (string + A)%type.

Definition ret {A : Type} (x : A) : PyResult A := inr x.
Definition raise {A : Type} (exc : string) : PyResult A := inl exc.

Definition bind {A B : Type} (m : PyResult A) (k : A -> PyResult B) : PyResult B :=
  match m with
  | inl exc => inl exc
  | inr x => k x
  end.

Notation "x <- m ;; k" := (bind m (fun x => k))
  (at level 61, m at next level, right associativity).

(** ** Characters and strings *)

Definition is_upper (c : ascii) : bool :=
  ((65 <=? N_of_ascii c) && (N_of_ascii c <=? 90))%N.

Definition is_lower (c : ascii) : bool :=
  ((97 <=? N_of_ascii c) && (N_of_ascii c <=? 122))%N.

Definition lower (c : ascii) : ascii :=
  if is_upper c then ascii_of_N (N_of_ascii c + 32) else c.

Definition upper (c : ascii) : ascii :=
  if is_lower c then ascii_of_N (N_of_ascii c - 32) else c.

Fixpoint str_map (f : ascii -> ascii) (s : string) : string :=
  match s with
  | EmptyString => EmptyString
  | String c s' => String (f c) (str_map f s')
  end.

(** [str.upper] and [str.lower], of ASCII text. *)
Definition str_upper : string -> string := str_map upper.
Definition str_lower : string -> string := str_map lower.

(** [s.isascii()]: every character is below 128. *)
Fixpoint isascii (s : string) : bool :=
  match s with
  | EmptyString => true
  | String c s' => (N_of_ascii c <? 128)%N && isascii s'
  end.

(** Equality of characters up to ASCII case: how [re.IGNORECASE] compares an
    ASCII character of the subject with a letter of the pattern, and how
    SQLite's [LIKE] compares any two characters. *)
Definition eqb_nocase (a b : ascii) : bool := Ascii.eqb (lower a) (lower b).

(** [starts_with eqc p s]: [p] is a prefix of [s], characters compared by
    [eqc]. *)
Fixpoint starts_with (eqc : ascii -> ascii -> bool) (p s : string) : bool :=
  match p, s with
  | EmptyString, _ => true
  | String a p', String b s' => eqc a b && starts_with eqc p' s'
  | String _ _, EmptyString => false
  end.

(** [contains eqc p s]: [p] occurs in [s]; Python's [p in s] is
    [contains Ascii.eqb p s]. *)
Fixpoint contains (eqc : ascii -> ascii -> bool) (p s : string) : bool :=
  starts_with eqc p s ||
  match s with
  | EmptyString => false
  | String _ s' => contains eqc p s'
  end.

(** [substring 0 (length p) s], the text a pattern of the length of [p]
    consumed at the head of [s]. *)
Fixpoint take_like (p s : string) : string :=
  match p, s with
  | String _ p', String c s' => String c (take_like p' s')
  | _, _ => EmptyString
  end.

(** ** [re.search] for an alternation of literals, [flags=re.IGNORECASE]

    The alternatives are tried in order at the current position; when none
    matches the search moves one character to the right.  The result is
    [group(0)], the text matched, or [None]. *)

Fixpoint match_alternatives (alts : list string) (s : string) : option string :=
  match alts with
  | [] => None
  | p :: alts' =>
      if starts_with eqb_nocase p s then Some (take_like p s)
      else match_alternatives alts' s
  end.

Fixpoint re_search (alts : list string) (s : string) : option string :=
  match match_alternatives alts s with
  | Some m => Some m
  | None =>
      match s with
      | EmptyString => None
      | String _ s' => re_search alts s'
      end
  end.

(** ** [datetime.date] *)

Module date.

Record t : Type := mk { year : Z; month : Z; day : Z }.

Definition is_leap (y : Z) : bool :=
  ((y mod 4 =? 0) && (negb (y mod 100 =? 0) || (y mod 400 =? 0)))%Z.

Definition days_in_month (y m : Z) : Z :=
  if (m =? 2)%Z then (if is_leap y then 29 else 28)%Z
  else if ((m =? 4) || (m =? 6) || (m =? 9) || (m =? 11))%Z then 30%Z
  else 31%Z.

(** The constructor [datetime.date(year, month, day)]. *)
Definition make (y m d : Z) : PyResult t :=
  if ((1 <=? y) && (y <=? 9999) && (1 <=? m) && (m <=? 12)
      && (1 <=? d) && (d <=? days_in_month y m))%Z
  then ret (mk y m d)
  else raise "ValueError".

(** Chronological order: the comparison of [datetime.date] values. *)
Definition compare (a b : t) : comparison :=
  match (year a ?= year b)%Z with
  | Eq =>
      match (month a ?= month b)%Z with
      | Eq => (day a ?= day b)%Z
      | c => c
      end
  | c => c
  end.

Definition leb (a b : t) : bool :=
  match compare a b with Gt => false | _ => true end.

End date.

(** ** [datetime.datetime.strptime(s, "%Y%m%d").date()]

    [_strptime] compiles the format to the regular expression
    [(?P<Y>\d\d\d\d)(?P<m>1[0-2]|0[1-9]|[1-9])(?P<d>3[01]|[12]\d|0[1-9]|[1-9]| [1-9])],
    matches it at the start of the string, refuses text left over, and then
    builds the date. *)

Definition is_digit (c : ascii) : bool :=
  ((48 <=? N_of_ascii c) && (N_of_ascii c <=? 57))%N.

Definition digit (c : ascii) : Z := Z.of_N (N_of_ascii c) - 48.

Definition in_range (lo hi : N) (c : ascii) : bool :=
  ((lo <=? N_of_ascii c) && (N_of_ascii c <=? hi))%N.

(** The group [Y]: four digits. *)
Definition re_Y (s : string) : option (Z * string) :=
  match s with
  | String a (String b (String c (String d r))) =>
      if is_digit a && is_digit b && is_digit c && is_digit d
      then Some (1000 * digit a + 100 * digit b + 10 * digit c + digit d, r)%Z
      else None
  | _ => None
  end.

(** The group [m]: every way it can match at the head of [s], in the order
    the regular expression tries its alternatives. *)
Definition re_m (s : string) : list (Z * string) :=
  match s with
  | String a r =>
      (match r with
       | String b r' =>
           (if Ascii.eqb a "1" && in_range 48 50 b
            then [(10 + digit b, r')%Z] else [])
           ++ (if Ascii.eqb a "0" && in_range 49 57 b
               then [(digit b, r')] else [])
       | EmptyString => []
       end)
      ++ (if in_range 49 57 a then [(digit a, r)] else [])
  | EmptyString => []
  end.

(** The group [d]: it is the last of the pattern, so its first alternative
    that matches ends the search. *)
Definition re_d (s : string) : option (Z * string) :=
  match s with
  | String a r =>
      match r with
      | String b r' =>
          if Ascii.eqb a "3" && in_range 48 49 b then Some (30 + digit b, r')%Z
          else if in_range 49 50 a && is_digit b
               then Some (10 * digit a + digit b, r')%Z
          else if Ascii.eqb a "0" && in_range 49 57 b then Some (digit b, r')
          else if in_range 49 57 a then Some (digit a, r)
          else if Ascii.eqb a " " && in_range 49 57 b then Some (digit b, r')
          else None
      | EmptyString => if in_range 49 57 a then Some (digit a, r) else None
      end
  | EmptyString => None
  end.

Fixpoint first_md (ms : list (Z * string)) : option (Z * Z * string) :=
  match ms with
  | [] => None
  | (m, r) :: ms' =>
      match re_d r with
      | Some (d, r') => Some (m, d, r')
      | None => first_md ms'
      end
  end.

Definition strptime_Ymd (s : string) : PyResult date.t :=
  match re_Y s with
  | None => raise "ValueError"
  | Some (y, r) =>
      match first_md (re_m r) with
      | None => raise "ValueError"
      | Some (m, d, EmptyString) => date.make y m d
      | Some (_, _, String _ _) => raise "ValueError"
      end
  end.

(** ** Identity extraction ([DICOM._extract_site], [DICOM._extract_phantom_date]) *)

(** The alternation of the pattern [r"(ns|ws|sh|ui|uc|um)"]. *)
Definition site_pattern : list string := ["ns"; "ws"; "sh"; "ui"; "uc"; "um"].

(** The values [_extract_site] can return. *)
Definition site_codes : list string := ["NS"; "WS"; "SH"; "UI"; "UC"; "UM"].

(** [_extract_site], applied to an ASCII [filename.stem].  When the search
    finds nothing, [re.search] returns [None] and the attribute access
    [.group] raises [AttributeError]. *)
Definition _extract_site (stem : string) : PyResult string :=
  match re_search site_pattern stem with
  | None => raise "AttributeError"
  | Some m => ret (str_upper m)
  end.

Module zipfile.

(** The header [pydicom.dcmread] reads from a member: the data elements it
    holds, by keyword. *)
Definition Dataset : Type := list (string * string).

(** A [ZipInfo] of [ZipFile.filelist], with what opening the member and
    reading it with [pydicom.dcmread] gives: a header, or nothing when the
    member is not a DICOM file. *)
Record ZipInfo : Type := mkZipInfo {
  filename : string;
  is_dir : bool;
  dcm : option Dataset
}.

(** What is found at a path: [zipfile.is_zipfile] is true of [Zip] only. *)
Inductive File : Type :=
| NotZip
| Zip (filelist : list ZipInfo).

End zipfile.

(** [Dataset.get(key)]: the value of the element, [None] without it. *)
Fixpoint dataset_get (header : zipfile.Dataset) (key : string) : option string :=
  match header with
  | [] => None
  | (k, v) :: header' => if String.eqb k key then Some v else dataset_get header' key
  end.

Definition dcmread (listing : zipfile.ZipInfo) : PyResult zipfile.Dataset :=
  match zipfile.dcm listing with
  | Some header => ret header
  | None => raise "InvalidDicomError"
  end.

(** The [for] loop of [_extract_phantom_date]: the local [header] after it,
    [None] when the loop ended without binding it. *)
Fixpoint first_header (filelist : list zipfile.ZipInfo)
  : PyResult (option zipfile.Dataset) :=
  match filelist with
  | [] => ret None
  | listing :: filelist' =>
      if negb (zipfile.is_dir listing)
         && negb (contains Ascii.eqb "DICOMDIR" (zipfile.filename listing))
      then header <- dcmread listing ;; ret (Some header)
      else first_header filelist'
  end.

(** [_extract_phantom_date]: a bare [return] for a file that is not an
    archive; after the loop, [header.get] on a local that was never bound
    raises [UnboundLocalError], and [strptime] raises [TypeError] when
    [header.get("AcquisitionDate")] is [None]. *)
Definition _extract_phantom_date (f : zipfile.File) : PyResult (option date.t) :=
  match f with
  | zipfile.NotZip => ret None
  | zipfile.Zip filelist =>
      bound <- first_header filelist ;;
      match bound with
      | None => raise "UnboundLocalError"
      | Some header =>
          match dataset_get header "AcquisitionDate" with
          | None => raise "TypeError"
          | Some s => day <- strptime_Ymd s ;; ret (Some day)
          end
      end
  end.

(** ** The artifact schema *)

Module DICOM.
Record t : Type := mk {
  id : string;
  site : string;
  day : date.t;
  acquisition_day : option date.t
}.
End DICOM.

(** [T1w], [DWI] and [BOLD] share the columns of [ScanMixin]; [meta] is the
    text of the JSON sidecar. *)
Module ScanMixin.
Record t : Type := mk {
  id : string;
  meta : string;
  dicom_id : option string
}.
End ScanMixin.

Definition T1w : Type := ScanMixin.t.
Definition DWI : Type := ScanMixin.t.
Definition BOLD : Type := ScanMixin.t.

Module BIDS.
Record t : Type := mk {
  id : Z;
  dicom_id : option string;
  day : option date.t;
  valid : option bool
}.
End BIDS.

(** The tables of the database, by [__tablename__]. *)
Module Database.
Record t : Type := mk {
  dicoms : list DICOM.t;
  bids : list BIDS.t;
  t1ws : list T1w;
  bolds : list BOLD;
  dwis : list DWI
}.
End Database.

(** ** SQL expressions *)

(** A truth value of SQL: [None] is NULL. *)
Definition sql_bool : Type := option bool.

Definition sql_eq {A : Type} (eqb : A -> A -> bool) (x y : option A) : sql_bool :=
  match x, y with
  | Some a, Some b => Some (eqb a b)
  | _, _ => None
  end.

Definition sql_or (p q : sql_bool) : sql_bool :=
  match p, q with
  | Some true, _ | _, Some true => Some true
  | Some false, Some false => Some false
  | _, _ => None
  end.

Definition sql_and (p q : sql_bool) : sql_bool :=
  match p, q with
  | Some false, _ | _, Some false => Some false
  | Some true, Some true => Some true
  | _, _ => None
  end.

Definition is_null {A : Type} (x : option A) : sql_bool :=
  match x with None => Some true | Some _ => Some false end.

Definition is_not_null {A : Type} (x : option A) : sql_bool :=
  match x with None => Some false | Some _ => Some true end.

(** A condition holds when it is true, not when it is false or NULL. *)
Definition holds (p : sql_bool) : bool :=
  match p with Some true => true | _ => false end.

(** [CASE WHEN c1 THEN v1 ... ELSE else_ END]. *)
Fixpoint sql_case {A : Type} (whens : list (sql_bool * A)) (else_ : A) : A :=
  match whens with
  | [] => else_
  | (c, v) :: whens' => if holds c then v else sql_case whens' else_
  end.

(** [s LIKE pat] in SQLite: [%] stands for any text, [_] for one character,
    and letters match up to ASCII case. *)
Fixpoint like (pat s : string) : bool :=
  match pat with
  | EmptyString => match s with EmptyString => true | String _ _ => false end
  | String p pat' =>
      if Ascii.eqb p "%" then
        (fix skip (s : string) : bool :=
           like pat' s ||
           match s with
           | EmptyString => false
           | String _ s' => skip s'
           end) s
      else
        match s with
        | EmptyString => false
        | String c s' =>
            (Ascii.eqb p "_" || eqb_nocase p c) && like pat' s'
        end
  end.

(** [a LEFT OUTER JOIN b ON on]: every row of [a], with each row of [b] the
    condition holds for, or with NULLs when it holds for none. *)
Definition left_outer_join {A B : Type} (on : A -> B -> sql_bool)
    (a : list A) (b : list B) : list (A * option B) :=
  flat_map (fun x =>
    match filter (fun y => holds (on x y)) b with
    | [] => [(x, None)]
    | ys => map (fun y => (x, Some y)) ys
    end) a.

(** ** Sorting that keeps the order of ties

    [ORDER BY] and [DataFrame.sort_values] on several columns are modelled by
    insertion from the right: an element goes before the first one that is
    not smaller, so elements with equal keys keep their order. *)

Fixpoint insert_sorted {A : Type} (leb : A -> A -> bool) (x : A) (l : list A)
  : list A :=
  match l with
  | [] => [x]
  | y :: l' => if leb x y then x :: l else y :: insert_sorted leb x l'
  end.

Definition stable_sort {A : Type} (leb : A -> A -> bool) (l : list A) : list A :=
  fold_right (insert_sorted leb) [] l.

(** ** Derived tag views ([B1000View], [B2000View]) *)

(** Modelled from the spec: [views.view] of [phantomdb/views.py], which is not
    among the sources, registers a SELECT under a name; the views are "pure
    read-only projections recomputed on demand; they hold no independent
    state", so reading a view evaluates its SELECT on the tables as they
    are. *)
Definition view {A : Type} (name : string) (selectable : Database.t -> list A)
  : Database.t -> list A := selectable.

Module TagView.
(** A row of [b1000] or of [b2000]: [DWI.id], [DWI.dicom_id] and the label. *)
Record t : Type := mk {
  id : string;
  dicom_id : option string;
  tag : string
}.
End TagView.

(** [sa.select(DWI.id, DWI.dicom_id, sa.case((DWI.id.like(pat), "Y"),
    else_="N")).where(DWI.id.like(pat))]. *)
Definition select_tag (pat : string) (db : Database.t) : list TagView.t :=
  map (fun w : DWI =>
         TagView.mk (ScanMixin.id w) (ScanMixin.dicom_id w)
           (sql_case [(Some (like pat (ScanMixin.id w)), "Y")] "N"))
      (filter (fun w : DWI => holds (Some (like pat (ScanMixin.id w)))) (Database.dwis db)).

Definition B1000View : Database.t -> list TagView.t :=
  view "b1000" (select_tag "%b1000%").

Definition B2000View : Database.t -> list TagView.t :=
  view "b2000" (select_tag "%b2000%").

(** ** The consolidated status view ([LogView]) *)

Module LogView.

Record t : Type := mk {
  site : string;
  date : option date.t;
  dicom : date.t;
  bids : option date.t;
  bids_validation : string;
  T1w : string;
  b1000 : string;
  b2000 : string;
  bold : string;
  id : string
}.

(** A row of the joins: the scan with the row, or the NULLs, of each table
    joined to it. *)
Definition joined : Type :=
  (DICOM.t * option BIDS.t * option ScanMixin.t * option ScanMixin.t
   * option TagView.t * option TagView.t)%type.

Definition scan (j : joined) : DICOM.t :=
  let '(d, _, _, _, _, _) := j in d.

(** The columns of the SELECT. *)
Definition select (j : joined) : t :=
  let '(d, b, t1, bo, v1, v2) := j in
  let valid : option bool :=
    match b with Some r => BIDS.valid r | None => None end in
  let derived {A : Type} (x : option A) : string :=
    sql_case
      [ (sql_or (is_null valid) (sql_eq Bool.eqb valid (Some false)), "");
        (sql_and (sql_eq Bool.eqb valid (Some true)) (is_not_null x), "Y") ]
      "N" in
  mk (DICOM.site d)
     (DICOM.acquisition_day d)
     (DICOM.day d)
     (match b with Some r => BIDS.day r | None => None end)
     (sql_case
        [ (sql_eq Bool.eqb valid (Some true), "Y");
          (sql_eq Bool.eqb valid (Some false), "N") ]
        "")
     (derived (option_map ScanMixin.id t1))
     (derived (option_map TagView.tag v1))
     (derived (option_map TagView.tag v2))
     (derived (option_map ScanMixin.id bo))
     (DICOM.id d).

(** The ON clause of every join: the foreign key of the row joined equals
    [dicoms.id]. *)
Definition on_dicom {L R : Type} (scan_of : L -> DICOM.t)
    (dicom_id : R -> option string) (l : L) (r : R) : sql_bool :=
  sql_eq String.eqb (Some (DICOM.id (scan_of l))) (dicom_id r).

(** [.join(BIDS, isouter=True).join(T1w, isouter=True).join(BOLD, isouter=True)
    .join(B1000View, isouter=True).join(B2000View, isouter=True)]. *)
Definition joins (db : Database.t) : list joined :=
  let j1 := left_outer_join (on_dicom (fun d => d) BIDS.dicom_id)
              (Database.dicoms db) (Database.bids db) in
  let j2 := left_outer_join (on_dicom fst ScanMixin.dicom_id) j1 (Database.t1ws db) in
  let j3 := left_outer_join
              (on_dicom (fun x => fst (fst x)) ScanMixin.dicom_id)
              j2 (Database.bolds db) in
  let j4 := left_outer_join
              (on_dicom (fun x => fst (fst (fst x))) TagView.dicom_id)
              j3 (B1000View db) in
  left_outer_join
    (on_dicom (fun x => fst (fst (fst (fst x)))) TagView.dicom_id)
    j4 (B2000View db).

(** [.order_by(DICOM.site, DICOM.day)], ascending. *)
Definition order_leb (x y : joined) : bool :=
  String.ltb (DICOM.site (scan x)) (DICOM.site (scan y))
  || (String.eqb (DICOM.site (scan x)) (DICOM.site (scan y))
      && date.leb (DICOM.day (scan x)) (DICOM.day (scan y))).

Definition table : Database.t -> list t :=
  view "log" (fun db => map select (stable_sort order_leb (joins db))).

End LogView.

(** ** Data frames

    A [pandas.DataFrame] as its column labels and its rows of cells.  The row
    index is left out: [merge] renumbers it, and neither [to_html] nor
    [to_csv] is asked to write it. *)

Inductive Cell : Type :=
| NA                    (* NaN or None: the missing value of the other columns *)
| NaT                   (* the missing value of a datetime column *)
| Text (s : string)
| Day (d : date.t).     (* a value of a datetime column *)

Module DataFrame.
Record t : Type := mk {
  columns : list string;
  rows : list (list Cell)
}.
End DataFrame.

Definition cell_of_text (x : option string) : Cell :=
  match x with Some s => Text s | None => NA end.

(** A [Date] column of the view is read as a datetime column: a NULL is
    [NaT]. *)
Definition cell_of_day (x : option date.t) : Cell :=
  match x with Some d => Day d | None => NaT end.

(** The order of the values of a column, missing values last
    ([na_position="last"]).  Columns hold values of one kind, and
    [sort_values] raises before it compares a text with a date. *)
Definition cell_compare (a b : Cell) : comparison :=
  match a, b with
  | NA, NA => Eq
  | NA, _ => Gt
  | _, NA => Lt
  | NaT, NaT => Eq
  | NaT, _ => Gt
  | _, NaT => Lt
  | Text s, Text t => String.compare s t
  | Day d, Day e => date.compare d e
  | Text _, Day _ => Lt
  | Day _, Text _ => Gt
  end.

(** Equality of join keys; a missing key matches a missing key. *)
Definition cell_eqb (a b : Cell) : bool :=
  match cell_compare a b with Eq => true | _ => false end.

Fixpoint index_of (name : string) (cols : list string) : option nat :=
  match cols with
  | [] => None
  | c :: cols' =>
      if String.eqb c name then Some 0%nat
      else option_map S (index_of name cols')
  end.

Fixpoint indices (names cols : list string) : PyResult (list nat) :=
  match names with
  | [] => ret []
  | n :: names' =>
      match index_of n cols with
      | None => raise "KeyError"
      | Some i => is_ <- indices names' cols ;; ret (i :: is_)
      end
  end.

Definition cell_at (i : nat) (row : list Cell) : Cell := nth i row NA.

Fixpoint remove_at {A : Type} (i : nat) (l : list A) : list A :=
  match l, i with
  | [], _ => []
  | _ :: l', O => l'
  | x :: l', S i' => x :: remove_at i' l'
  end.

Definition mem (name : string) (cols : list string) : bool :=
  existsb (String.eqb name) cols.

(** [left.merge(right, on=[on], how="left")]: the rows of [left] in their
    order, each with every row of [right] of the same key, in the order of
    [right], or with missing values when there is none.  A column the two
    frames share besides the key gets the suffix [_x] or [_y].  The columns
    that [right] brings are columns of texts, as [read_html] reads those of
    the page: their missing value is [NaN]. *)
Definition merge_left (left right : DataFrame.t) (on : string)
  : PyResult DataFrame.t :=
  match index_of on (DataFrame.columns left),
        index_of on (DataFrame.columns right) with
  | Some i, Some j =>
      let others := remove_at j (DataFrame.columns right) in
      ret (DataFrame.mk
             (map (fun c => if negb (String.eqb c on) && mem c others
                            then c ++ "_x" else c)%string
                  (DataFrame.columns left)
              ++ map (fun c => if mem c (DataFrame.columns left)
                               then c ++ "_y" else c)%string
                     others)
             (flat_map
                (fun l =>
                   match filter (fun r => cell_eqb (cell_at i l) (cell_at j r))
                                (DataFrame.rows right) with
                   | [] => [l ++ repeat NA (List.length others)]
                   | rs => map (fun r => l ++ remove_at j r) rs
                   end)
                (DataFrame.rows left)))
  | _, _ => raise "KeyError"
  end.

(** [df[names]]. *)
Definition getitem (df : DataFrame.t) (names : list string)
  : PyResult DataFrame.t :=
  idx <- indices names (DataFrame.columns df) ;;
  ret (DataFrame.mk names
         (map (fun row => map (fun i => cell_at i row) idx) (DataFrame.rows df))).

Definition same_kind (a b : Cell) : bool :=
  match a, b with
  | NA, _ | _, NA => true
  | Text _, Text _ => true
  | Day _, Day _ | Day _, NaT | NaT, Day _ | NaT, NaT => true
  | _, _ => false
  end.

(** The values of a column can be ordered when they are of one kind. *)
Fixpoint sortable (col : list Cell) : bool :=
  match col with
  | [] => true
  | c :: col' => forallb (same_kind c) col' && sortable col'
  end.

Fixpoint lex_compare (keys : list nat) (r1 r2 : list Cell) : comparison :=
  match keys with
  | [] => Eq
  | i :: keys' =>
      match cell_compare (cell_at i r1) (cell_at i r2) with
      | Eq => lex_compare keys' r1 r2
      | c => c
      end
  end.

Definition lex_leb (keys : list nat) (r1 r2 : list Cell) : bool :=
  match lex_compare keys r1 r2 with Gt => false | _ => true end.

(** [df.sort_values(by=by)]: ascending, missing values last in each column,
    rows of equal keys in their order. *)
Definition sort_values (df : DataFrame.t) (by_ : list string)
  : PyResult DataFrame.t :=
  idx <- indices by_ (DataFrame.columns df) ;;
  if forallb (fun i => sortable (map (cell_at i) (DataFrame.rows df))) idx
  then ret (DataFrame.mk (DataFrame.columns df)
              (stable_sort (lex_leb idx) (DataFrame.rows df)))
  else raise "TypeError".

(** What [fillna] does to one cell when [value] is a text that is no date, as
    the [""] of [merge_logs] is: a [NaN] becomes the text, and a [NaT] stays,
    since a datetime column reads such a text as [NaT] again. *)
Definition fill_cell (value : string) (c : Cell) : Cell :=
  match c with
  | NA => Text value
  | NaT => NaT
  | Text s => Text s
  | Day d => Day d
  end.

(** [df.fillna(value)], for such a [value]: the missing dates of the datetime
    columns are left as they are. *)
Definition fillna (df : DataFrame.t) (value : string) : DataFrame.t :=
  DataFrame.mk (DataFrame.columns df)
    (map (map (fill_cell value)) (DataFrame.rows df)).

(** ** The reconciliation merge ([Log.merge_logs]) *)

(** [pd.read_sql_table("log", con=conn)]: the rows of the log view, their
    columns in the order of the SELECT. *)
Definition log_columns : list string :=
  ["site"; "date"; "dicom"; "bids"; "bids_validation";
   "T1w"; "b1000"; "b2000"; "bold"; "id"].

Definition log_cells (r : LogView.t) : list Cell :=
  [ Text (LogView.site r); cell_of_day (LogView.date r);
    Day (LogView.dicom r); cell_of_day (LogView.bids r);
    Text (LogView.bids_validation r); Text (LogView.T1w r);
    Text (LogView.b1000 r); Text (LogView.b2000 r); Text (LogView.bold r);
    Text (LogView.id r) ].

Definition read_sql_table (log : list LogView.t) : DataFrame.t :=
  DataFrame.mk log_columns (map log_cells log).

(** [self.oldlog], the columns [id] and [notes] of the table of the page;
    an empty cell of the page is a missing value. *)
Module OldLog.
Record t : Type := mk {
  id : option string;
  notes : option string
}.

Definition frame (table : list t) : DataFrame.t :=
  DataFrame.mk ["id"; "notes"]
    (map (fun r => [cell_of_text (id r); cell_of_text (notes r)]) table).
End OldLog.

(** The columns [merge_logs] selects, in its order. *)
Definition published_columns : list string :=
  ["site"; "date"; "notes"; "dicom"; "bids"; "bids_validation";
   "T1w"; "b1000"; "b2000"; "bold"; "id"].

(** [Log.merge_logs(self, oldlog)]; [self_oldlog] is the attribute
    [self.oldlog] and [oldlog], the argument, is the log view just read. *)
Definition merge_logs (self_oldlog oldlog : DataFrame.t) : PyResult DataFrame.t :=
  newlog <- merge_left oldlog self_oldlog "id" ;;
  selected <- getitem newlog published_columns ;;
  sorted <- sort_values selected ["site"; "date"] ;;
  ret (fillna sorted "").

(** ** Sample inputs *)

(** An archive holding a directory and its DICOMDIR index only. *)
Definition archive_without_image : zipfile.File :=
  zipfile.Zip
    [ zipfile.mkZipInfo "NS_QC_phantom/" true None;
      zipfile.mkZipInfo "NS_QC_phantom/DICOMDIR" false (Some []) ].

(** An archive whose first image has no [AcquisitionDate] element. *)
Definition archive_without_date : zipfile.File :=
  zipfile.Zip
    [ zipfile.mkZipInfo "NS_QC_phantom/" true None;
      zipfile.mkZipInfo "NS_QC_phantom/IM0001" false
        (Some [("Modality", "MR"); ("StudyDate", "20220314")]) ].

(** An archive whose first image was acquired on 14 March 2022. *)
Definition archive_with_date : zipfile.File :=
  zipfile.Zip
    [ zipfile.mkZipInfo "NS_QC_phantom/DICOMDIR" false (Some []);
      zipfile.mkZipInfo "NS_QC_phantom/IM0001" false
        (Some [("Modality", "MR"); ("AcquisitionDate", "20220314")]) ].

(** Scenarios A, B and C of the specification: [NS001] was not converted,
    [WS002] failed validation and has a functional derivative, [UC003] passed
    validation and has an anatomical and a low-b diffusion derivative. *)
Definition sample_db : Database.t :=
  Database.mk
    [ DICOM.mk "NS001" "NS" (date.mk 2022 3 15) (Some (date.mk 2022 3 14));
      DICOM.mk "WS002" "WS" (date.mk 2022 3 16) None;
      DICOM.mk "UC003" "UC" (date.mk 2022 3 17) (Some (date.mk 2022 3 16)) ]
    [ BIDS.mk 1 (Some "WS002") (Some (date.mk 2022 3 18)) (Some false);
      BIDS.mk 2 (Some "UC003") (Some (date.mk 2022 3 18)) (Some true) ]
    [ ScanMixin.mk "sub-UC003_T1w" "{}" (Some "UC003") ]
    [ ScanMixin.mk "sub-WS002_task-rest_bold" "{}" (Some "WS002") ]
    [ ScanMixin.mk "sub-UC003_acq-b1000_dwi" "{}" (Some "UC003");
      ScanMixin.mk "sub-UC003_acq-b2000_dwi" "{}" None;
      ScanMixin.mk "sub-UC003_acq-b0_dwi" "{}" (Some "UC003") ].

(** One scan with two functional derivatives (two runs). *)
Definition two_runs_db : Database.t :=
  Database.mk
    [ DICOM.mk "UC003" "UC" (date.mk 2022 3 17) None ]
    [ BIDS.mk 1 (Some "UC003") (Some (date.mk 2022 3 18)) (Some true) ]
    []
    [ ScanMixin.mk "sub-UC003_run-1_bold" "{}" (Some "UC003");
      ScanMixin.mk "sub-UC003_run-2_bold" "{}" (Some "UC003") ]
    [].

(** ** Counting the rows of a scan *)

(** The rows of the log view with the identifier [i]. *)
Definition count_id (i : string) (log : list LogView.t) : nat :=
  List.length (filter (fun r => String.eqb (LogView.id r) i) log).

(** The rows of a table whose foreign key is [i]. *)
Definition referencing {R : Type} (dicom_id : R -> option string) (i : string)
    (table : list R) : list R :=
  filter (fun r => holds (sql_eq String.eqb (Some i) (dicom_id r))) table.

(** The rows the joins make of the scan [i]: for each table joined, one for
    each row referencing the scan, or one when there is none. *)
Definition fanout (db : Database.t) (i : string) : nat :=
  Nat.max 1 (List.length (referencing BIDS.dicom_id i (Database.bids db)))
  * Nat.max 1 (List.length (referencing ScanMixin.dicom_id i (Database.t1ws db)))
  * Nat.max 1 (List.length (referencing ScanMixin.dicom_id i (Database.bolds db)))
  * Nat.max 1 (List.length (referencing TagView.dicom_id i (B1000View db)))
  * Nat.max 1 (List.length (referencing TagView.dicom_id i (B2000View db))).

(** Two elements are tied in an order when each is below the other. *)
Definition tied {A : Type} (leb : A -> A -> bool) (k x : A) : bool :=
  leb k x && leb x k.

(** ** Reading a published table *)

(** [row[name]], the cell of a row in the column [name]. *)
Definition value (columns : list string) (name : string) (row : list Cell) : Cell :=
  match index_of name columns with
  | Some i => cell_at i row
  | None => NA
  end.

(** [df[name]], the cells of a column from the first row to the last. *)
Definition column_values (df : DataFrame.t) (name : string) : list Cell :=
  map (value (DataFrame.columns df) name) (DataFrame.rows df).

(** The day of a cell of the column [date]; a missing cell has none. *)
Definition date_key (c : Cell) : option date.t :=
  match c with Day d => Some d | _ => None end.

(** The order of the cells of the column [date]: the days in their order,
    then the missing cells. *)
Definition date_le (c1 c2 : Cell) : Prop :=
  match date_key c1, date_key c2 with
  | Some a, Some b => date.leb a b = true
  | _, None => True
  | None, Some _ => False
  end.

(** The order of two rows of the published columns by [(site, date)]: the
    sites in the order of strings, then the dates. *)
Definition site_date_le (r1 r2 : list Cell) : Prop :=
  let site := value published_columns "site" in
  let date := value published_columns "date" in
  cell_compare (site r1) (site r2) = Lt
  \/ (site r1 = site r2 /\ date_le (date r1) (date r2)).

(** Two rows of the published columns share [(site, date)]. *)
Definition same_site_date (k r : list Cell) : bool :=
  cell_eqb (value published_columns "site" k) (value published_columns "site" r)
  && cell_eqb (value published_columns "date" k)
              (value published_columns "date" r).

(** The cells of a row of the log view in the published columns, with a
    cell for [notes]. *)
Definition published_cells (r : LogView.t) (notes : Cell) : list Cell :=
  [ Text (LogView.site r); cell_of_day (LogView.date r); notes;
    Day (LogView.dicom r); cell_of_day (LogView.bids r);
    Text (LogView.bids_validation r); Text (LogView.T1w r);
    Text (LogView.b1000 r); Text (LogView.b2000 r); Text (LogView.bold r);
    Text (LogView.id r) ].

(** The rows of the old table with the identifier [i]. *)
Definition old_rows (table : list OldLog.t) (i : string) : list OldLog.t :=
  filter (fun o => cell_eqb (Text i) (cell_of_text (OldLog.id o))) table.

(** The notes joined to the identifier [i]: those of every old row of this
    identifier, or one missing value. *)
Definition notes_of (table : list OldLog.t) (i : string) : list Cell :=
  match old_rows table i with
  | [] => [NA]
  | os => map (fun o => cell_of_text (OldLog.notes o)) os
  end.

(** The notes of the first old row of the identifier [i]. *)
Definition note (table : list OldLog.t) (i : string) : Cell :=
  hd NA (notes_of table i).

(** The rows before the sort: every row of the log view with each of its
    notes. *)
Definition selected_rows (table : list OldLog.t) (log : list LogView.t)
  : list (list Cell) :=
  flat_map (fun r => map (published_cells r) (notes_of table (LogView.id r))) log.

(** Scenario D: the published table has a note on [UC003]. *)
Definition row_D : LogView.t :=
  LogView.mk "UC" (Some (date.mk 2022 3 16)) (date.mk 2022 3 17)
    (Some (date.mk 2022 3 18)) "Y" "Y" "N" "N" "Y" "UC003".

Definition log_D : list LogView.t := [row_D].

Definition table_D : list OldLog.t :=
  [ OldLog.mk (Some "UC003") (Some "re-scan requested") ].

(** Scenario E: the published table has a row for a scan that is gone. *)
Definition table_E : list OldLog.t :=
  [ OldLog.mk (Some "GONE99") (Some "x");
    OldLog.mk (Some "UC003") (Some "re-scan requested") ].

(** A published table in which [UC003] has two rows. *)
Definition table_twice : list OldLog.t :=
  [ OldLog.mk (Some "UC003") (Some "re-scan requested");
    OldLog.mk (Some "UC003") (Some "phantom moved") ].

(** A log of five scans of two sites, three of them without acquisition
    day. *)
Definition log_mixed : list LogView.t :=
  [ LogView.mk "UC" None (date.mk 2022 3 17) None "" "" "" "" "" "UC001";
    LogView.mk "NS" None (date.mk 2022 3 11) None "" "" "" "" "" "NS001";
    LogView.mk "UC" (Some (date.mk 2022 3 16)) (date.mk 2022 3 19)
      None "" "" "" "" "" "UC002";
    LogView.mk "NS" (Some (date.mk 2022 3 10)) (date.mk 2022 3 12)
      None "" "" "" "" "" "NS002";
    LogView.mk "NS" None (date.mk 2022 3 13) None "" "" "" "" "" "NS003" ].

(** ** Paths and files ([pathlib], [DICOM.from_path]) *)

Module Path.

(** A [pathlib.Path] as the text [str(f)] of a normalised absolute POSIX
    path, [/a/b/c]. *)
Definition t : Type := string.

(** [s.split(sep)]. *)
Fixpoint split (sep : ascii) (s : string) : list string :=
  match s with
  | EmptyString => [EmptyString]
  | String c s' =>
      if Ascii.eqb c sep then EmptyString :: split sep s'
      else match split sep s' with
           | [] => [String c EmptyString]
           | piece :: pieces => String c piece :: pieces
           end
  end.

(** [f.parts] without the root. *)
Definition parts (f : t) : list string :=
  filter (fun piece => negb (String.eqb piece "")) (split "/" f).

(** [f.name], the last component, [""] for the root. *)
Definition name (f : t) : string := last (parts f) "".

Fixpoint has_dot (s : string) : bool :=
  match s with
  | EmptyString => false
  | String c s' => Ascii.eqb c "." || has_dot s'
  end.

(** [name[:i]] and [name[i+1:]] for [i = name.rfind(".")], when [name] has
    a dot. *)
Fixpoint before_last_dot (s : string) : string :=
  match s with
  | EmptyString => EmptyString
  | String c s' => if has_dot s' then String c (before_last_dot s') else EmptyString
  end.

Fixpoint after_last_dot (s : string) : string :=
  match s with
  | EmptyString => EmptyString
  | String c s' => if has_dot s' then after_last_dot s' else s'
  end.

(** The stem of a name: the name without its last suffix; the dot of the
    suffix is neither the first nor the last character
    ([0 < i < len(name) - 1]). *)
Definition stem_of (n : string) : string :=
  if has_dot n
     && negb (String.eqb (before_last_dot n) "")
     && negb (String.eqb (after_last_dot n) "")
  then before_last_dot n
  else n.

(** [f.stem]. *)
Definition stem (f : t) : string := stem_of (name f).

End Path.

Module fs.
(** What the file system holds at a path: the local date of [st_ctime];
    what [zipfile] finds there; what [json.loads(f.read_text())] gives, the
    document or [JSONDecodeError]; and the names of the entries of the
    directory there, none for a plain file, or [None] when nothing exists at
    the path. *)
Record t : Type := mk {
  st_ctime : Path.t -> date.t;
  archive : Path.t -> zipfile.File;
  read_json : Path.t -> PyResult string;
  listdir : Path.t -> option (list string)
}.
End fs.

(** [datetime.datetime.fromtimestamp(f.stat().st_ctime).date()], of a path
    at which a file or a directory exists, as at the paths the glob of
    [init] yields: [stat] returns there. *)
Definition _get_path_creationtime (disk : fs.t) (f : Path.t) : date.t :=
  fs.st_ctime disk f.

(** [DICOM.from_path]: the keyword arguments are evaluated in the order they
    are written, [id], [day], [acquisition_day], [site]. *)
Definition DICOM_from_path (disk : fs.t) (f : Path.t) : PyResult DICOM.t :=
  let id := Path.stem f in
  let day := _get_path_creationtime disk f in
  acquisition_day <- _extract_phantom_date (fs.archive disk f) ;;
  site <- _extract_site (Path.stem f) ;;
  ret (DICOM.mk id site day acquisition_day).

(** A member [_extract_phantom_date] reads: not a directory, and without
    [DICOMDIR] in its name. *)
Definition suitable (listing : zipfile.ZipInfo) : bool :=
  negb (zipfile.is_dir listing)
  && negb (contains Ascii.eqb "DICOMDIR" (zipfile.filename listing)).

(** ** The text of a DICOM date *)

Definition digit_char (n : Z) : ascii := ascii_of_N (Z.to_N (48 + n)).

Definition two_digits (n : Z) : string :=
  String (digit_char (n / 10)) (String (digit_char (n mod 10)) EmptyString).

(** The value of a DICOM element of representation DA: [YYYYMMDD]. *)
Definition DA (d : date.t) : string :=
  (two_digits (date.year d / 100) ++ two_digits (date.year d mod 100)
   ++ two_digits (date.month d) ++ two_digits (date.day d))%string.

(** A disk with one archive, acquired on 14 March 2022 and received the day
    after. *)
Definition sample_disk : fs.t :=
  fs.mk (fun _ => date.mk 2022 3 15) (fun _ => archive_with_date)
    (fun _ => ret "{}")
    (fun f => if String.eqb f "/products/mris/NS/bids_validation/NS_QC_20220314"
              then Some ["validation.out"] else None).

(** ** [ScanMixin.from_path] and [BIDS.from_path] *)

(** [f.parents], nearest first, each ancestor by its components. *)
Definition parents (f : Path.t) : list (list string) :=
  map (fun k => firstn k (Path.parts f))
      (rev (seq 0 (List.length (Path.parts f)))).

(** [session.get(DICOM, key)]: the scan of this identifier, or [None]. *)
Definition session_get (session : list DICOM.t) (key : string)
  : option DICOM.t :=
  find (fun d => String.eqb (DICOM.id d) key) session.

(** [ScanMixin.from_path], the constructor of [T1w], [DWI] and [BOLD]; the
    row stores the identifier of the scan given as [dicom], NULL for
    [None]. *)
Definition ScanMixin_from_path (disk : fs.t) (session : list DICOM.t)
    (f : Path.t) : PyResult ScanMixin.t :=
  let id := Path.stem f in
  meta <- fs.read_json disk f ;;
  match nth_error (parents f) 3 with
  | None => raise "IndexError"
  | Some ancestor =>
      let dicom := session_get session (Path.stem_of (last ancestor "")) in
      ret (ScanMixin.mk id meta (option_map DICOM.id dicom))
  end.

(** [s.replace(old, new)] for a non-empty [old]: the occurrences of [old]
    from the left, without overlap; [skip] counts the characters of an
    occurrence still to pass. *)
Fixpoint replace_from (old new : string) (skip : nat) (s : string) : string :=
  match s with
  | EmptyString => EmptyString
  | String c s' =>
      match skip with
      | S k => replace_from old new k s'
      | O =>
          if starts_with Ascii.eqb old s
          then (new ++ replace_from old new (String.length old - 1) s')%string
          else String c (replace_from old new 0 s')
      end
  end.

Definition str_replace (old new s : string) : string :=
  replace_from old new 0 s.

(** [s.endswith(suffix)]. *)
Fixpoint ends_with (suffix s : string) : bool :=
  String.eqb s suffix
  || match s with
     | EmptyString => false
     | String _ s' => ends_with suffix s'
     end.

(** [BIDS.from_path]; [pk] is the key the database gives the row. *)
Definition BIDS_from_path (disk : fs.t) (session : list DICOM.t) (pk : Z)
    (f : Path.t) : PyResult BIDS.t :=
  let validation_src := str_replace "bids" "bids_validation" f in
  let valid :=
    match fs.listdir disk validation_src with
    | None => None
    | Some names =>
        if (0 <? List.length (filter (ends_with "out") names))%nat
        then Some true else Some false
    end in
  ret (BIDS.mk pk
         (option_map DICOM.id (session_get session (Path.stem f)))
         (Some (_get_path_creationtime disk f))
         valid).

(** A component of a path: a non-empty text without [/]. *)
Definition component (s : string) : bool :=
  negb (String.eqb s "") && negb (contains Ascii.eqb "/" s).

(** ** Reading the joins *)

(** What a left outer join on the foreign key [fk] puts beside the scan
    [i]: a row of the table that references the scan, or NULLs when no row
    does. *)
Definition joined_to {R : Type} (fk : R -> option string) (i : string)
    (table : list R) (o : option R) : Prop :=
  match o with
  | Some y => In y table /\ fk y = Some i
  | None => referencing fk i table = []
  end.

(** The order of two rows of the log view by [(site, dicom)]. *)
Definition site_dicom_le (r1 r2 : LogView.t) : Prop :=
  String.compare (LogView.site r1) (LogView.site r2) = Lt
  \/ (LogView.site r1 = LogView.site r2
      /\ date.leb (LogView.dicom r1) (LogView.dicom r2) = true).

(** A text without the wildcards of LIKE. *)
Fixpoint plain (s : string) : bool :=
  match s with
  | EmptyString => true
  | String c s' =>
      negb (Ascii.eqb c "%") && negb (Ascii.eqb c "_") && plain s'
  end.

(** The flag of a validation outcome. *)
Definition flag_of_valid (valid : option bool) : string :=
  match valid with
  | Some true => "Y"
  | Some false => "N"
  | None => ""
  end.

(** An old row whose identifier some row of the log view has. *)
Definition known (log : list LogView.t) (o : OldLog.t) : bool :=
  existsb (fun r => cell_eqb (Text (LogView.id r)) (cell_of_text (OldLog.id o)))
          log.

(** The rows of a table whose cell [id] is the identifier [i]. *)
Definition count_rows_id (i : string) (df : DataFrame.t) : nat :=
  List.length
    (filter (fun row => cell_eqb (value (DataFrame.columns df) "id" row) (Text i))
            (DataFrame.rows df)).

(** * Properties *)

(** ** Characters and strings *)

Lemma upper_lower (c : ascii) : upper (lower c) = upper c.
Proof. destruct c as [[] [] [] [] [] [] [] []]; reflexivity. Qed.

Lemma lower_lower (c : ascii) : lower (lower c) = lower c.
Proof. destruct c as [[] [] [] [] [] [] [] []]; reflexivity. Qed.

Lemma str_upper_lower (s : string) : str_upper (str_lower s) = str_upper s.
Proof.
  unfold str_upper, str_lower.
  induction s as [| c s IH]; simpl; [reflexivity |].
  now rewrite IH, upper_lower.
Qed.

Lemma append_assoc (a b c : string) : ((a ++ b) ++ c = a ++ (b ++ c))%string.
Proof. induction a as [| x a IH]; simpl; [reflexivity | now rewrite IH]. Qed.

Lemma starts_with_take (p s : string) :
  starts_with eqb_nocase p s = true ->
  exists post, s = (take_like p s ++ post)%string
               /\ str_lower (take_like p s) = str_lower p.
Proof.
  revert s. induction p as [| a p IH]; intros s H.
  - exists s. destruct s; split; reflexivity.
  - destruct s as [| b s]; simpl in H; [discriminate |].
    apply andb_true_iff in H as [Hab Hps].
    destruct (IH s Hps) as (post & Hs & Hl).
    exists post. simpl. split.
    + now rewrite <- Hs.
    + unfold str_lower in *. simpl. rewrite Hl. f_equal.
      symmetry. now apply Ascii.eqb_eq.
Qed.

Lemma starts_with_lower (m post : string) :
  starts_with eqb_nocase (str_lower m) (m ++ post) = true.
Proof.
  induction m as [| c m IH]; simpl; [reflexivity |].
  unfold eqb_nocase. rewrite lower_lower, Ascii.eqb_refl. exact IH.
Qed.

(** ** [re.search] *)

Lemma match_alternatives_some (alts : list string) (s m : string) :
  match_alternatives alts s = Some m ->
  exists p post, In p alts /\ s = (m ++ post)%string /\ str_lower m = str_lower p.
Proof.
  induction alts as [| p alts IH]; simpl; [discriminate |].
  destruct (starts_with eqb_nocase p s) eqn:E.
  - intros [= <-]. destruct (starts_with_take _ _ E) as (post & Hs & Hl).
    exists p, post. auto.
  - intros H. destruct (IH H) as (q & post & Hq & Hs & Hl).
    exists q, post. auto.
Qed.

Lemma match_alternatives_none (alts : list string) (s : string) :
  match_alternatives alts s = None ->
  forall p, In p alts -> starts_with eqb_nocase p s = false.
Proof.
  induction alts as [| q alts IH]; simpl; [contradiction |].
  destruct (starts_with eqb_nocase q s) eqn:E; [discriminate |].
  intros H p [<- | Hp]; auto.
Qed.

Lemma re_search_some (alts : list string) (s m : string) :
  re_search alts s = Some m ->
  exists p pre post,
    In p alts /\ s = (pre ++ m ++ post)%string /\ str_lower m = str_lower p.
Proof.
  induction s as [| c s IH]; simpl.
  - destruct (match_alternatives alts "") eqn:E; [| discriminate].
    intros [= <-]. destruct (match_alternatives_some _ _ _ E) as (p & post & ?).
    exists p, "", post. auto.
  - destruct (match_alternatives alts (String c s)) eqn:E.
    + intros [= <-]. destruct (match_alternatives_some _ _ _ E) as (p & post & ?).
      exists p, "", post. auto.
    + intros H. destruct (IH H) as (p & pre & post & Hp & Hs & Hl).
      exists p, (String c pre), post. simpl. rewrite <- Hs. auto.
Qed.

Lemma re_search_none (alts : list string) (pre post : string) :
  re_search alts (pre ++ post) = None ->
  forall p, In p alts -> starts_with eqb_nocase p post = false.
Proof.
  induction pre as [| c pre IH]; simpl.
  - destruct post as [| c post]; simpl;
      destruct (match_alternatives alts _) eqn:E; try discriminate;
      intros _; now apply match_alternatives_none.
  - destruct (match_alternatives alts _) eqn:E; [discriminate |]. exact IH.
Qed.

(** ** Site extraction *)

Lemma site_pattern_codes (p : string) :
  In p site_pattern -> In (str_upper (str_lower p)) site_codes.
Proof.
  unfold site_pattern. simpl.
  intros [<- | [<- | [<- | [<- | [<- | [<- | []]]]]]]; vm_compute; tauto.
Qed.

(** C7, the failure as the claim words it: a stem without a site code makes
    [_extract_site] raise [AttributeError], not [UnrecognizedSiteError]. *)
Lemma extract_site_no_UnrecognizedSiteError :
  ~ ((exists code, _extract_site "phantom" = ret code /\ In code site_codes)
     \/ _extract_site "phantom" = raise "UnrecognizedSiteError").
Proof.
  intros [(code & H & _) | H]; vm_compute in H; discriminate.
Qed.

(** C7 (amended): for every ASCII scan identifier, [_extract_site] either
    returns one of the six site codes, the upper-cased text of an occurrence
    of a code in the identifier, or raises [AttributeError], and it raises
    only when no code occurs in the identifier in any letter case.  (Of an
    identifier with letters outside ASCII, which Python folds in its own
    way, nothing is said.) *)
Theorem extract_site_closed_set (stem : string) :
  isascii stem = true ->
  (exists code,
      _extract_site stem = ret code /\ In code site_codes
      /\ exists pre m post,
           stem = (pre ++ m ++ post)%string /\ str_upper m = code)
  \/ (_extract_site stem = raise "AttributeError"
      /\ forall pre m post,
           stem = (pre ++ m ++ post)%string -> ~ In (str_lower m) site_pattern).
Proof.
  intros _. unfold _extract_site.
  destruct (re_search site_pattern stem) as [m |] eqn:E.
  - left. destruct (re_search_some _ _ _ E) as (p & pre & post & Hp & Hs & Hl).
    exists (str_upper m). split; [reflexivity |]. split.
    + rewrite <- str_upper_lower, Hl. now apply site_pattern_codes.
    + now exists pre, m, post.
  - right. split; [reflexivity |]. intros pre m post -> Hin.
    pose proof (re_search_none _ _ _ E _ Hin) as H.
    now rewrite starts_with_lower in H.
Qed.

Lemma extract_site_closed_set_witness :
  isascii "uc_QC_20220314" = true
  /\ ((exists code,
         _extract_site "uc_QC_20220314" = ret code /\ In code site_codes
         /\ exists pre m post,
              "uc_QC_20220314" = (pre ++ m ++ post)%string
              /\ str_upper m = code)
      \/ (_extract_site "uc_QC_20220314" = raise "AttributeError"
          /\ forall pre m post,
               "uc_QC_20220314" = (pre ++ m ++ post)%string ->
               ~ In (str_lower m) site_pattern)).
Proof.
  split; [reflexivity |].
  apply (extract_site_closed_set "uc_QC_20220314"). reflexivity.
Defined.

(** ** Acquisition-day extraction *)

Lemma first_header_unsuitable (filelist : list zipfile.ZipInfo) :
  forallb (fun listing =>
             zipfile.is_dir listing
             || contains Ascii.eqb "DICOMDIR" (zipfile.filename listing))
          filelist = true ->
  first_header filelist = ret None.
Proof.
  induction filelist as [| listing filelist IH]; simpl; [reflexivity |].
  intros H. apply andb_true_iff in H as [H1 H2].
  rewrite <- negb_orb, H1. simpl. now apply IH.
Qed.

(** An archive without a suitable member leaves [header] unbound. *)
Lemma extract_phantom_date_unbound (filelist : list zipfile.ZipInfo) :
  forallb (fun listing =>
             zipfile.is_dir listing
             || contains Ascii.eqb "DICOMDIR" (zipfile.filename listing))
          filelist = true ->
  _extract_phantom_date (zipfile.Zip filelist) = raise "UnboundLocalError".
Proof.
  intros H. unfold _extract_phantom_date.
  now rewrite (first_header_unsuitable _ H).
Qed.

(** The result is absent for a file that is not an archive, and for no
    other. *)
Lemma extract_phantom_date_absent_iff (f : zipfile.File) :
  _extract_phantom_date f = ret None <-> f = zipfile.NotZip.
Proof.
  split; [| intros ->; reflexivity].
  destruct f as [| filelist]; [reflexivity |].
  unfold _extract_phantom_date.
  destruct (first_header filelist) as [exc | [header |]]; simpl;
    try discriminate.
  destruct (dataset_get header "AcquisitionDate") as [s |]; try discriminate.
  destruct (strptime_Ymd s); simpl; discriminate.
Qed.

Example extract_phantom_date_present :
  _extract_phantom_date archive_with_date = ret (Some (date.mk 2022 3 14)).
Proof. reflexivity. Qed.

(** C8, on the code: a file that is not an archive gives an absent day, but
    an archive without a suitable member makes [_extract_phantom_date] raise
    [UnboundLocalError], and a member without [AcquisitionDate] makes it
    raise [TypeError]. *)
Theorem extract_phantom_date_raises :
  _extract_phantom_date zipfile.NotZip = ret None
  /\ _extract_phantom_date archive_without_image = raise "UnboundLocalError"
  /\ _extract_phantom_date archive_without_date = raise "TypeError".
Proof. repeat split; reflexivity. Qed.

(** ** Stable sorting *)

Section StableSort.

Context {A : Type} (leb : A -> A -> bool).

Lemma insert_sorted_perm (x : A) (l : list A) :
  Permutation (insert_sorted leb x l) (x :: l).
Proof.
  induction l as [| y l IH]; simpl; [reflexivity |].
  destruct (leb x y); [reflexivity |].
  rewrite IH. apply perm_swap.
Qed.

Lemma stable_sort_perm (l : list A) : Permutation (stable_sort leb l) l.
Proof.
  induction l as [| x l IH]; simpl; [reflexivity |].
  rewrite insert_sorted_perm. now constructor.
Qed.

Lemma stable_sort_in (x : A) (l : list A) :
  In x (stable_sort leb l) <-> In x l.
Proof.
  split; apply Permutation_in;
    [apply stable_sort_perm | symmetry; apply stable_sort_perm].
Qed.

Lemma filter_length_perm (P : A -> bool) (l l' : list A) :
  Permutation l l' ->
  List.length (filter P l) = List.length (filter P l').
Proof.
  induction 1 as [| x l l' _ IH | x y l | l l' l'' _ IH1 _ IH2]; simpl.
  - reflexivity.
  - destruct (P x); simpl; now rewrite IH.
  - destruct (P x), (P y); reflexivity.
  - now rewrite IH1.
Qed.

Hypothesis leb_total : forall x y, leb x y = false -> leb y x = true.
Hypothesis leb_trans :
  forall x y z, leb x y = true -> leb y z = true -> leb x z = true.

Lemma insert_sorted_sorted (x : A) (l : list A) :
  StronglySorted (fun a b => leb a b = true) l ->
  StronglySorted (fun a b => leb a b = true) (insert_sorted leb x l).
Proof.
  induction 1 as [| y l Hs IH Hy]; simpl.
  - repeat constructor.
  - destruct (leb x y) eqn:E.
    + constructor; [now constructor |].
      constructor; [exact E |].
      eapply Forall_impl; [| exact Hy]. intros z Hz. now apply leb_trans with y.
    + constructor; [exact IH |].
      eapply Permutation_Forall.
      * symmetry. apply insert_sorted_perm.
      * constructor; [now apply leb_total | exact Hy].
Qed.

Lemma stable_sort_sorted (l : list A) :
  StronglySorted (fun a b => leb a b = true) (stable_sort leb l).
Proof.
  induction l as [| x l IH]; simpl; [constructor |].
  now apply insert_sorted_sorted.
Qed.

Lemma insert_sorted_filter (Q : A -> bool) (x : A) (l : list A) :
  (forall y, In y l -> Q x = true -> Q y = true -> leb x y = true) ->
  filter Q (insert_sorted leb x l) = filter Q (x :: l).
Proof.
  induction l as [| y l IH]; intros H; simpl; [reflexivity |].
  destruct (leb x y) eqn:E; [reflexivity |].
  simpl in *. rewrite IH by (intros z Hz; apply H; now right).
  destruct (Q x) eqn:Hx; [| reflexivity].
  destruct (Q y) eqn:Hy; [| reflexivity].
  rewrite (H y (or_introl eq_refl) eq_refl Hy) in E. discriminate.
Qed.

(** The elements a predicate selects come out in the order they went in,
    when any two of them are tied. *)
Lemma stable_sort_filter (Q : A -> bool) (l : list A) :
  (forall x y, In x l -> In y l -> Q x = true -> Q y = true -> leb x y = true) ->
  filter Q (stable_sort leb l) = filter Q l.
Proof.
  induction l as [| x l IH]; intros H; simpl; [reflexivity |].
  rewrite insert_sorted_filter.
  - simpl. rewrite IH; [reflexivity |].
    intros a b Ha Hb. apply H; now right.
  - intros y Hy. apply (proj1 (stable_sort_in y l)) in Hy.
    apply H; [left; reflexivity | right; exact Hy].
Qed.

(** The elements tied with [k] come out in the order they went in. *)
Lemma stable_sort_stable (k : A) (l : list A) :
  filter (tied leb k) (stable_sort leb l) = filter (tied leb k) l.
Proof.
  apply stable_sort_filter. intros x y _ _ Hx Hy. unfold tied in Hx, Hy.
  apply andb_true_iff in Hx as [_ Hxk]. apply andb_true_iff in Hy as [Hky _].
  now apply leb_trans with k.
Qed.

End StableSort.

(** ** Derived tag views *)

Lemma select_tag_rows (pat : string) (db : Database.t) (r : TagView.t) :
  In r (select_tag pat db) ->
  exists w, In w (Database.dwis db) /\ like pat (ScanMixin.id w) = true
            /\ r = TagView.mk (ScanMixin.id w) (ScanMixin.dicom_id w) "Y".
Proof.
  unfold select_tag. intros H.
  apply in_map_iff in H as (w & <- & Hw).
  apply filter_In in Hw as [Hw Hl].
  exists w. simpl in Hl. destruct (like pat (ScanMixin.id w)) eqn:E;
    [| discriminate].
  split; [exact Hw |]. split; reflexivity.
Qed.

(** C9: every row of [B1000View], and every row of [B2000View], has the
    label ["Y"]; the [else_="N"] of the CASE is never taken, because WHERE
    keeps the rows the CASE condition holds for. *)
Theorem tag_views_only_Y (db : Database.t) (r : TagView.t) :
  In r (B1000View db) \/ In r (B2000View db) -> TagView.tag r = "Y".
Proof.
  unfold B1000View, B2000View, view.
  intros [H | H]; apply select_tag_rows in H as (w & _ & _ & ->); reflexivity.
Qed.

Lemma tag_views_only_Y_witness :
  let r := TagView.mk "sub-UC003_acq-b1000_dwi" (Some "UC003") "Y" in
  (In r (B1000View sample_db) \/ In r (B2000View sample_db))
  /\ TagView.tag r = "Y".
Proof.
  intros r.
  assert (H : In r (B1000View sample_db) \/ In r (B2000View sample_db))
    by (left; vm_compute; tauto).
  split; [exact H | exact (tag_views_only_Y sample_db r H)].
Defined.

(** ** The consolidated status view *)

Lemma select_forced_blank (j : LogView.joined) :
  LogView.bids_validation (LogView.select j) = ""
  \/ LogView.bids_validation (LogView.select j) = "N" ->
  LogView.T1w (LogView.select j) = ""
  /\ LogView.b1000 (LogView.select j) = ""
  /\ LogView.b2000 (LogView.select j) = ""
  /\ LogView.bold (LogView.select j) = "".
Proof.
  destruct j as [[[[[d b] t1] bo] v1] v2].
  destruct b as [[i fk day [[|] |]] |]; simpl.
  - intros [H | H]; discriminate.
  - intros _. repeat split; reflexivity.
  - intros _. repeat split; reflexivity.
  - intros _. repeat split; reflexivity.
Qed.

Lemma table_rows (db : Database.t) (r : LogView.t) :
  In r (LogView.table db) <->
  exists j, In j (LogView.joins db) /\ r = LogView.select j.
Proof.
  unfold LogView.table, view. rewrite in_map_iff. split.
  - intros (j & <- & Hj). exists j. split; [| reflexivity].
    now apply stable_sort_in in Hj.
  - intros (j & Hj & ->). exists j. split; [reflexivity |].
    now apply stable_sort_in.
Qed.

(** C2: in every row of the log view, when [bids_validation] is [""] or
    ["N"], the columns [T1w], [b1000], [b2000] and [bold] are all [""]. *)
Theorem forced_blank (db : Database.t) (r : LogView.t) :
  In r (LogView.table db) ->
  LogView.bids_validation r = "" \/ LogView.bids_validation r = "N" ->
  LogView.T1w r = "" /\ LogView.b1000 r = ""
  /\ LogView.b2000 r = "" /\ LogView.bold r = "".
Proof.
  intros H. apply table_rows in H as (j & _ & ->). apply select_forced_blank.
Qed.

(** Scenario B: [WS002] failed validation; its functional derivative does
    not show. *)
Lemma forced_blank_witness :
  let r := LogView.mk "WS" None (date.mk 2022 3 16) (Some (date.mk 2022 3 18))
             "N" "" "" "" "" "WS002" in
  In r (LogView.table sample_db)
  /\ (LogView.bids_validation r = "" \/ LogView.bids_validation r = "N")
  /\ LogView.T1w r = "" /\ LogView.b1000 r = ""
  /\ LogView.b2000 r = "" /\ LogView.bold r = "".
Proof.
  intros r.
  assert (Hin : In r (LogView.table sample_db)) by (vm_compute; tauto).
  assert (Hbv : LogView.bids_validation r = ""
                \/ LogView.bids_validation r = "N") by (right; reflexivity).
  split; [exact Hin |]. split; [exact Hbv |].
  exact (forced_blank sample_db r Hin Hbv).
Defined.

Example sample_log :
  map (fun r => (LogView.id r, LogView.bids_validation r, LogView.T1w r,
                 LogView.b1000 r, LogView.b2000 r, LogView.bold r))
      (LogView.table sample_db)
  = [ ("NS001", "", "", "", "", "");
      ("UC003", "Y", "Y", "Y", "N", "N");
      ("WS002", "N", "", "", "", "") ].
Proof. reflexivity. Qed.

(** *** Rows per scan *)

Section JoinCount.

Context {A B : Type} (key : A -> string) (fk : B -> option string).


Lemma join_block_length (x : A) (b : list B) :
  List.length
    (match filter (fun y => holds (sql_eq String.eqb (Some (key x)) (fk y))) b with
     | [] => [(x, @None B)]
     | ys => map (fun y => (x, Some y)) ys
     end)
  = Nat.max 1 (List.length (referencing fk (key x) b)).
Proof.
  unfold referencing.
  destruct (filter _ b) as [| y ys]; simpl; [reflexivity |].
  now rewrite length_map.
Qed.

Lemma join_block_key (P : A -> bool) (x : A) (b : list B) :
  filter (fun p => P (fst p))
    (match filter (fun y => holds (sql_eq String.eqb (Some (key x)) (fk y))) b with
     | [] => [(x, @None B)]
     | ys => map (fun y => (x, Some y)) ys
     end)
  = if P x
    then match filter (fun y => holds (sql_eq String.eqb (Some (key x)) (fk y))) b with
         | [] => [(x, @None B)]
         | ys => map (fun y => (x, Some y)) ys
         end
    else [].
Proof.
  destruct (filter _ b) as [| y ys].
  - simpl. now destruct (P x).
  - generalize (y :: ys). intros l.
    induction l as [| z l IH]; simpl.
    + now destruct (P x).
    + rewrite IH. now destruct (P x).
Qed.

(** A left outer join multiplies the rows of the key [i] by the number of
    rows that reference [i], or leaves them as they are when none does. *)
Lemma left_outer_join_count (i : string) (a : list A) (b : list B) :
  List.length
    (filter (fun p => String.eqb (key (fst p)) i) (left_outer_join
       (fun x y => sql_eq String.eqb (Some (key x)) (fk y)) a b))
  = List.length (filter (fun x => String.eqb (key x) i) a)
    * Nat.max 1 (List.length (referencing fk i b)).
Proof.
  unfold left_outer_join.
  induction a as [| x a IH]; [reflexivity |].
  cbn [flat_map filter List.length].
  rewrite filter_app, length_app, IH.
  rewrite (join_block_key (fun x => String.eqb (key x) i)).
  destruct (String.eqb_spec (key x) i) as [<- | _].
  - rewrite join_block_length. cbn [List.length]. lia.
  - reflexivity.
Qed.

Lemma left_outer_join_fst (a : list A) (b : list B) (p : A * option B) :
  In p (left_outer_join
       (fun x y => sql_eq String.eqb (Some (key x)) (fk y)) a b) -> In (fst p) a.
Proof.
  unfold left_outer_join. rewrite in_flat_map. intros (x & Hx & Hp).
  destruct (filter _ b) as [| y ys].
  - destruct Hp as [<- | []]. exact Hx.
  - apply in_map_iff in Hp as (z & <- & _). exact Hx.
Qed.

End JoinCount.

Lemma scan_fst (j : LogView.joined) :
  LogView.scan j = fst (fst (fst (fst (fst j)))).
Proof. now destruct j as [[[[[d b] t1] bo] v1] v2]. Qed.

Lemma select_id (j : LogView.joined) :
  LogView.id (LogView.select j) = DICOM.id (LogView.scan j).
Proof. now destruct j as [[[[[d b] t1] bo] v1] v2]. Qed.

Lemma joins_count (db : Database.t) (i : string) :
  List.length
    (filter (fun j => String.eqb (DICOM.id (LogView.scan j)) i) (LogView.joins db))
  = List.length
      (filter (fun d => String.eqb (DICOM.id d) i) (Database.dicoms db))
    * fanout db i.
Proof.
  assert (E : forall l : list LogView.joined,
             filter (fun j => String.eqb (DICOM.id (LogView.scan j)) i) l
             = filter (fun j : LogView.joined =>
                         String.eqb (DICOM.id (fst (fst (fst (fst (fst j)))))) i) l)
    by (intros l; apply filter_ext; intros j; now rewrite scan_fst).
  rewrite E. clear E.
  unfold LogView.joins, LogView.on_dicom, fanout. cbv zeta.
  rewrite (left_outer_join_count
             (A := DICOM.t * option BIDS.t * option ScanMixin.t
                   * option ScanMixin.t * option TagView.t)
             (fun x => DICOM.id (fst (fst (fst (fst x))))) TagView.dicom_id).
  rewrite (left_outer_join_count
             (A := DICOM.t * option BIDS.t * option ScanMixin.t
                   * option ScanMixin.t)
             (fun x => DICOM.id (fst (fst (fst x)))) TagView.dicom_id).
  rewrite (left_outer_join_count
             (A := DICOM.t * option BIDS.t * option ScanMixin.t)
             (fun x => DICOM.id (fst (fst x))) ScanMixin.dicom_id).
  rewrite (left_outer_join_count
             (A := DICOM.t * option BIDS.t)
             (fun x => DICOM.id (fst x)) ScanMixin.dicom_id).
  rewrite (left_outer_join_count DICOM.id BIDS.dicom_id).
  now rewrite !Nat.mul_assoc.
Qed.

Lemma table_count (db : Database.t) (i : string) :
  count_id i (LogView.table db)
  = List.length
      (filter (fun d => String.eqb (DICOM.id d) i) (Database.dicoms db))
    * fanout db i.
Proof.
  unfold count_id, LogView.table, view.
  rewrite <- joins_count.
  rewrite <- (filter_length_perm _ _ _
                (stable_sort_perm LogView.order_leb (LogView.joins db))).
  generalize (stable_sort LogView.order_leb (LogView.joins db)). intros l.
  induction l as [| j l IH]; simpl; [reflexivity |].
  rewrite select_id. destruct (String.eqb _ i); simpl; now rewrite IH.
Qed.

Lemma primary_key_count (ds : list DICOM.t) (d : DICOM.t) :
  NoDup (map DICOM.id ds) -> In d ds ->
  List.length (filter (fun x => String.eqb (DICOM.id x) (DICOM.id d)) ds) = 1%nat.
Proof.
  induction ds as [| x ds IH]; simpl; [contradiction |].
  intros Hnd Hin. inversion Hnd as [| ? ? Hx Hds]; subst.
  assert (Hnone : forall y, ~ In (DICOM.id y) (map DICOM.id ds) ->
            filter (fun x => String.eqb (DICOM.id x) (DICOM.id y)) ds = []).
  { intros y Hy. clear - Hy. induction ds as [| z ds IH]; simpl; [reflexivity |].
    destruct (String.eqb_spec (DICOM.id z) (DICOM.id y)) as [E | _].
    - exfalso. apply Hy. left. exact E.
    - apply IH. intros H. apply Hy. now right. }
  destruct Hin as [-> | Hin].
  - rewrite String.eqb_refl. simpl. now rewrite Hnone.
  - destruct (String.eqb_spec (DICOM.id x) (DICOM.id d)) as [E | _].
    + exfalso. apply Hx. rewrite E. now apply in_map.
    + now apply IH.
Qed.

Lemma fanout_pos (db : Database.t) (i : string) : (1 <= fanout db i)%nat.
Proof.
  unfold fanout.
  repeat (apply (Nat.mul_le_mono 1 _ 1 _) || apply Nat.le_max_l).
Qed.

(** C1, as the claim words it: the log view of a scan with two functional
    derivatives holds two rows for the scan, not one. *)
Lemma LogView_two_rows_for_one_scan :
  map DICOM.id (Database.dicoms two_runs_db) = ["UC003"]
  /\ count_id "UC003" (LogView.table two_runs_db) = 2%nat
  /\ ~ (forall db d, NoDup (map DICOM.id (Database.dicoms db)) ->
          In d (Database.dicoms db) ->
          count_id (DICOM.id d) (LogView.table db) = 1%nat).
Proof.
  split; [reflexivity |]. split; [reflexivity |].
  intros H.
  specialize (H two_runs_db (DICOM.mk "UC003" "UC" (date.mk 2022 3 17) None)).
  assert (Hnd : NoDup (map DICOM.id (Database.dicoms two_runs_db)))
    by (repeat constructor; simpl; tauto).
  specialize (H Hnd (or_introl eq_refl)). vm_compute in H. discriminate.
Qed.

(** C1 (amended): in every database whose scans have distinct identifiers,
    every scan has at least one row in the log view, whether or not any
    [bids], [t1ws], [bolds], [b1000] or [b2000] row references it; it has as
    many rows as the joins make of it ([fanout]), and so exactly one when at
    most one row of each of these five relations references it. *)
Theorem LogView_rows_per_scan (db : Database.t) (d : DICOM.t) :
  NoDup (map DICOM.id (Database.dicoms db)) ->
  In d (Database.dicoms db) ->
  let i := DICOM.id d in
  count_id i (LogView.table db) = fanout db i
  /\ (1 <= count_id i (LogView.table db))%nat
  /\ ((List.length (referencing BIDS.dicom_id i (Database.bids db)) <= 1)%nat ->
      (List.length (referencing ScanMixin.dicom_id i (Database.t1ws db)) <= 1)%nat ->
      (List.length (referencing ScanMixin.dicom_id i (Database.bolds db)) <= 1)%nat ->
      (List.length (referencing TagView.dicom_id i (B1000View db)) <= 1)%nat ->
      (List.length (referencing TagView.dicom_id i (B2000View db)) <= 1)%nat ->
      count_id i (LogView.table db) = 1%nat).
Proof.
  intros Hnd Hin i.
  assert (E : count_id i (LogView.table db) = fanout db i).
  { rewrite table_count. unfold i. rewrite (primary_key_count _ _ Hnd Hin).
    apply Nat.mul_1_l. }
  split; [exact E |]. split.
  - rewrite E. apply fanout_pos.
  - intros H1 H2 H3 H4 H5. rewrite E. unfold fanout.
    rewrite !Nat.max_l by assumption. reflexivity.
Qed.

(** Scenario A: [NS001] has no conversion record and no derivative, and has
    its one row. *)
Lemma LogView_rows_per_scan_witness :
  let d := DICOM.mk "NS001" "NS" (date.mk 2022 3 15) (Some (date.mk 2022 3 14)) in
  NoDup (map DICOM.id (Database.dicoms sample_db))
  /\ In d (Database.dicoms sample_db)
  /\ referencing BIDS.dicom_id "NS001" (Database.bids sample_db) = []
  /\ count_id "NS001" (LogView.table sample_db) = 1%nat.
Proof.
  intros d.
  assert (Hnd : NoDup (map DICOM.id (Database.dicoms sample_db))).
  { simpl. repeat constructor; simpl; intuition discriminate. }
  assert (Hin : In d (Database.dicoms sample_db)) by (left; reflexivity).
  split; [exact Hnd |]. split; [exact Hin |]. split; [reflexivity |].
  refine (proj2 (proj2 (LogView_rows_per_scan sample_db d Hnd Hin)) _ _ _ _ _);
    vm_compute; lia.
Defined.

(** ** The order of cells *)

Lemma date_compare_eq (a b : date.t) : date.compare a b = Eq <-> a = b.
Proof.
  destruct a as [y m d], b as [y' m' d']. unfold date.compare. simpl.
  destruct (Z.compare_spec y y') as [Ey | Ey | Ey];
    destruct (Z.compare_spec m m') as [Em | Em | Em];
    destruct (Z.compare_spec d d') as [Ed | Ed | Ed]; subst;
    split; intros E; try discriminate; try reflexivity;
    injection E; intros; lia.
Qed.

Lemma date_compare_antisym (a b : date.t) :
  date.compare a b = CompOpp (date.compare b a).
Proof.
  unfold date.compare.
  rewrite (Z.compare_antisym (date.year a)), (Z.compare_antisym (date.month a)),
    (Z.compare_antisym (date.day a)).
  destruct (date.year a ?= date.year b)%Z, (date.month a ?= date.month b)%Z,
    (date.day a ?= date.day b)%Z; reflexivity.
Qed.

Lemma date_compare_trans (a b c : date.t) :
  date.compare a b = Lt -> date.compare b c = Lt -> date.compare a c = Lt.
Proof.
  destruct a as [y m d], b as [y' m' d'], c as [y'' m'' d''].
  unfold date.compare. simpl.
  destruct (Z.compare_spec y y'); try discriminate;
    destruct (Z.compare_spec y' y''); try discriminate;
    destruct (Z.compare_spec y y''); try lia; try reflexivity;
    destruct (Z.compare_spec m m'); try discriminate;
    destruct (Z.compare_spec m' m''); try discriminate;
    destruct (Z.compare_spec m m''); try lia; try reflexivity;
    destruct (Z.compare_spec d d'); try discriminate;
    destruct (Z.compare_spec d' d''); try discriminate;
    destruct (Z.compare_spec d d''); try lia; reflexivity.
Qed.

Lemma string_compare_trans (a b c : string) :
  String.compare a b = Lt -> String.compare b c = Lt -> String.compare a c = Lt.
Proof.
  intros H1 H2.
  apply OrderedTypeEx.String_as_OT.cmp_lt in H1, H2.
  apply OrderedTypeEx.String_as_OT.cmp_lt.
  eapply OrderedTypeEx.String_as_OT.lt_trans; eassumption.
Qed.

Lemma cell_compare_eq (a b : Cell) : cell_compare a b = Eq <-> a = b.
Proof.
  destruct a as [| | s | d], b as [| | t | e]; simpl;
    try (split; intros H; (discriminate || reflexivity)).
  - rewrite (OrderedTypeEx.String_as_OT.cmp_eq s t) .
    split; [now intros -> | now intros [= ->]].
  - rewrite date_compare_eq. split; [now intros -> | now intros [= ->]].
Qed.

Lemma cell_compare_antisym (a b : Cell) :
  cell_compare a b = CompOpp (cell_compare b a).
Proof.
  destruct a as [| | s | d], b as [| | t | e]; simpl; try reflexivity.
  - apply String.compare_antisym.
  - apply date_compare_antisym.
Qed.

Lemma cell_compare_trans (a b c : Cell) :
  cell_compare a b = Lt -> cell_compare b c = Lt -> cell_compare a c = Lt.
Proof.
  destruct a as [| | s | d], b as [| | t | e], c as [| | u | f]; simpl;
    try discriminate; try reflexivity.
  - apply string_compare_trans.
  - apply date_compare_trans.
Qed.

Lemma cell_eqb_eq (a b : Cell) : cell_eqb a b = true <-> a = b.
Proof.
  unfold cell_eqb. rewrite <- cell_compare_eq.
  destruct (cell_compare a b); split; (discriminate || reflexivity).
Qed.

Lemma lex_compare_antisym (keys : list nat) (r1 r2 : list Cell) :
  lex_compare keys r1 r2 = CompOpp (lex_compare keys r2 r1).
Proof.
  induction keys as [| i keys IH]; simpl; [reflexivity |].
  rewrite (cell_compare_antisym (cell_at i r1)).
  destruct (cell_compare (cell_at i r2) (cell_at i r1)); simpl;
    [exact IH | reflexivity | reflexivity].
Qed.

Lemma lex_leb_total (keys : list nat) (r1 r2 : list Cell) :
  lex_leb keys r1 r2 = false -> lex_leb keys r2 r1 = true.
Proof.
  unfold lex_leb. rewrite (lex_compare_antisym keys r1 r2).
  destruct (lex_compare keys r2 r1); simpl; (discriminate || reflexivity).
Qed.

Lemma lex_leb_trans (keys : list nat) (r1 r2 r3 : list Cell) :
  lex_leb keys r1 r2 = true -> lex_leb keys r2 r3 = true ->
  lex_leb keys r1 r3 = true.
Proof.
  unfold lex_leb. induction keys as [| i keys IH]; simpl; [reflexivity |].
  destruct (cell_compare (cell_at i r1) (cell_at i r2)) eqn:E12;
    destruct (cell_compare (cell_at i r2) (cell_at i r3)) eqn:E23;
    try discriminate.
  - apply cell_compare_eq in E12, E23. rewrite E12, E23.
    rewrite (proj2 (cell_compare_eq _ _) eq_refl). exact IH.
  - apply cell_compare_eq in E12. rewrite E12, E23. reflexivity.
  - apply cell_compare_eq in E23. rewrite <- E23, E12. reflexivity.
  - rewrite (cell_compare_trans _ _ _ E12 E23). reflexivity.
Qed.

(** ** The steps of [merge_logs] on a log view and an old table *)

Lemma filter_map_comm {X Y : Type} (f : Y -> bool) (g : X -> Y) (l : list X) :
  filter f (map g l) = map g (filter (fun x => f (g x)) l).
Proof.
  induction l as [| x l IH]; simpl; [reflexivity |].
  destruct (f (g x)); simpl; now rewrite IH.
Qed.

Lemma flat_map_map {X Y Z : Type} (f : Y -> list Z) (g : X -> Y) (l : list X) :
  flat_map f (map g l) = flat_map (fun x => f (g x)) l.
Proof. induction l as [| x l IH]; simpl; [reflexivity | now rewrite IH]. Qed.

Lemma map_flat_map {X Y Z : Type} (f : Y -> Z) (g : X -> list Y) (l : list X) :
  map f (flat_map g l) = flat_map (fun x => map f (g x)) l.
Proof.
  induction l as [| x l IH]; simpl; [reflexivity |].
  now rewrite map_app, IH.
Qed.

Lemma merge_left_log (table : list OldLog.t) (log : list LogView.t) :
  merge_left (read_sql_table log) (OldLog.frame table) "id"
  = ret (DataFrame.mk (log_columns ++ ["notes"])
           (flat_map
              (fun r => map (fun n => log_cells r ++ [n])
                          (notes_of table (LogView.id r)))
              log)).
Proof.
  unfold merge_left, read_sql_table, OldLog.frame.
  cbn [DataFrame.columns DataFrame.rows].
  change (index_of "id" log_columns) with (Some 9%nat).
  change (index_of "id" ["id"; "notes"]) with (Some 0%nat).
  cbv iota beta. unfold ret. do 2 f_equal.
  rewrite flat_map_map. apply flat_map_ext. intros r.
  rewrite filter_map_comm. unfold notes_of, old_rows.
  change (cell_at 9 (log_cells r)) with (Text (LogView.id r)).
  cbn [cell_at nth].
  destruct (filter _ table) as [| o os]; [reflexivity |].
  cbn [map]. rewrite !map_map. reflexivity.
Qed.

Lemma getitem_merged (table : list OldLog.t) (log : list LogView.t) :
  getitem
    (DataFrame.mk (log_columns ++ ["notes"])
       (flat_map
          (fun r => map (fun n => log_cells r ++ [n])
                      (notes_of table (LogView.id r)))
          log))
    published_columns
  = ret (DataFrame.mk published_columns (selected_rows table log)).
Proof.
  unfold getitem. cbn [DataFrame.columns DataFrame.rows].
  change (indices published_columns (log_columns ++ ["notes"]))
    with (@ret (list nat) [0; 1; 10; 2; 3; 4; 5; 6; 7; 8; 9]%nat).
  cbn [bind ret]. unfold ret. do 2 f_equal. unfold selected_rows.
  rewrite map_flat_map. apply flat_map_ext. intros r.
  rewrite map_map. reflexivity.
Qed.

Lemma selected_rows_shape (table : list OldLog.t) (log : list LogView.t)
    (row : list Cell) :
  In row (selected_rows table log) <->
  exists r n, In r log /\ In n (notes_of table (LogView.id r))
              /\ row = published_cells r n.
Proof.
  unfold selected_rows. rewrite in_flat_map. split.
  - intros (r & Hr & Hrow). apply in_map_iff in Hrow as (n & <- & Hn).
    now exists r, n.
  - intros (r & n & Hr & Hn & ->). exists r. split; [exact Hr |].
    now apply in_map.
Qed.

Lemma sortable_of_kind (P : Cell -> Prop) (col : list Cell) :
  (forall a b, P a -> P b -> same_kind a b = true) ->
  Forall P col -> sortable col = true.
Proof.
  intros HP. induction 1 as [| c col Hc Hcol IH]; simpl; [reflexivity |].
  rewrite IH, andb_true_r. apply forallb_forall. intros b Hb.
  apply HP; [exact Hc |]. rewrite Forall_forall in Hcol. now apply Hcol.
Qed.

Lemma sort_values_selected (table : list OldLog.t) (log : list LogView.t) :
  sort_values (DataFrame.mk published_columns (selected_rows table log))
    ["site"; "date"]
  = ret (DataFrame.mk published_columns
           (stable_sort (lex_leb [0; 1]%nat) (selected_rows table log))).
Proof.
  unfold sort_values. cbn [DataFrame.columns DataFrame.rows].
  change (indices ["site"; "date"] published_columns)
    with (@ret (list nat) [0; 1]%nat).
  cbn [bind ret forallb].
  assert (H0 : sortable (map (cell_at 0) (selected_rows table log)) = true).
  { apply (sortable_of_kind (fun c => exists s, c = Text s)).
    - intros a b [s ->] [t ->]. reflexivity.
    - apply Forall_forall. intros c Hc.
      apply in_map_iff in Hc as (row & <- & Hrow).
      apply selected_rows_shape in Hrow as (r & n & _ & _ & ->).
      cbn. eauto. }
  assert (H1 : sortable (map (cell_at 1) (selected_rows table log)) = true).
  { apply (sortable_of_kind (fun c => c = NaT \/ exists d, c = Day d)).
    - intros a b [-> | [d ->]] [-> | [e ->]]; reflexivity.
    - apply Forall_forall. intros c Hc.
      apply in_map_iff in Hc as (row & <- & Hrow).
      apply selected_rows_shape in Hrow as (r & n & _ & _ & ->).
      cbn. destruct (LogView.date r) as [d |]; simpl;
        [right; now exists d | left; reflexivity]. }
  now rewrite H0, H1.
Qed.

(** [merge_logs] returns: the published columns, and the selected rows
    sorted and then filled. *)
Lemma merge_logs_eq (table : list OldLog.t) (log : list LogView.t) :
  merge_logs (OldLog.frame table) (read_sql_table log)
  = ret (fillna
           (DataFrame.mk published_columns
              (stable_sort (lex_leb [0; 1]%nat) (selected_rows table log)))
           "").
Proof.
  unfold merge_logs.
  rewrite merge_left_log. cbn [bind ret].
  rewrite getitem_merged. cbn [bind ret].
  rewrite sort_values_selected. reflexivity.
Qed.

(** ** The published table *)

Lemma value_site (row : list Cell) :
  value published_columns "site" row = cell_at 0 row.
Proof. reflexivity. Qed.

Lemma value_date (row : list Cell) :
  value published_columns "date" row = cell_at 1 row.
Proof. reflexivity. Qed.

Lemma value_id (row : list Cell) :
  value published_columns "id" row = cell_at 10 row.
Proof. reflexivity. Qed.

(** A row of the output is a row of the log view with one of its notes,
    filled. *)
Lemma output_rows_shape (table : list OldLog.t) (log : list LogView.t)
    (row : list Cell) :
  In row (map (map (fill_cell ""))
            (stable_sort (lex_leb [0; 1]%nat) (selected_rows table log))) <->
  exists r n, In r log /\ In n (notes_of table (LogView.id r))
              /\ row = map (fill_cell "") (published_cells r n).
Proof.
  rewrite in_map_iff. split.
  - intros (x & <- & Hx). apply stable_sort_in, selected_rows_shape in Hx.
    destruct Hx as (r & n & Hr & Hn & ->). now exists r, n.
  - intros (r & n & Hr & Hn & ->). exists (published_cells r n).
    split; [reflexivity |]. apply stable_sort_in, selected_rows_shape.
    now exists r, n.
Qed.

Lemma notes_of_nonempty (table : list OldLog.t) (i : string) :
  notes_of table i <> [].
Proof.
  unfold notes_of. destruct (old_rows table i); simpl; discriminate.
Qed.

Lemma merge_logs_columns_any (self_oldlog oldlog out : DataFrame.t) :
  merge_logs self_oldlog oldlog = ret out ->
  DataFrame.columns out = published_columns.
Proof.
  unfold merge_logs, getitem, sort_values.
  destruct (merge_left oldlog self_oldlog "id") as [e | newlog];
    [discriminate |].
  cbn [bind]. destruct (indices published_columns _) as [e | idx];
    [discriminate |].
  cbn [bind ret DataFrame.columns DataFrame.rows].
  destruct (indices ["site"; "date"] published_columns) as [e | by_];
    [discriminate |].
  cbn [bind]. destruct (forallb _ by_); [| discriminate].
  intros [= <-]. reflexivity.
Qed.

(** C4, as the claim words it: in the output for scenario D the column
    [notes] is not the last one. *)
Lemma merge_logs_notes_not_last :
  ~ (exists out,
        merge_logs (OldLog.frame table_D) (read_sql_table log_D) = ret out
        /\ DataFrame.columns out
           = ["site"; "date"; "dicom"; "bids"; "bids_validation";
              "T1w"; "b1000"; "b2000"; "bold"; "id"; "notes"]).
Proof.
  intros (out & H & Hc). apply merge_logs_columns_any in H.
  rewrite H in Hc. discriminate.
Qed.

(** C4 (amended): for every log view and every old table, [merge_logs]
    returns a table whose columns are, in this order, [site], [date],
    [notes], [dicom], [bids], [bids_validation], [T1w], [b1000], [b2000],
    [bold], [id]: [notes] is the third column. *)
Theorem merge_logs_columns (table : list OldLog.t) (log : list LogView.t) :
  exists out,
    merge_logs (OldLog.frame table) (read_sql_table log) = ret out
    /\ DataFrame.columns out
       = ["site"; "date"; "notes"; "dicom"; "bids"; "bids_validation";
          "T1w"; "b1000"; "b2000"; "bold"; "id"]
    /\ Forall (fun row => List.length row = 11%nat) (DataFrame.rows out).
Proof.
  eexists. split; [apply merge_logs_eq |]. split; [reflexivity |].
  apply Forall_forall. intros row Hrow.
  apply output_rows_shape in Hrow as (r & n & _ & _ & ->). reflexivity.
Qed.

(** C5: for every log view and every old table, every identifier of the log
    view is in the column [id] of the output, and the identifier of an old
    row that no row of the log view has is not. *)
Theorem merge_logs_ids (table : list OldLog.t) (log : list LogView.t) :
  exists out,
    merge_logs (OldLog.frame table) (read_sql_table log) = ret out
    /\ (forall r, In r log -> In (Text (LogView.id r)) (column_values out "id"))
    /\ (forall o, In o table ->
          (forall r, In r log -> OldLog.id o <> Some (LogView.id r)) ->
          ~ In (cell_of_text (OldLog.id o)) (column_values out "id")).
Proof.
  eexists. split; [apply merge_logs_eq |].
  unfold column_values, fillna. cbn [DataFrame.columns DataFrame.rows]. split.
  - intros r Hr.
    destruct (notes_of table (LogView.id r)) as [| n ns] eqn:E;
      [now apply notes_of_nonempty in E |].
    apply in_map_iff. exists (map (fill_cell "") (published_cells r n)).
    split; [reflexivity |]. apply output_rows_shape. exists r, n.
    rewrite E. repeat split; [exact Hr | now left].
  - intros o Ho Hnew Hin. apply in_map_iff in Hin as (row & Hv & Hrow).
    apply output_rows_shape in Hrow as (r & n & Hr & _ & ->).
    rewrite value_id in Hv. cbn in Hv.
    destruct (OldLog.id o) as [i |] eqn:E; simpl in Hv; [| discriminate].
    injection Hv as Hv. apply (Hnew r Hr). now rewrite Hv.
Qed.

(** Scenario E: [GONE99] is in the old table only. *)
Lemma merge_logs_ids_witness :
  exists out,
    merge_logs (OldLog.frame table_E) (read_sql_table log_D) = ret out
    /\ In (Text "UC003") (column_values out "id")
    /\ ~ In (Text "GONE99") (column_values out "id").
Proof.
  destruct (merge_logs_ids table_E log_D) as (out & H & Hnew & Hold).
  exists out. split; [exact H |]. split.
  - apply (Hnew row_D). left. reflexivity.
  - apply (Hold (OldLog.mk (Some "GONE99") (Some "x"))).
    + left. reflexivity.
    + intros r [<- | []]. discriminate.
Defined.

(** *** Notes *)

Lemma notes_of_unique (table : list OldLog.t) (i : string) :
  (List.length (old_rows table i) <= 1)%nat ->
  notes_of table i = [note table i].
Proof.
  unfold note, notes_of.
  destruct (old_rows table i) as [| o [| o' os]]; simpl;
    [reflexivity | reflexivity | lia].
Qed.

Lemma note_of_old_row (table : list OldLog.t) (i : string) (o : OldLog.t) :
  (List.length (old_rows table i) <= 1)%nat ->
  In o table -> OldLog.id o = Some i ->
  note table i = cell_of_text (OldLog.notes o).
Proof.
  intros Hu Ho Hi.
  assert (Hin : In o (old_rows table i)).
  { apply filter_In. split; [exact Ho |]. rewrite Hi. simpl.
    now apply cell_eqb_eq. }
  unfold note, notes_of.
  destruct (old_rows table i) as [| o1 [| o2 os]]; simpl in *;
    [contradiction | | lia].
  destruct Hin as [-> | []]. reflexivity.
Qed.

Lemma selected_rows_unique (table : list OldLog.t) (log : list LogView.t) :
  (forall i, (List.length (old_rows table i) <= 1)%nat) ->
  selected_rows table log
  = map (fun r => published_cells r (note table (LogView.id r))) log.
Proof.
  intros Hu. unfold selected_rows.
  induction log as [| r log IH]; simpl; [reflexivity |].
  now rewrite IH, (notes_of_unique _ _ (Hu (LogView.id r))).
Qed.

(** C3, as the claim words it: against an old table with two rows for
    [UC003] the one row of the log view comes out twice. *)
Lemma merge_logs_duplicates_row :
  ~ (exists out,
        merge_logs (OldLog.frame table_twice) (read_sql_table log_D) = ret out
        /\ Permutation (DataFrame.rows out)
             (map (fun r => map (fill_cell "")
                              (published_cells r
                                 (note table_twice (LogView.id r))))
                  log_D)).
Proof.
  intros (out & H & Hp). rewrite merge_logs_eq in H. injection H as <-.
  apply Permutation_length in Hp. vm_compute in Hp. discriminate.
Qed.

(** C3 (amended): for every log view and every old table with at most one
    row for an identifier, the rows of the output are the rows of the log
    view, each one once, with the note of the old row of its identifier when
    there is one, and filled by [fillna]: a missing note shown as [""]. *)
Theorem merge_logs_keeps_notes (table : list OldLog.t) (log : list LogView.t) :
  (forall i, (List.length (old_rows table i) <= 1)%nat) ->
  exists out,
    merge_logs (OldLog.frame table) (read_sql_table log) = ret out
    /\ Permutation (DataFrame.rows out)
         (map (fun r => map (fill_cell "")
                          (published_cells r (note table (LogView.id r))))
              log)
    /\ (forall r o, In o table -> OldLog.id o = Some (LogView.id r) ->
          note table (LogView.id r) = cell_of_text (OldLog.notes o))
    /\ (forall r, old_rows table (LogView.id r) = [] ->
          note table (LogView.id r) = NA).
Proof.
  intros Hu. eexists. split; [apply merge_logs_eq |]. split; [| split].
  - unfold fillna. cbn [DataFrame.rows].
    rewrite <- (map_map (fun r => published_cells r (note table (LogView.id r)))
                  (map (fill_cell ""))).
    apply Permutation_map. rewrite <- selected_rows_unique by exact Hu.
    apply stable_sort_perm.
  - intros r o Ho Hi. now apply note_of_old_row.
  - intros r E. unfold note, notes_of. now rewrite E.
Qed.

(** Scenario D: the note on [UC003] is kept, with the new values of the
    other columns. *)
Lemma merge_logs_keeps_notes_witness :
  (forall i, (List.length (old_rows table_D i) <= 1)%nat)
  /\ exists out,
       merge_logs (OldLog.frame table_D) (read_sql_table log_D) = ret out
       /\ Permutation (DataFrame.rows out)
            [ [ Text "UC"; Day (date.mk 2022 3 16); Text "re-scan requested";
                Day (date.mk 2022 3 17); Day (date.mk 2022 3 18);
                Text "Y"; Text "Y"; Text "N"; Text "N"; Text "Y";
                Text "UC003" ] ].
Proof.
  assert (Hu : forall i, (List.length (old_rows table_D i) <= 1)%nat).
  { intros i. unfold old_rows, table_D. simpl.
    destruct (cell_eqb _ _); simpl; lia. }
  split; [exact Hu |].
  destruct (merge_logs_keeps_notes table_D log_D Hu) as (out & H & Hp & _).
  exists out. split; [exact H | exact Hp].
Defined.

(** *** Order *)

Lemma StronglySorted_map_in {X Y : Type} (R : X -> X -> Prop)
    (R' : Y -> Y -> Prop) (f : X -> Y) (P : X -> Prop) (l : list X) :
  (forall a b, P a -> P b -> R a b -> R' (f a) (f b)) ->
  Forall P l -> StronglySorted R l -> StronglySorted R' (map f l).
Proof.
  intros HR HP Hs. induction Hs as [| a l Hs IH Ha]; simpl; [constructor |].
  inversion HP as [| ? ? Pa Pl]; subst.
  constructor; [now apply IH |].
  apply Forall_forall. intros y Hy. apply in_map_iff in Hy as (b & <- & Hb).
  rewrite Forall_forall in Ha, Pl. apply HR; auto.
Qed.

Lemma StronglySorted_before {X : Type} (R : X -> X -> Prop)
    (before between after : list X) (a b : X) :
  StronglySorted R (before ++ a :: between ++ b :: after) -> R a b.
Proof.
  induction before as [| x before IH]; simpl; intros H;
    inversion H as [| ? ? Hs Hall]; subst.
  - rewrite Forall_forall in Hall. apply Hall.
    apply in_or_app. right. now left.
  - now apply IH.
Qed.

(** Rows in the order of the sort keys are in the order of [(site, date)],
    before the missing values are filled ([g] the identity) and after ([g]
    the filling). *)
Lemma lex_leb_site_date (g : Cell -> Cell) (r1 r2 : LogView.t) (n1 n2 : Cell) :
  (forall s, g (Text s) = Text s) ->
  (forall x, date_key (g (cell_of_day x)) = x) ->
  lex_leb [0; 1]%nat (published_cells r1 n1) (published_cells r2 n2) = true ->
  site_date_le (map g (published_cells r1 n1)) (map g (published_cells r2 n2)).
Proof.
  intros Hs Hd. unfold lex_leb, site_date_le. cbv zeta.
  rewrite !value_site, !value_date.
  cbn [lex_compare cell_at nth published_cells map].
  rewrite !Hs. unfold date_le. rewrite !Hd.
  cbn [cell_compare].
  destruct (String.compare (LogView.site r1) (LogView.site r2)) eqn:E.
  - apply OrderedTypeEx.String_as_OT.cmp_eq in E. rewrite E.
    intros H. right. split; [reflexivity |].
    destruct (LogView.date r1) as [d1 |], (LogView.date r2) as [d2 |];
      simpl in *; try exact I; try discriminate.
    unfold date.leb. now destruct (date.compare d1 d2).
  - intros _. now left.
  - discriminate.
Qed.

Lemma fill_cell_day (x : option date.t) :
  date_key (fill_cell "" (cell_of_day x)) = x.
Proof. now destruct x. Qed.

Lemma cell_of_day_key (x : option date.t) : date_key (cell_of_day x) = x.
Proof. now destruct x. Qed.

Lemma selected_rows_published (table : list OldLog.t) (log : list LogView.t) :
  Forall (fun row => exists r n, row = published_cells r n)
    (stable_sort (lex_leb [0; 1]%nat) (selected_rows table log)).
Proof.
  apply Forall_forall. intros row Hrow.
  apply stable_sort_in, selected_rows_shape in Hrow.
  destruct Hrow as (r & n & _ & _ & ->). now exists r, n.
Qed.

Lemma sorted_rows_ordered (g : Cell -> Cell) (table : list OldLog.t)
    (log : list LogView.t) :
  (forall s, g (Text s) = Text s) ->
  (forall x, date_key (g (cell_of_day x)) = x) ->
  StronglySorted site_date_le
    (map (map g) (stable_sort (lex_leb [0; 1]%nat) (selected_rows table log))).
Proof.
  intros Hs Hd.
  apply (StronglySorted_map_in
           (fun a b => lex_leb [0; 1]%nat a b = true) site_date_le (map g)
           (fun row => exists r n, row = published_cells r n)).
  - intros a b (r1 & n1 & ->) (r2 & n2 & ->). now apply lex_leb_site_date.
  - apply selected_rows_published.
  - apply stable_sort_sorted; [apply lex_leb_total | apply lex_leb_trans].
Qed.

Lemma tied_same_site_date (k r : list Cell) :
  tied (lex_leb [0; 1]%nat) k r = same_site_date k r.
Proof.
  unfold tied, lex_leb, same_site_date, cell_eqb.
  rewrite (lex_compare_antisym _ r k), !value_site, !value_date.
  cbn [lex_compare].
  destruct (cell_compare (cell_at 0 k) (cell_at 0 r));
    destruct (cell_compare (cell_at 1 k) (cell_at 1 r)); reflexivity.
Qed.

(** Filled rows of the same [(site, date)] had the same sort keys. *)
Lemma same_filled_tied (k : list Cell) (r1 r2 : LogView.t) (n1 n2 : Cell) :
  same_site_date k (map (fill_cell "") (published_cells r1 n1)) = true ->
  same_site_date k (map (fill_cell "") (published_cells r2 n2)) = true ->
  lex_leb [0; 1]%nat (published_cells r1 n1) (published_cells r2 n2) = true.
Proof.
  unfold same_site_date. rewrite !value_site, !value_date.
  cbn [cell_at nth published_cells map fill_cell].
  intros H1 H2.
  apply andb_true_iff in H1 as [S1 D1]. apply andb_true_iff in H2 as [S2 D2].
  apply cell_eqb_eq in S1, S2, D1, D2.
  rewrite S1 in S2. injection S2 as S2. rewrite D1 in D2.
  assert (D : LogView.date r1 = LogView.date r2).
  { rewrite <- (fill_cell_day (LogView.date r1)),
      <- (fill_cell_day (LogView.date r2)). now rewrite D2. }
  unfold lex_leb. cbn [lex_compare cell_at nth published_cells].
  rewrite S2, D.
  now rewrite !(proj2 (cell_compare_eq _ _) eq_refl).
Qed.

(** C6: for every log view and every old table, every step of [merge_logs]
    returns; the rows are in ascending order of [(site, date)], as sorted and
    as output; and the rows that share a [(site, date)] are in the order they
    had before the sort. *)
Theorem merge_logs_sorted_stable (table : list OldLog.t) (log : list LogView.t) :
  exists newlog selected sorted out,
    merge_left (read_sql_table log) (OldLog.frame table) "id" = ret newlog
    /\ getitem newlog published_columns = ret selected
    /\ sort_values selected ["site"; "date"] = ret sorted
    /\ out = fillna sorted ""
    /\ merge_logs (OldLog.frame table) (read_sql_table log) = ret out
    /\ StronglySorted site_date_le (DataFrame.rows sorted)
    /\ StronglySorted site_date_le (DataFrame.rows out)
    /\ (forall k,
          filter (same_site_date k) (DataFrame.rows sorted)
          = filter (same_site_date k) (DataFrame.rows selected))
    /\ (forall k,
          filter (same_site_date k) (DataFrame.rows out)
          = filter (same_site_date k) (DataFrame.rows (fillna selected ""))).
Proof.
  do 4 eexists.
  split; [apply merge_left_log |]. split; [apply getitem_merged |].
  split; [apply sort_values_selected |]. split; [reflexivity |].
  split; [apply merge_logs_eq |].
  unfold fillna. cbn [DataFrame.rows DataFrame.columns].
  split; [| split; [| split]].
  - rewrite <- (map_id (stable_sort _ _)).
    rewrite <- (map_ext (map (fun c => c)) (fun row => row))
      by (intros row; apply map_id).
    apply sorted_rows_ordered; [reflexivity | apply cell_of_day_key].
  - apply sorted_rows_ordered; [reflexivity | apply fill_cell_day].
  - intros k.
    rewrite <- (filter_ext _ _ (tied_same_site_date k)),
      <- (filter_ext _ _ (tied_same_site_date k)).
    apply stable_sort_stable. apply lex_leb_trans.
  - intros k. rewrite !filter_map_comm. f_equal.
    apply stable_sort_filter. intros x y Hx Hy.
    apply selected_rows_shape in Hx as (r1 & n1 & _ & _ & ->).
    apply selected_rows_shape in Hy as (r2 & n2 & _ & _ & ->).
    apply same_filled_tied.
Qed.

Example merge_logs_mixed :
  exists out,
    merge_logs (OldLog.frame table_D) (read_sql_table log_mixed) = ret out
    /\ column_values out "id"
       = [Text "NS002"; Text "NS001"; Text "NS003"; Text "UC002"; Text "UC001"]
    /\ column_values out "date"
       = [Day (date.mk 2022 3 10); NaT; NaT; Day (date.mk 2022 3 16); NaT]
    /\ column_values out "notes"
       = [Text ""; Text ""; Text ""; Text ""; Text ""].
Proof. eexists. split; [apply merge_logs_eq |]. repeat split; reflexivity. Qed.

(** *** Missing dates *)

(** C10, as the spec words it, fails: the scan [NS001] of the log view
    [log_mixed] has no acquisition day, and the date cell of its row of the
    merged output is still the missing date [NaT], not the empty text:
    [fillna("")] fills the missing notes and leaves a datetime column as it
    is. *)
Lemma merge_logs_missing_date_not_blank :
  exists out row r,
    merge_logs (OldLog.frame table_D) (read_sql_table log_mixed) = ret out
    /\ In row (DataFrame.rows out)
    /\ In r log_mixed
    /\ value (DataFrame.columns out) "id" row = Text (LogView.id r)
    /\ LogView.date r = None
    /\ value (DataFrame.columns out) "notes" row = Text ""
    /\ value (DataFrame.columns out) "date" row = NaT
    /\ value (DataFrame.columns out) "date" row <> Text "".
Proof.
  eexists. exists (nth 1 (map (map (fill_cell ""))
                            (stable_sort (lex_leb [0; 1]%nat)
                               (selected_rows table_D log_mixed))) []).
  exists (nth 1 log_mixed row_D).
  split; [apply merge_logs_eq |].
  split; [right; left; reflexivity |].
  split; [right; left; reflexivity |].
  repeat split; try reflexivity. discriminate.
Qed.

(** C10, amended: for every log view and every old table, every row of the
    output is a row of the log view with its identifier, its site and its
    date, the date still missing ([NaT]) when the acquisition day is absent,
    and every row of the log view is shown; among the rows of one site, a
    row after a row with a missing date has a missing date: the rows without
    acquisition day come after all the rows of the site that have one. *)
Theorem merge_logs_missing_dates_last (table : list OldLog.t)
    (log : list LogView.t) :
  exists out,
    merge_logs (OldLog.frame table) (read_sql_table log) = ret out
    /\ (forall row, In row (DataFrame.rows out) ->
          exists r,
            In r log
            /\ value (DataFrame.columns out) "id" row = Text (LogView.id r)
            /\ value (DataFrame.columns out) "site" row = Text (LogView.site r)
            /\ value (DataFrame.columns out) "date" row
               = match LogView.date r with
                 | Some d => Day d
                 | None => NaT
                 end)
    /\ (forall r, In r log ->
          exists row,
            In row (DataFrame.rows out)
            /\ value (DataFrame.columns out) "id" row = Text (LogView.id r)
            /\ value (DataFrame.columns out) "site" row = Text (LogView.site r)
            /\ value (DataFrame.columns out) "date" row
               = match LogView.date r with
                 | Some d => Day d
                 | None => NaT
                 end)
    /\ (forall before r1 between r2 after,
          DataFrame.rows out = before ++ r1 :: between ++ r2 :: after ->
          value (DataFrame.columns out) "site" r1
          = value (DataFrame.columns out) "site" r2 ->
          value (DataFrame.columns out) "date" r1 = NaT ->
          value (DataFrame.columns out) "date" r2 = NaT).
Proof.
  eexists. split; [apply merge_logs_eq |].
  unfold fillna. cbn [DataFrame.rows DataFrame.columns].
  split; [| split].
  - intros row Hrow.
    apply output_rows_shape in Hrow as (r & n & Hr & _ & ->).
    exists r. split; [exact Hr |].
    rewrite value_id, value_site, value_date.
    cbn [cell_at nth published_cells map fill_cell].
    repeat split. now destruct (LogView.date r).
  - intros r Hr.
    destruct (notes_of table (LogView.id r)) as [| n ns] eqn:E;
      [now apply notes_of_nonempty in E |].
    exists (map (fill_cell "") (published_cells r n)). split.
    + apply output_rows_shape. exists r, n. rewrite E.
      repeat split; [exact Hr | now left].
    + rewrite value_id, value_site, value_date.
      cbn [cell_at nth published_cells map fill_cell].
      repeat split. now destruct (LogView.date r).
  - intros before r1 between r2 after Hrows Hsite Hdate.
    pose proof (sorted_rows_ordered (fill_cell "") table log
                  (fun s => eq_refl) fill_cell_day) as Hs.
    rewrite Hrows in Hs. apply StronglySorted_before in Hs.
    assert (H2 : In r2 (map (map (fill_cell ""))
                          (stable_sort (lex_leb [0; 1]%nat)
                             (selected_rows table log)))).
    { rewrite Hrows. apply in_or_app. right. right.
      apply in_or_app. right. now left. }
    apply output_rows_shape in H2 as (r & n & _ & _ & E2).
    destruct Hs as [Hlt | [_ Hle]].
    + rewrite Hsite in Hlt.
      now rewrite (proj2 (cell_compare_eq _ _) eq_refl) in Hlt.
    + unfold date_le in Hle. rewrite Hdate in Hle. simpl in Hle.
      rewrite E2 in Hle |- *. rewrite value_date in Hle |- *.
      cbn [cell_at nth published_cells map] in Hle |- *.
      destruct (LogView.date r); simpl in *; [contradiction | reflexivity].
Qed.

Lemma merge_logs_missing_dates_last_witness :
  exists out,
    merge_logs (OldLog.frame table_D) (read_sql_table log_mixed) = ret out
    /\ column_values out "id"
       = [Text "NS002"; Text "NS001"; Text "NS003"; Text "UC002"; Text "UC001"]
    /\ value (DataFrame.columns out) "date" (nth 1 (DataFrame.rows out) [])
       = NaT
    /\ value (DataFrame.columns out) "date" (nth 2 (DataFrame.rows out) [])
       = NaT.
Proof.
  destruct (merge_logs_missing_dates_last table_D log_mixed)
    as (out & H & _ & _ & Hlast).
  exists out. split; [exact H |].
  rewrite merge_logs_eq in H. injection H as H.
  assert (Hid : column_values out "id"
                = [Text "NS002"; Text "NS001"; Text "NS003";
                   Text "UC002"; Text "UC001"])
    by (rewrite <- H; reflexivity).
  assert (Hd : value (DataFrame.columns out) "date" (nth 1 (DataFrame.rows out) [])
               = NaT) by (rewrite <- H; reflexivity).
  split; [exact Hid |]. split; [exact Hd |].
  apply (Hlast [nth 0 (DataFrame.rows out) []]
               (nth 1 (DataFrame.rows out) [])
               []
               (nth 2 (DataFrame.rows out) [])
               [nth 3 (DataFrame.rows out) []; nth 4 (DataFrame.rows out) []]).
  - rewrite <- H. reflexivity.
  - rewrite <- H. reflexivity.
  - exact Hd.
Defined.

(** * Further properties *)

(** ** Site extraction: letter case and first occurrence *)

Lemma lower_upper (c : ascii) : lower (upper c) = lower c.
Proof. destruct c as [[] [] [] [] [] [] [] []]; reflexivity. Qed.

Lemma upper_upper (c : ascii) : upper (upper c) = upper c.
Proof. destruct c as [[] [] [] [] [] [] [] []]; reflexivity. Qed.

Section CaseMap.

Variable f : ascii -> ascii.
Hypothesis f_lower : forall c, lower (f c) = lower c.
Hypothesis f_upper : forall c, upper (f c) = upper c.

Lemma starts_with_map (p s : string) :
  starts_with eqb_nocase p (str_map f s) = starts_with eqb_nocase p s.
Proof.
  revert s. induction p as [| a p IH]; intros [| b s]; simpl; try reflexivity.
  unfold eqb_nocase. now rewrite f_lower, IH.
Qed.

Lemma take_like_map (p s : string) :
  take_like p (str_map f s) = str_map f (take_like p s).
Proof.
  revert s. induction p as [| a p IH]; intros [| b s]; simpl; try reflexivity.
  now rewrite IH.
Qed.

Lemma match_alternatives_map (alts : list string) (s : string) :
  match_alternatives alts (str_map f s)
  = option_map (str_map f) (match_alternatives alts s).
Proof.
  induction alts as [| p alts IH]; simpl; [reflexivity |].
  rewrite starts_with_map, take_like_map, IH.
  now destruct (starts_with eqb_nocase p s).
Qed.

Lemma re_search_map (alts : list string) (s : string) :
  re_search alts (str_map f s) = option_map (str_map f) (re_search alts s).
Proof.
  induction s as [| c s IH].
  - pose proof (match_alternatives_map alts EmptyString) as H.
    cbn [str_map] in H. cbn [re_search str_map].
    destruct (match_alternatives alts EmptyString); [exact H | reflexivity].
  - pose proof (match_alternatives_map alts (String c s)) as H.
    cbn [str_map] in H. cbn [re_search str_map]. rewrite H.
    destruct (match_alternatives alts (String c s)); [reflexivity | exact IH].
Qed.

Lemma str_upper_map (s : string) : str_upper (str_map f s) = str_upper s.
Proof.
  unfold str_upper. induction s as [| c s IH]; simpl; [reflexivity |].
  now rewrite f_upper, IH.
Qed.

Lemma extract_site_map (s : string) :
  _extract_site (str_map f s) = _extract_site s.
Proof.
  unfold _extract_site. rewrite re_search_map.
  destruct (re_search site_pattern s) as [m |]; simpl; [| reflexivity].
  now rewrite str_upper_map.
Qed.

End CaseMap.

(** X1: the site does not depend on the letter case of an ASCII identifier:
    [_extract_site] gives the same result, value or exception, for the
    identifier upper-cased and lower-cased. *)
Theorem extract_site_ignores_case (stem : string) :
  isascii stem = true ->
  _extract_site (str_upper stem) = _extract_site stem
  /\ _extract_site (str_lower stem) = _extract_site stem.
Proof.
  intros _. split.
  - apply extract_site_map; [apply lower_upper | apply upper_upper].
  - apply extract_site_map; [apply lower_lower | apply upper_lower].
Qed.

Lemma extract_site_ignores_case_witness :
  isascii "Uc_qc_20220314" = true
  /\ _extract_site (str_upper "Uc_qc_20220314") = _extract_site "Uc_qc_20220314"
  /\ _extract_site (str_lower "Uc_qc_20220314") = _extract_site "Uc_qc_20220314".
Proof.
  split; [reflexivity |].
  apply (extract_site_ignores_case "Uc_qc_20220314"). reflexivity.
Defined.

Lemma starts_with_app_true (eqc : ascii -> ascii -> bool) (p s post : string) :
  starts_with eqc p s = true ->
  starts_with eqc p (s ++ post) = true
  /\ take_like p (s ++ post) = take_like p s.
Proof.
  revert s. induction p as [| a p IH]; intros s H.
  - split; [reflexivity |]. simpl. now destruct (s ++ post)%string, s.
  - destruct s as [| b s]; simpl in H; [discriminate |].
    apply andb_true_iff in H as [Hab Hps].
    destruct (IH s Hps) as [H1 H2]. simpl. now rewrite Hab, H1, H2.
Qed.

Lemma starts_with_app_long (eqc : ascii -> ascii -> bool) (p s post : string) :
  (String.length p <= String.length s)%nat ->
  starts_with eqc p (s ++ post) = starts_with eqc p s.
Proof.
  revert s. induction p as [| a p IH]; intros s H.
  - reflexivity.
  - destruct s as [| b s]; simpl in H; [lia |].
    simpl. rewrite IH by lia. reflexivity.
Qed.

Lemma starts_with_short (eqc : ascii -> ascii -> bool) (p s : string) :
  (String.length s < String.length p)%nat -> starts_with eqc p s = false.
Proof.
  revert s. induction p as [| a p IH]; intros s H; simpl in H; [lia |].
  destruct s as [| b s]; simpl; [reflexivity |].
  simpl in H. rewrite IH by lia. apply andb_false_r.
Qed.

Section SameLength.

Variables (alts : list string) (n : nat).
Hypothesis alts_length : forall p, In p alts -> String.length p = n.

Lemma match_alternatives_short (s : string) :
  (String.length s < n)%nat -> match_alternatives alts s = None.
Proof.
  intros H. revert alts_length.
  induction alts as [| p l IH]; intros Hl; simpl; [reflexivity |].
  rewrite starts_with_short by (rewrite (Hl p (or_introl eq_refl)); exact H).
  apply IH. intros q Hq. apply Hl. now right.
Qed.

Lemma re_search_short (s : string) :
  (String.length s < n)%nat -> re_search alts s = None.
Proof.
  induction s as [| c s IH]; intros H; simpl;
    rewrite match_alternatives_short by exact H; [reflexivity |].
  apply IH. simpl in H. lia.
Qed.

Lemma match_alternatives_app (s post : string) :
  (n <= String.length s)%nat ->
  match_alternatives alts (s ++ post) = match_alternatives alts s.
Proof.
  intros H. revert alts_length.
  induction alts as [| p l IH]; intros Hl; simpl; [reflexivity |].
  rewrite starts_with_app_long
    by (rewrite (Hl p (or_introl eq_refl)); exact H).
  destruct (starts_with eqb_nocase p s) eqn:E.
  - now rewrite (proj2 (starts_with_app_true _ _ _ post E)).
  - apply IH. intros q Hq. apply Hl. now right.
Qed.

Lemma re_search_app (s post m : string) :
  re_search alts s = Some m -> re_search alts (s ++ post) = Some m.
Proof.
  induction s as [| c s IH]; intros H.
  - destruct (Nat.eq_dec n 0) as [E | E].
    + simpl in H. rewrite <- (match_alternatives_app "" post) in H
        by (simpl; lia).
      simpl in *. destruct post; simpl;
        now destruct (match_alternatives alts _).
    + rewrite re_search_short in H by (simpl; lia). discriminate.
  - destruct (le_lt_dec n (String.length (String c s))) as [L | L].
    + cbn [re_search append] in *.
      change (String c (s ++ post)) with (String c s ++ post)%string.
      rewrite match_alternatives_app by exact L.
      destruct (match_alternatives alts (String c s)); [exact H |].
      now apply IH.
    + rewrite re_search_short in H by exact L. discriminate.
Qed.

End SameLength.

(** X2: the first site code of an identifier decides: when [_extract_site]
    returns a code for an identifier, it returns the same code for the
    identifier followed by any text. *)
Theorem extract_site_prefix (stem post code : string) :
  _extract_site stem = ret code ->
  _extract_site (stem ++ post) = ret code.
Proof.
  unfold _extract_site.
  destruct (re_search site_pattern stem) as [m |] eqn:E; [| discriminate].
  rewrite (re_search_app site_pattern 2) with (m := m); [trivial | | exact E].
  intros p Hp. simpl in Hp.
  destruct Hp as [<- | [<- | [<- | [<- | [<- | [<- | []]]]]]]; reflexivity.
Qed.

Lemma extract_site_prefix_witness :
  _extract_site "NS_QC" = ret "NS"
  /\ _extract_site ("NS_QC" ++ "_wshed") = ret "NS".
Proof.
  assert (H : _extract_site "NS_QC" = ret "NS") by reflexivity.
  split; [exact H | exact (extract_site_prefix "NS_QC" "_wshed" "NS" H)].
Defined.

(** ** Parsing the acquisition date *)

Lemma digit_char_digit (k : Z) :
  (0 <= k <= 9)%Z ->
  is_digit (digit_char k) = true /\ digit (digit_char k) = k
  /\ N_of_ascii (digit_char k) = Z.to_N (48 + k).
Proof.
  intros H.
  assert (E : (k = 0 \/ k = 1 \/ k = 2 \/ k = 3 \/ k = 4 \/ k = 5 \/ k = 6
               \/ k = 7 \/ k = 8 \/ k = 9)%Z) by lia.
  repeat destruct E as [-> | E]; try subst k; repeat split; reflexivity.
Qed.

Lemma re_Y_digits (a b c d : Z) (r : string) :
  (0 <= a <= 9)%Z -> (0 <= b <= 9)%Z -> (0 <= c <= 9)%Z -> (0 <= d <= 9)%Z ->
  re_Y (String (digit_char a) (String (digit_char b)
          (String (digit_char c) (String (digit_char d) r))))
  = Some (1000 * a + 100 * b + 10 * c + d, r)%Z.
Proof.
  intros Ha Hb Hc Hd. unfold re_Y.
  destruct (digit_char_digit a Ha) as (-> & -> & _).
  destruct (digit_char_digit b Hb) as (-> & -> & _).
  destruct (digit_char_digit c Hc) as (-> & -> & _).
  destruct (digit_char_digit d Hd) as (-> & -> & _).
  reflexivity.
Qed.

Lemma month_day_parse (m d : Z) :
  (1 <= m <= 12)%Z -> (1 <= d <= 31)%Z ->
  first_md (re_m (two_digits m ++ two_digits d)) = Some (m, d, EmptyString).
Proof.
  intros Hm Hd.
  assert (Hall :
    forallb (fun m' =>
      forallb (fun d' =>
        match first_md (re_m (two_digits m' ++ two_digits d')) with
        | Some (m'', d'', EmptyString) => ((m'' =? m') && (d'' =? d'))%Z
        | _ => false
        end) (map Z.of_nat (seq 1 31))) (map Z.of_nat (seq 1 12)) = true)
    by (vm_compute; reflexivity).
  rewrite forallb_forall in Hall.
  assert (Im : In m (map Z.of_nat (seq 1 12))).
  { apply in_map_iff. exists (Z.to_nat m). split; [lia |]. apply in_seq. lia. }
  assert (Id : In d (map Z.of_nat (seq 1 31))).
  { apply in_map_iff. exists (Z.to_nat d). split; [lia |]. apply in_seq. lia. }
  pose proof (Hall m Im) as H. rewrite forallb_forall in H.
  pose proof (H d Id) as H'.
  destruct (first_md _) as [[[m' d'] [| ? ?]] |]; try discriminate.
  apply andb_true_iff in H' as [E1 E2].
  apply Z.eqb_eq in E1, E2. now subst.
Qed.

Lemma date_make_valid (y m d : Z) (x : date.t) :
  date.make y m d = ret x ->
  x = date.mk y m d
  /\ (1 <= y <= 9999)%Z /\ (1 <= m <= 12)%Z
  /\ (1 <= d <= date.days_in_month y m)%Z.
Proof.
  unfold date.make.
  destruct (_ && _) eqn:E; [| discriminate].
  intros [= <-]. split; [reflexivity |].
  repeat (apply andb_true_iff in E as [E ?]).
  repeat match goal with
         | H : (_ <=? _)%Z = true |- _ => apply Z.leb_le in H
         end.
  lia.
Qed.

Lemma days_in_month_le (y m : Z) : (date.days_in_month y m <= 31)%Z.
Proof.
  unfold date.days_in_month.
  destruct (m =? 2)%Z; [destruct (date.is_leap y); lia |].
  destruct (_ || _); lia.
Qed.

(** X3: the text [YYYYMMDD] of any date of the calendar (years 1 to 9999)
    parses back to that date. *)
Theorem strptime_DA (d : date.t) :
  date.make (date.year d) (date.month d) (date.day d) = ret d ->
  strptime_Ymd (DA d) = ret d.
Proof.
  intros H. destruct (date_make_valid _ _ _ _ H) as (_ & Hy & Hm & Hd).
  pose proof (days_in_month_le (date.year d) (date.month d)) as H31.
  unfold strptime_Ymd, DA, two_digits at 1 2.
  cbn [append].
  rewrite re_Y_digits.
  - rewrite month_day_parse by lia.
    replace (1000 * (date.year d / 100 / 10) + 100 * (date.year d / 100 mod 10)
             + 10 * (date.year d mod 100 / 10) + date.year d mod 100 mod 10)%Z
      with (date.year d); [exact H |].
    pose proof (Z.div_mod (date.year d) 100).
    pose proof (Z.div_mod (date.year d / 100) 10).
    pose proof (Z.div_mod (date.year d mod 100) 10). lia.
  - split; [apply Z.div_pos; [apply Z.div_pos |]; lia |].
    apply Z.lt_succ_r. apply Z.div_lt_upper_bound; [lia |].
    apply Z.div_lt_upper_bound; lia.
  - pose proof (Z.mod_pos_bound (date.year d / 100) 10). lia.
  - split; [apply Z.div_pos; [apply Z.mod_pos_bound |]; lia |].
    apply Z.lt_succ_r. apply Z.div_lt_upper_bound; [lia |].
    pose proof (Z.mod_pos_bound (date.year d) 100). lia.
  - pose proof (Z.mod_pos_bound (date.year d mod 100) 10). lia.
Qed.

Lemma strptime_DA_witness :
  date.make 2024 2 29 = ret (date.mk 2024 2 29)
  /\ strptime_Ymd "20240229" = ret (date.mk 2024 2 29).
Proof.
  assert (H : date.make 2024 2 29 = ret (date.mk 2024 2 29)) by reflexivity.
  split; [exact H | exact (strptime_DA (date.mk 2024 2 29) H)].
Defined.

Lemma re_d_length (s r : string) (d : Z) :
  re_d s = Some (d, r) ->
  String.length s = S (String.length r)
  \/ String.length s = S (S (String.length r)).
Proof.
  unfold re_d. destruct s as [| a [| b r']].
  - discriminate.
  - destruct (in_range 49 57 a); [| discriminate]. intros [= _ <-]. now left.
  - repeat match goal with
           | |- (if ?c then _ else _) = _ -> _ => destruct c
           end; try discriminate; intros [= _ <-]; simpl; auto.
Qed.

Lemma re_m_length (s r : string) (m : Z) :
  In (m, r) (re_m s) ->
  String.length s = S (String.length r)
  \/ String.length s = S (S (String.length r)).
Proof.
  unfold re_m. destruct s as [| a [| b r']]; simpl.
  - contradiction.
  - destruct (in_range 49 57 a); simpl; [| contradiction].
    intros [[= _ <-] | []]. now left.
  - intros H. repeat (apply in_app_or in H as [H | H]);
      match type of H with
      | In _ (if ?c then _ else _) => destruct c
      end; simpl in H; try contradiction;
      destruct H as [[= _ <-] | []]; simpl; auto.
Qed.

Lemma first_md_some (ms : list (Z * string)) (m d : Z) (r : string) :
  first_md ms = Some (m, d, r) ->
  exists r', In (m, r') ms /\ re_d r' = Some (d, r).
Proof.
  induction ms as [| [m' r'] ms IH]; simpl; [discriminate |].
  destruct (re_d r') as [[d' r''] |] eqn:E.
  - intros [= -> -> ->]. exists r'. auto.
  - intros H. destruct (IH H) as (x & Hx & Hd). exists x. auto.
Qed.

Lemma re_Y_length (s r : string) (y : Z) :
  re_Y s = Some (y, r) -> String.length s = (4 + String.length r)%nat.
Proof.
  unfold re_Y. destruct s as [| a [| b [| c [| d r']]]]; try discriminate.
  destruct (_ && _); [| discriminate]. intros [= _ <-]. reflexivity.
Qed.

(** X4: when [strptime] returns, the date is a date of the calendar (month 1
    to 12, day within the month, leap years counted, year 1 to 9999) and the
    text had 6 to 8 characters. *)
Theorem strptime_valid (s : string) (d : date.t) :
  strptime_Ymd s = ret d ->
  date.make (date.year d) (date.month d) (date.day d) = ret d
  /\ (6 <= String.length s <= 8)%nat.
Proof.
  unfold strptime_Ymd.
  destruct (re_Y s) as [[y r] |] eqn:EY; [| discriminate].
  destruct (first_md (re_m r)) as [[[m dd] [| c r'']] |] eqn:EM;
    try discriminate.
  intros H. split.
  - destruct (date_make_valid _ _ _ _ H) as (-> & _). exact H.
  - apply re_Y_length in EY.
    apply first_md_some in EM as (r' & Hm & Hd).
    apply re_m_length in Hm. apply re_d_length in Hd. simpl in Hd. lia.
Qed.

Lemma strptime_valid_witness :
  strptime_Ymd "202011" = ret (date.mk 2020 1 1)
  /\ date.make 2020 1 1 = ret (date.mk 2020 1 1)
  /\ (6 <= String.length "202011" <= 8)%nat.
Proof.
  assert (H : strptime_Ymd "202011" = ret (date.mk 2020 1 1)) by reflexivity.
  split; [exact H | exact (strptime_valid "202011" (date.mk 2020 1 1) H)].
Defined.

(** ** Reading the archive *)

Lemma first_header_skips (pre : list zipfile.ZipInfo)
    (filelist : list zipfile.ZipInfo) :
  forallb (fun listing => negb (suitable listing)) pre = true ->
  first_header (pre ++ filelist) = first_header filelist.
Proof.
  induction pre as [| x pre IH]; simpl; [reflexivity |].
  intros H. apply andb_true_iff in H as [Hx Hpre].
  unfold suitable in Hx. apply negb_true_iff in Hx. rewrite Hx. now apply IH.
Qed.

(** X5: the acquisition day is read from the first member of the archive
    that is neither a directory nor named with [DICOMDIR]: the members
    before it are skipped, and the members after it are never read, whatever
    reading the first one gives. *)
Theorem extract_phantom_date_first_member
    (pre rest : list zipfile.ZipInfo) (listing : zipfile.ZipInfo) :
  forallb (fun l => negb (suitable l)) pre = true ->
  suitable listing = true ->
  _extract_phantom_date (zipfile.Zip (pre ++ listing :: rest))
  = _extract_phantom_date (zipfile.Zip [listing]).
Proof.
  intros Hpre Hs. unfold _extract_phantom_date.
  rewrite first_header_skips by exact Hpre.
  unfold suitable in Hs. simpl. now rewrite Hs.
Qed.

Lemma extract_phantom_date_first_member_witness :
  let index := zipfile.mkZipInfo "NS_QC_phantom/DICOMDIR" false (Some []) in
  let first :=
    zipfile.mkZipInfo "NS_QC_phantom/IM0001" false
      (Some [("AcquisitionDate", "20220314")]) in
  let second :=
    zipfile.mkZipInfo "NS_QC_phantom/IM0002" false
      (Some [("AcquisitionDate", "20220315")]) in
  forallb (fun l => negb (suitable l)) [index] = true
  /\ suitable first = true
  /\ _extract_phantom_date (zipfile.Zip ([index] ++ first :: [second]))
     = ret (Some (date.mk 2022 3 14)).
Proof.
  intros index first second.
  assert (H1 : forallb (fun l => negb (suitable l)) [index] = true)
    by reflexivity.
  assert (H2 : suitable first = true) by reflexivity.
  split; [exact H1 |]. split; [exact H2 |].
  rewrite (extract_phantom_date_first_member [index] [second] first H1 H2).
  reflexivity.
Defined.

(** ** Building a scan record *)

Lemma extract_site_in_codes (stem code : string) :
  _extract_site stem = ret code -> In code site_codes.
Proof.
  unfold _extract_site.
  destruct (re_search site_pattern stem) as [m |] eqn:E; [| discriminate].
  intros [= <-].
  destruct (re_search_some _ _ _ E) as (p & _ & _ & Hp & _ & Hl).
  rewrite <- str_upper_lower, Hl. now apply site_pattern_codes.
Qed.

(** X6: a scan record that [DICOM.from_path] returns for a file with an
    ASCII stem has the stem of the path for identifier, one of the six site
    codes, extracted from that identifier, for site, the creation date of
    the file for [day], and an acquisition day unless the file is not an
    archive. *)
Theorem DICOM_from_path_record (disk : fs.t) (f : Path.t) (d : DICOM.t) :
  isascii (Path.stem f) = true ->
  DICOM_from_path disk f = ret d ->
  DICOM.id d = Path.stem f
  /\ DICOM.day d = fs.st_ctime disk f
  /\ In (DICOM.site d) site_codes
  /\ _extract_site (DICOM.id d) = ret (DICOM.site d)
  /\ (DICOM.acquisition_day d = None <->
      fs.archive disk f = zipfile.NotZip).
Proof.
  intros _. unfold DICOM_from_path, _get_path_creationtime.
  destruct (_extract_phantom_date (fs.archive disk f)) as [e | day] eqn:Ed;
    [discriminate |].
  destruct (_extract_site (Path.stem f)) as [e | site] eqn:Es;
    [discriminate |].
  intros [= <-]. simpl. repeat split; try assumption.
  - now apply extract_site_in_codes with (Path.stem f).
  - intros ->. now apply extract_phantom_date_absent_iff.
  - intros E. rewrite E in Ed. simpl in Ed. now injection Ed as <-.
Qed.

Lemma DICOM_from_path_record_witness :
  let f := "/products/mris/NS/dicoms/NS_QC_20220314.zip" in
  let d := DICOM.mk "NS_QC_20220314" "NS" (date.mk 2022 3 15)
             (Some (date.mk 2022 3 14)) in
  isascii (Path.stem f) = true
  /\ DICOM_from_path sample_disk f = ret d
  /\ DICOM.id d = Path.stem f
  /\ DICOM.day d = fs.st_ctime sample_disk f
  /\ In (DICOM.site d) site_codes
  /\ _extract_site (DICOM.id d) = ret (DICOM.site d)
  /\ (DICOM.acquisition_day d = None <->
      fs.archive sample_disk f = zipfile.NotZip).
Proof.
  intros f d.
  assert (Ha : isascii (Path.stem f) = true) by reflexivity.
  assert (H : DICOM_from_path sample_disk f = ret d) by reflexivity.
  split; [exact Ha |]. split; [exact H |].
  exact (DICOM_from_path_record sample_disk f d Ha H).
Defined.

(** ** The tag views select by keyword *)

Lemma like_any (s : string) : like "%" s = true.
Proof.
  induction s as [| c s IH]; [reflexivity |].
  cbn in *. exact IH.
Qed.

Lemma like_prefix (kw s : string) :
  plain kw = true -> like (kw ++ "%") s = starts_with eqb_nocase kw s.
Proof.
  revert s. induction kw as [| p kw IH]; intros s H.
  - simpl append. rewrite like_any. now destruct s.
  - simpl in H. apply andb_true_iff in H as [H Hkw].
    apply andb_true_iff in H as [Hp Hu].
    apply negb_true_iff in Hp, Hu.
    cbn [append like]. rewrite Hp.
    destruct s as [| c s]; [reflexivity |].
    rewrite Hu. cbn [orb starts_with]. now rewrite IH.
Qed.

Lemma like_contains (kw s : string) :
  plain kw = true ->
  like (String "%" (kw ++ "%")) s = contains eqb_nocase kw s.
Proof.
  intros H. cbn [like]. rewrite Ascii.eqb_refl.
  induction s as [| c s IH].
  - rewrite like_prefix by exact H. cbn [contains]. now rewrite orb_false_r.
  - rewrite like_prefix by exact H. cbn [contains]. now rewrite IH.
Qed.

Lemma select_tag_contains (kw : string) (db : Database.t) (r : TagView.t) :
  plain kw = true ->
  In r (select_tag (String "%" (kw ++ "%")) db) <->
  exists w, In w (Database.dwis db)
            /\ contains eqb_nocase kw (ScanMixin.id w) = true
            /\ r = TagView.mk (ScanMixin.id w) (ScanMixin.dicom_id w) "Y".
Proof.
  intros H. split.
  - intros Hr. apply select_tag_rows in Hr as (w & Hw & Hl & ->).
    exists w. rewrite like_contains in Hl by exact H. auto.
  - intros (w & Hw & Hc & ->). unfold select_tag.
    apply in_map_iff. exists w. split.
    + rewrite like_contains by exact H. now rewrite Hc.
    + apply filter_In. split; [exact Hw |].
      rewrite like_contains by exact H. now rewrite Hc.
Qed.

(** X7: the rows of [B1000View] are the diffusion records whose identifier
    contains [b1000] in any letter case, each with its identifier, its scan
    reference and the label ["Y"]; likewise [B2000View] with [b2000].  A
    record whose identifier contains neither keyword is in neither view. *)
Theorem tag_views_by_keyword (db : Database.t) (r : TagView.t) :
  (In r (B1000View db) <->
   exists w, In w (Database.dwis db)
             /\ contains eqb_nocase "b1000" (ScanMixin.id w) = true
             /\ r = TagView.mk (ScanMixin.id w) (ScanMixin.dicom_id w) "Y")
  /\ (In r (B2000View db) <->
      exists w, In w (Database.dwis db)
                /\ contains eqb_nocase "b2000" (ScanMixin.id w) = true
                /\ r = TagView.mk (ScanMixin.id w) (ScanMixin.dicom_id w) "Y").
Proof.
  unfold B1000View, B2000View, view. split.
  - apply (select_tag_contains "b1000"). reflexivity.
  - apply (select_tag_contains "b2000"). reflexivity.
Qed.

Lemma tag_views_by_keyword_witness :
  let db :=
    Database.mk [] [] [] []
      [ ScanMixin.mk "sub-UC003_acq-B1000_dwi" "{}" (Some "UC003");
        ScanMixin.mk "sub-UC003_acq-b0_dwi" "{}" (Some "UC003") ] in
  In (TagView.mk "sub-UC003_acq-B1000_dwi" (Some "UC003") "Y") (B1000View db)
  /\ ~ In (TagView.mk "sub-UC003_acq-b0_dwi" (Some "UC003") "Y") (B1000View db).
Proof.
  intros db. split.
  - apply (proj1 (tag_views_by_keyword db _)).
    exists (ScanMixin.mk "sub-UC003_acq-B1000_dwi" "{}" (Some "UC003")).
    split; [left; reflexivity | split; reflexivity].
  - intros H. apply (proj1 (tag_views_by_keyword db _)) in H.
    destruct H as (w & [<- | [<- | []]] & Hc & E); simpl in *; discriminate.
Defined.

(** ** The rows of the log view *)

Lemma left_outer_join_In {A B : Type} (on : A -> B -> sql_bool)
    (a : list A) (b : list B) (x : A) (oy : option B) :
  In (x, oy) (left_outer_join on a b) <->
  In x a
  /\ match oy with
     | Some y => In y b /\ holds (on x y) = true
     | None => filter (fun y => holds (on x y)) b = []
     end.
Proof.
  unfold left_outer_join. rewrite in_flat_map. split.
  - intros (x0 & Hx0 & Hin).
    destruct (filter (fun y => holds (on x0 y)) b) as [| y ys] eqn:E.
    + destruct Hin as [[= <- <-] | []]. auto.
    + apply in_map_iff in Hin as (z & [= <- <-] & Hz).
      rewrite <- E in Hz. apply filter_In in Hz. auto.
  - intros (Hx & Hoy). exists x. split; [exact Hx |].
    destruct oy as [y |].
    + destruct Hoy as (Hy & Hon).
      assert (Hin : In y (filter (fun y => holds (on x y)) b))
        by (apply filter_In; auto).
      destruct (filter (fun y => holds (on x y)) b) as [| z zs];
        [contradiction |].
      exact (in_map (fun y => (x, Some y)) _ _ Hin).
    + rewrite Hoy. now left.
Qed.

Lemma holds_on_dicom (i : string) (fk : option string) :
  holds (sql_eq String.eqb (Some i) fk) = true <-> fk = Some i.
Proof.
  destruct fk as [k |]; simpl.
  - destruct (String.eqb_spec i k) as [-> | N]; simpl; split; auto;
      try discriminate. intros [= ->]. now contradiction N.
  - split; discriminate.
Qed.

Lemma joined_to_iff {L R : Type} (scan_of : L -> DICOM.t)
    (fk : R -> option string) (l : L) (table : list R) (o : option R) :
  match o with
  | Some y => In y table /\ holds (LogView.on_dicom scan_of fk l y) = true
  | None => filter (fun y => holds (LogView.on_dicom scan_of fk l y)) table = []
  end
  <-> joined_to fk (DICOM.id (scan_of l)) table o.
Proof.
  unfold joined_to, LogView.on_dicom, referencing. destruct o as [y |].
  - now rewrite holds_on_dicom.
  - reflexivity.
Qed.

(** The rows of the joins: a scan with, from each table joined, a row that
    references it or NULLs when none does. *)
Lemma joins_In (db : Database.t) (d : DICOM.t) (b : option BIDS.t)
    (t1 bo : option ScanMixin.t) (v1 v2 : option TagView.t) :
  In (d, b, t1, bo, v1, v2) (LogView.joins db) <->
  In d (Database.dicoms db)
  /\ joined_to BIDS.dicom_id (DICOM.id d) (Database.bids db) b
  /\ joined_to ScanMixin.dicom_id (DICOM.id d) (Database.t1ws db) t1
  /\ joined_to ScanMixin.dicom_id (DICOM.id d) (Database.bolds db) bo
  /\ joined_to TagView.dicom_id (DICOM.id d) (B1000View db) v1
  /\ joined_to TagView.dicom_id (DICOM.id d) (B2000View db) v2.
Proof.
  unfold LogView.joins.
  rewrite !left_outer_join_In, !joined_to_iff. simpl. tauto.
Qed.

Lemma left_outer_join_total {A B : Type} (on : A -> B -> sql_bool)
    (a : list A) (b : list B) (x : A) :
  In x a -> exists oy, In (x, oy) (left_outer_join on a b).
Proof.
  intros Hx.
  destruct (filter (fun y => holds (on x y)) b) as [| y ys] eqn:E.
  - exists None. apply left_outer_join_In. auto.
  - exists (Some y). apply left_outer_join_In. split; [exact Hx |].
    apply (proj1 (filter_In (fun y => holds (on x y)) y b)).
    rewrite E. now left.
Qed.

Lemma joins_total (db : Database.t) (d : DICOM.t) :
  In d (Database.dicoms db) ->
  exists j, In j (LogView.joins db) /\ LogView.scan j = d.
Proof.
  intros Hd. unfold LogView.joins.
  destruct (left_outer_join_total
              (LogView.on_dicom (fun d => d) BIDS.dicom_id)
              _ (Database.bids db) _ Hd) as (b & H1).
  destruct (left_outer_join_total
              (LogView.on_dicom fst ScanMixin.dicom_id)
              _ (Database.t1ws db) _ H1) as (t1 & H2).
  destruct (left_outer_join_total
              (LogView.on_dicom (fun x => fst (fst x)) ScanMixin.dicom_id)
              _ (Database.bolds db) _ H2) as (bo & H3).
  destruct (left_outer_join_total
              (LogView.on_dicom (fun x => fst (fst (fst x))) TagView.dicom_id)
              _ (B1000View db) _ H3) as (v1 & H4).
  destruct (left_outer_join_total
              (LogView.on_dicom (fun x => fst (fst (fst (fst x))))
                 TagView.dicom_id)
              _ (B2000View db) _ H4) as (v2 & H5).
  exists (d, b, t1, bo, v1, v2). split; [exact H5 | reflexivity].
Qed.

(** X8: the log view lists the scans and nothing else: every row carries
    the site, acquisition day, day and identifier of a scan of [dicoms], and
    every scan has a row that carries its own; a conversion record or a
    derivative without a scan never makes a row. *)
Theorem LogView_rows_are_scans (db : Database.t) :
  (forall r, In r (LogView.table db) ->
     exists d, In d (Database.dicoms db)
               /\ LogView.site r = DICOM.site d
               /\ LogView.date r = DICOM.acquisition_day d
               /\ LogView.dicom r = DICOM.day d
               /\ LogView.id r = DICOM.id d)
  /\ (forall d, In d (Database.dicoms db) ->
        exists r, In r (LogView.table db)
                  /\ LogView.site r = DICOM.site d
                  /\ LogView.date r = DICOM.acquisition_day d
                  /\ LogView.dicom r = DICOM.day d
                  /\ LogView.id r = DICOM.id d).
Proof.
  split.
  - intros r Hr. apply table_rows in Hr as (j & Hj & ->).
    destruct j as [[[[[d b] t1] bo] v1] v2].
    apply joins_In in Hj as (Hd & _). exists d. now repeat split.
  - intros d Hd. destruct (joins_total db d Hd) as (j & Hj & <-).
    exists (LogView.select j). split; [apply table_rows; now exists j |].
    now destruct j as [[[[[d b] t1] bo] v1] v2].
Qed.

Lemma LogView_rows_are_scans_witness :
  let orphans :=
    Database.mk
      [ DICOM.mk "NS001" "NS" (date.mk 2022 3 15) None ]
      [ BIDS.mk 1 None (Some (date.mk 2022 3 18)) (Some true);
        BIDS.mk 2 (Some "GONE99") (Some (date.mk 2022 3 18)) (Some true) ]
      [ ScanMixin.mk "sub-GONE99_T1w" "{}" (Some "GONE99") ] [] [] in
  let r := LogView.mk "NS" None (date.mk 2022 3 15) None "" "" "" "" "" "NS001" in
  LogView.table orphans = [r]
  /\ exists d, In d (Database.dicoms orphans) /\ LogView.id r = DICOM.id d.
Proof.
  intros orphans r. split; [reflexivity |].
  destruct (proj1 (LogView_rows_are_scans orphans) r (or_introl eq_refl))
    as (d & Hd & _ & _ & _ & Hid).
  exists d. split; [exact Hd | exact Hid].
Defined.

Lemma select_flags (j : LogView.joined) :
  let '(d, b, t1, bo, v1, v2) := j in
  let valid := match b with Some r => BIDS.valid r | None => None end in
  let flag {A : Type} (x : option A) : string :=
    match valid with
    | Some true => match x with Some _ => "Y" | None => "N" end
    | _ => ""
    end in
  LogView.bids_validation (LogView.select j) = flag_of_valid valid
  /\ LogView.T1w (LogView.select j) = flag t1
  /\ LogView.b1000 (LogView.select j) = flag v1
  /\ LogView.b2000 (LogView.select j) = flag v2
  /\ LogView.bold (LogView.select j) = flag bo.
Proof.
  destruct j as [[[[[d b] t1] bo] v1] v2].
  destruct b as [[i fk day [[|] |]] |], t1, bo, v1, v2; repeat split.
Qed.

(** X9: in every row of the log view the flags are all-or-nothing: either
    [bids_validation] is ["Y"] and each of [T1w], [b1000], [b2000], [bold]
    is ["Y"] or ["N"], or [bids_validation] is [""] or ["N"] and the four are
    [""]. *)
Theorem LogView_flags_tristate (db : Database.t) (r : LogView.t) :
  In r (LogView.table db) ->
  (LogView.bids_validation r = "Y"
   /\ (LogView.T1w r = "Y" \/ LogView.T1w r = "N")
   /\ (LogView.b1000 r = "Y" \/ LogView.b1000 r = "N")
   /\ (LogView.b2000 r = "Y" \/ LogView.b2000 r = "N")
   /\ (LogView.bold r = "Y" \/ LogView.bold r = "N"))
  \/ ((LogView.bids_validation r = "" \/ LogView.bids_validation r = "N")
      /\ LogView.T1w r = "" /\ LogView.b1000 r = ""
      /\ LogView.b2000 r = "" /\ LogView.bold r = "").
Proof.
  intros H. apply table_rows in H as (j & _ & ->).
  pose proof (select_flags j) as F.
  destruct j as [[[[[d b] t1] bo] v1] v2].
  destruct F as (-> & -> & -> & -> & ->).
  destruct (match b with Some r => BIDS.valid r | None => None end)
    as [[|] |]; simpl.
  - left. split; [reflexivity |].
    destruct t1, v1, v2, bo; auto 10.
  - right. auto 10.
  - right. auto 10.
Qed.

Lemma LogView_flags_tristate_witness :
  let r := LogView.mk "UC" (Some (date.mk 2022 3 16)) (date.mk 2022 3 17)
             (Some (date.mk 2022 3 18)) "Y" "Y" "Y" "N" "N" "UC003" in
  In r (LogView.table sample_db)
  /\ LogView.bids_validation r = "Y"
  /\ (LogView.T1w r = "Y" \/ LogView.T1w r = "N").
Proof.
  intros r.
  assert (H : In r (LogView.table sample_db)) by (vm_compute; tauto).
  split; [exact H |].
  destruct (LogView_flags_tristate sample_db r H) as [(Hv & Ht & _) | (Hv & _)].
  - split; [exact Hv | exact Ht].
  - exfalso. destruct Hv as [Hv | Hv]; discriminate Hv.
Defined.

Lemma joined_to_some {R : Type} (fk : R -> option string) (i : string)
    (table : list R) (o : option R) :
  joined_to fk i table o ->
  (exists y, o = Some y) <-> referencing fk i table <> [].
Proof.
  unfold joined_to, referencing. destruct o as [y |].
  - intros (Hy & Hfk). split; [| eauto]. intros _ E.
    assert (Hin : In y (filter
                          (fun r => holds (sql_eq String.eqb (Some i) (fk r)))
                          table))
      by (apply filter_In; split; [exact Hy | now apply holds_on_dicom]).
    rewrite E in Hin. contradiction.
  - intros E. split; [intros (y & Hy); discriminate |].
    intros N. contradiction.
Qed.

(** X10: in a row of the log view with [bids_validation = "Y"], the flag
    [T1w] is ["Y"] when some anatomical record references the scan of the
    row and ["N"] when none does, and likewise [bold] for the functional
    records, [b1000] for the rows of [B1000View] and [b2000] for the rows of
    [B2000View]. *)
Theorem LogView_flags_meaning (db : Database.t) (r : LogView.t) :
  In r (LogView.table db) ->
  LogView.bids_validation r = "Y" ->
  let i := LogView.id r in
  (LogView.T1w r = "Y" <->
   referencing ScanMixin.dicom_id i (Database.t1ws db) <> [])
  /\ (LogView.bold r = "Y" <->
      referencing ScanMixin.dicom_id i (Database.bolds db) <> [])
  /\ (LogView.b1000 r = "Y" <->
      referencing TagView.dicom_id i (B1000View db) <> [])
  /\ (LogView.b2000 r = "Y" <->
      referencing TagView.dicom_id i (B2000View db) <> []).
Proof.
  intros H. apply table_rows in H as (j & Hj & ->).
  pose proof (select_flags j) as F. pose proof (select_id j) as I.
  destruct j as [[[[[d b] t1] bo] v1] v2].
  apply joins_In in Hj as (_ & _ & J1 & J2 & J3 & J4).
  destruct F as (Fv & -> & -> & -> & ->). rewrite Fv, I. simpl LogView.scan.
  destruct (match b with Some r => BIDS.valid r | None => None end)
    as [[|] |]; simpl; try discriminate.
  intros _.
  rewrite <- (joined_to_some _ _ _ _ J1), <- (joined_to_some _ _ _ _ J2),
    <- (joined_to_some _ _ _ _ J3), <- (joined_to_some _ _ _ _ J4).
  repeat split; intros H;
    match goal with
    | H : exists _, _ = _ |- _ => destruct H as (y & ->); reflexivity
    | |- exists _, ?o = _ => destruct o; [eauto | discriminate]
    end.
Qed.

Lemma LogView_flags_meaning_witness :
  let r := LogView.mk "UC" (Some (date.mk 2022 3 16)) (date.mk 2022 3 17)
             (Some (date.mk 2022 3 18)) "Y" "Y" "Y" "N" "N" "UC003" in
  In r (LogView.table sample_db)
  /\ LogView.bids_validation r = "Y"
  /\ referencing ScanMixin.dicom_id "UC003" (Database.t1ws sample_db) <> []
  /\ ~ referencing ScanMixin.dicom_id "UC003" (Database.bolds sample_db) <> [].
Proof.
  intros r.
  assert (H : In r (LogView.table sample_db)) by (vm_compute; tauto).
  assert (Hv : LogView.bids_validation r = "Y") by reflexivity.
  split; [exact H |]. split; [exact Hv |].
  destruct (LogView_flags_meaning sample_db r H Hv) as (Ht & Hb & _).
  split.
  - apply (proj1 Ht). reflexivity.
  - intros N. apply (proj2 Hb) in N. discriminate N.
Defined.

(** X11: in every row of the log view, either no conversion record
    references the scan of the row, and then [bids] is absent and
    [bids_validation] is [""]; or [bids] is the day of a conversion record
    that references the scan and [bids_validation] is the flag of the
    validation outcome of that record: ["Y"] for true, ["N"] for false, [""]
    when validation was never run. *)
Theorem LogView_bids_columns (db : Database.t) (r : LogView.t) :
  In r (LogView.table db) ->
  (referencing BIDS.dicom_id (LogView.id r) (Database.bids db) = []
   /\ LogView.bids r = None /\ LogView.bids_validation r = "")
  \/ (exists b,
        In b (Database.bids db)
        /\ BIDS.dicom_id b = Some (LogView.id r)
        /\ LogView.bids r = BIDS.day b
        /\ LogView.bids_validation r = flag_of_valid (BIDS.valid b)).
Proof.
  intros H. apply table_rows in H as (j & Hj & ->).
  pose proof (select_flags j) as F. pose proof (select_id j) as I.
  destruct j as [[[[[d b] t1] bo] v1] v2].
  apply joins_In in Hj as (_ & J & _).
  destruct F as (Fv & _). rewrite Fv, I. simpl LogView.scan.
  destruct b as [b |]; simpl in J.
  - right. exists b. destruct J as (Hb & Hfk). now repeat split.
  - left. now repeat split.
Qed.

Lemma LogView_bids_columns_witness :
  let r := LogView.mk "WS" None (date.mk 2022 3 16) (Some (date.mk 2022 3 18))
             "N" "" "" "" "" "WS002" in
  In r (LogView.table sample_db)
  /\ exists b, In b (Database.bids sample_db)
               /\ BIDS.dicom_id b = Some "WS002"
               /\ LogView.bids_validation r = flag_of_valid (BIDS.valid b).
Proof.
  intros r.
  assert (H : In r (LogView.table sample_db)) by (vm_compute; tauto).
  split; [exact H |].
  destruct (LogView_bids_columns sample_db r H)
    as [(E & _) | (b & Hb & Hfk & _ & Hv)].
  - discriminate E.
  - exists b. split; [exact Hb |]. split; [exact Hfk | exact Hv].
Defined.

(** *** The order of the log view *)

Lemma string_ltb_lt (a b : string) :
  String.ltb a b = true <-> String.compare a b = Lt.
Proof.
  unfold String.ltb. destruct (String.compare a b); split;
    (discriminate || reflexivity).
Qed.

Lemma date_leb_total (a b : date.t) :
  date.leb a b = false -> date.leb b a = true.
Proof.
  unfold date.leb. rewrite (date_compare_antisym b a).
  destruct (date.compare a b); simpl; (discriminate || reflexivity).
Qed.

Lemma date_leb_trans (a b c : date.t) :
  date.leb a b = true -> date.leb b c = true -> date.leb a c = true.
Proof.
  unfold date.leb.
  destruct (date.compare a b) eqn:E1; try discriminate;
    destruct (date.compare b c) eqn:E2; try discriminate; intros _ _.
  - apply date_compare_eq in E1, E2. subst.
    now rewrite (proj2 (date_compare_eq c c) eq_refl).
  - apply date_compare_eq in E1. subst. now rewrite E2.
  - apply date_compare_eq in E2. subst. now rewrite E1.
  - now rewrite (date_compare_trans _ _ _ E1 E2).
Qed.

Lemma order_leb_iff (x y : LogView.joined) :
  LogView.order_leb x y = true <->
  String.compare (DICOM.site (LogView.scan x)) (DICOM.site (LogView.scan y)) = Lt
  \/ (DICOM.site (LogView.scan x) = DICOM.site (LogView.scan y)
      /\ date.leb (DICOM.day (LogView.scan x)) (DICOM.day (LogView.scan y))
         = true).
Proof.
  unfold LogView.order_leb.
  rewrite orb_true_iff, andb_true_iff, string_ltb_lt, String.eqb_eq.
  reflexivity.
Qed.

Lemma order_leb_total (x y : LogView.joined) :
  LogView.order_leb x y = false -> LogView.order_leb y x = true.
Proof.
  intros H. apply order_leb_iff.
  destruct (String.compare (DICOM.site (LogView.scan x))
              (DICOM.site (LogView.scan y))) eqn:E.
  - apply OrderedTypeEx.String_as_OT.cmp_eq in E. right.
    split; [now symmetry |]. apply date_leb_total.
    destruct (date.leb (DICOM.day (LogView.scan x))
                (DICOM.day (LogView.scan y))) eqn:L; [| reflexivity].
    rewrite (proj2 (order_leb_iff x y)) in H; [discriminate | now right].
  - rewrite (proj2 (order_leb_iff x y)) in H; [discriminate |]. left.
    exact E.
  - left. rewrite String.compare_antisym, E. reflexivity.
Qed.

Lemma order_leb_trans (x y z : LogView.joined) :
  LogView.order_leb x y = true -> LogView.order_leb y z = true ->
  LogView.order_leb x z = true.
Proof.
  rewrite !order_leb_iff.
  intros [L1 | [E1 D1]] [L2 | [E2 D2]].
  - left. eapply string_compare_trans; eassumption.
  - left. now rewrite <- E2.
  - left. now rewrite E1.
  - right. split; [congruence | eapply date_leb_trans; eassumption].
Qed.

(** X12: the rows of the log view are in ascending order of site and, for
    equal sites, of the day [dicom]: a row is never followed, at any
    distance, by a row of a smaller site or of the same site and an earlier
    day. *)
Theorem LogView_ordered (db : Database.t) :
  StronglySorted site_dicom_le (LogView.table db).
Proof.
  unfold LogView.table, view.
  apply (StronglySorted_map_in
           (fun a b => LogView.order_leb a b = true) site_dicom_le
           LogView.select (fun _ => True)).
  - intros a b _ _ H. apply order_leb_iff in H. unfold site_dicom_le.
    now destruct a as [[[[[d1 b1] t1] bo1] v1] w1],
                 b as [[[[[d2 b2] t2] bo2] v2] w2].
  - apply Forall_forall. auto.
  - apply stable_sort_sorted; [apply order_leb_total | apply order_leb_trans].
Qed.

Example LogView_ordered_sample :
  map (fun r => (LogView.site r, LogView.dicom r, LogView.id r))
    (LogView.table
       (Database.mk
          [ DICOM.mk "UC002" "UC" (date.mk 2022 3 19) None;
            DICOM.mk "NS002" "NS" (date.mk 2022 4 1) None;
            DICOM.mk "UC001" "UC" (date.mk 2022 3 17) None;
            DICOM.mk "NS001" "NS" (date.mk 2022 3 30) None ]
          [] [] [] []))
  = [ ("NS", date.mk 2022 3 30, "NS001"); ("NS", date.mk 2022 4 1, "NS002");
      ("UC", date.mk 2022 3 17, "UC001"); ("UC", date.mk 2022 3 19, "UC002") ].
Proof. reflexivity. Qed.

(** ** The merged table: cells, rows and notes *)

Lemma notes_of_filled (table : list OldLog.t) (i : string) (n : Cell) :
  In n (notes_of table i) -> exists s, fill_cell "" n = Text s.
Proof.
  unfold notes_of. destruct (old_rows table i) as [| o os].
  - intros [<- | []]. now exists "".
  - intros H. apply in_map_iff in H as (o' & <- & _).
    destruct (OldLog.notes o') as [s |]; simpl; eauto.
Qed.

(** X13: for every log view and every old table, every row of the output
    of [merge_logs] is a row of the log view in the eleven published columns:
    its site, its notes, its flags and its identifier are texts and its
    archive day is a day, so none of them is missing, and an absent note is
    the empty text; its date and its conversion day are missing ([NaT])
    exactly when the acquisition day and the conversion day of the row of the
    log view are absent. *)
Theorem merge_logs_cells (table : list OldLog.t) (log : list LogView.t) :
  exists out,
    merge_logs (OldLog.frame table) (read_sql_table log) = ret out
    /\ Forall (fun row =>
                 exists r notes,
                   In r log
                   /\ row = [ Text (LogView.site r);
                              cell_of_day (LogView.date r);
                              Text notes;
                              Day (LogView.dicom r);
                              cell_of_day (LogView.bids r);
                              Text (LogView.bids_validation r);
                              Text (LogView.T1w r);
                              Text (LogView.b1000 r);
                              Text (LogView.b2000 r);
                              Text (LogView.bold r);
                              Text (LogView.id r) ]
                   /\ (value (DataFrame.columns out) "date" row = NaT
                       <-> LogView.date r = None)
                   /\ (value (DataFrame.columns out) "bids" row = NaT
                       <-> LogView.bids r = None)
                   /\ Forall (fun c => c <> NA) row)
              (DataFrame.rows out).
Proof.
  eexists. split; [apply merge_logs_eq |].
  unfold fillna. cbn [DataFrame.rows DataFrame.columns].
  apply Forall_forall. intros row Hrow.
  apply output_rows_shape in Hrow as (r & n & Hr & Hn & ->).
  apply notes_of_filled in Hn as (s & Hs).
  exists r, s. split; [exact Hr |].
  cbn [map published_cells]. rewrite Hs.
  destruct (LogView.date r) as [d |], (LogView.bids r) as [b |];
    cbn [fill_cell cell_of_day];
    (split; [reflexivity |]);
    (split; [split; intros H; (discriminate H || reflexivity) |]);
    (split; [split; intros H; (discriminate H || reflexivity) |]);
    repeat constructor; discriminate.
Qed.

Example merge_logs_cells_sample :
  exists out,
    merge_logs (OldLog.frame table_D) (read_sql_table log_mixed) = ret out
    /\ nth 1 (DataFrame.rows out) []
       = [ Text "NS"; NaT; Text ""; Day (date.mk 2022 3 11); NaT;
           Text ""; Text ""; Text ""; Text ""; Text ""; Text "NS001" ].
Proof. eexists. split; [apply merge_logs_eq | reflexivity]. Qed.

Lemma notes_of_length (table : list OldLog.t) (i : string) :
  List.length (notes_of table i)
  = Nat.max 1 (List.length (old_rows table i)).
Proof.
  unfold notes_of. destruct (old_rows table i) as [| o os]; [reflexivity |].
  now rewrite length_map.
Qed.

Lemma selected_rows_length (table : list OldLog.t) (log : list LogView.t) :
  List.length (selected_rows table log)
  = list_sum (map (fun r => Nat.max 1 (List.length
                                          (old_rows table (LogView.id r))))
                  log).
Proof.
  unfold selected_rows. induction log as [| r log IH]; simpl; [reflexivity |].
  now rewrite length_app, length_map, notes_of_length, IH.
Qed.

(** X14: the output of [merge_logs] has, for each row of the log view, as
    many rows as the old table has rows of its identifier, and one when it
    has none; so it never has fewer rows than the log view, and it is empty
    only for an empty log view. *)
Theorem merge_logs_row_count (table : list OldLog.t) (log : list LogView.t) :
  exists out,
    merge_logs (OldLog.frame table) (read_sql_table log) = ret out
    /\ List.length (DataFrame.rows out)
       = list_sum (map (fun r => Nat.max 1 (List.length
                                               (old_rows table (LogView.id r))))
                       log)
    /\ (List.length log <= List.length (DataFrame.rows out))%nat.
Proof.
  eexists. split; [apply merge_logs_eq |].
  unfold fillna. cbn [DataFrame.rows].
  rewrite length_map,
    (Permutation_length (stable_sort_perm _ (selected_rows table log))),
    selected_rows_length.
  split; [reflexivity |].
  induction log as [| r log IH]; [apply Nat.le_refl |].
  cbn [map list_sum fold_right List.length].
  pose proof (Nat.le_max_l 1 (List.length (old_rows table (LogView.id r)))).
  unfold list_sum in IH. lia.
Qed.

(** X15: a note never moves to another scan: in the output of
    [merge_logs], a row whose [notes] cell is a text other than [""] has the
    identifier of an old row that carries this very note. *)
Theorem merge_logs_notes_provenance (table : list OldLog.t)
    (log : list LogView.t) :
  exists out,
    merge_logs (OldLog.frame table) (read_sql_table log) = ret out
    /\ forall row n,
         In row (DataFrame.rows out) ->
         value (DataFrame.columns out) "notes" row = Text n ->
         n <> "" ->
         exists o,
           In o table
           /\ cell_of_text (OldLog.id o) = value (DataFrame.columns out) "id" row
           /\ OldLog.notes o = Some n.
Proof.
  eexists. split; [apply merge_logs_eq |].
  unfold fillna. cbn [DataFrame.rows DataFrame.columns].
  intros row n Hrow Hn Hne.
  apply output_rows_shape in Hrow as (r & c & _ & Hc & ->).
  rewrite value_id. change (value published_columns "notes"
                              (map (fill_cell "") (published_cells r c)))
    with (fill_cell "" c) in Hn.
  cbn [cell_at nth published_cells map fill_cell].
  unfold notes_of in Hc.
  destruct (old_rows table (LogView.id r)) as [| o os] eqn:E.
  - destruct Hc as [<- | []]. simpl in Hn. injection Hn as <-.
    now contradiction Hne.
  - apply in_map_iff in Hc as (o' & <- & Ho').
    rewrite <- E in Ho'. unfold old_rows in Ho'.
    apply filter_In in Ho' as (Hin & Hid). apply cell_eqb_eq in Hid.
    exists o'. split; [exact Hin |]. split; [now symmetry |].
    destruct (OldLog.notes o') as [n' |]; simpl in Hn.
    + now injection Hn as ->.
    + injection Hn as <-. now contradiction Hne.
Qed.

Lemma merge_logs_notes_provenance_witness :
  exists out,
    merge_logs (OldLog.frame table_E) (read_sql_table log_D) = ret out
    /\ exists row o,
         In row (DataFrame.rows out)
         /\ value (DataFrame.columns out) "notes" row = Text "re-scan requested"
         /\ In o table_E /\ OldLog.id o = Some "UC003"
         /\ OldLog.notes o = Some "re-scan requested".
Proof.
  destruct (merge_logs_notes_provenance table_E log_D) as (out & H & P).
  exists out. split; [exact H |].
  rewrite merge_logs_eq in H. injection H as H.
  assert (Hrow : In (hd [] (DataFrame.rows out)) (DataFrame.rows out))
    by (rewrite <- H; left; reflexivity).
  assert (Hn : value (DataFrame.columns out) "notes" (hd [] (DataFrame.rows out))
               = Text "re-scan requested") by (rewrite <- H; reflexivity).
  assert (Hid : value (DataFrame.columns out) "id" (hd [] (DataFrame.rows out))
                = Text "UC003") by (rewrite <- H; reflexivity).
  destruct (P _ _ Hrow Hn) as (o & Ho & Hoid & Hon); [discriminate |].
  exists (hd [] (DataFrame.rows out)), o.
  repeat split; try assumption.
  rewrite Hid in Hoid. now destruct (OldLog.id o) as [i |]; inversion Hoid.
Defined.

(** ** Missing and clashing columns *)

Lemma index_of_none (name : string) (cols : list string) :
  index_of name cols = None <-> ~ In name cols.
Proof.
  induction cols as [| c cols IH]; simpl; [tauto |].
  destruct (String.eqb_spec c name) as [-> | N].
  - split; [discriminate |]. intros H. exfalso. apply H. now left.
  - destruct (index_of name cols) as [i |]; simpl.
    + split; [discriminate |]. intros H.
      assert (E : @Some nat i = None) by (apply IH; tauto). discriminate E.
    + split; [| reflexivity]. intros _ [E | H]; [now contradiction N |].
      now apply (proj1 IH).
Qed.

Lemma indices_raises (names cols : list string) (exc : string) :
  indices names cols = raise exc -> exc = "KeyError".
Proof.
  induction names as [| n names IH]; simpl; [discriminate |].
  destruct (index_of n cols); [| now intros [= <-]].
  destruct (indices names cols) as [e | is_]; simpl; [| discriminate].
  intros [= <-]. now apply IH.
Qed.

Lemma indices_missing (names cols : list string) (name : string) :
  In name names -> ~ In name cols -> indices names cols = raise "KeyError".
Proof.
  intros Hn Hc. induction names as [| n names IH]; [contradiction |].
  simpl. destruct (index_of n cols) as [i |] eqn:E; [| reflexivity].
  destruct Hn as [-> | Hn].
  - apply index_of_none in Hc. congruence.
  - now rewrite (IH Hn).
Qed.

Lemma remove_at_In {X : Type} (i : nat) (l : list X) (x : X) :
  In x (remove_at i l) -> In x l.
Proof.
  revert i. induction l as [| y l IH]; intros [| i]; simpl; auto.
  intros [-> | H]; [now left | right; now apply IH with i].
Qed.

Lemma remove_at_other (k c : string) (cols : list string) (j : nat) :
  index_of k cols = Some j -> In c cols -> c <> k -> In c (remove_at j cols).
Proof.
  revert j. induction cols as [| x cols IH]; intros j; simpl; [discriminate |].
  destruct (String.eqb_spec x k) as [-> | N].
  - intros [= <-] [E | H] Hc; [now contradiction Hc | exact H].
  - destruct (index_of k cols) as [i |]; simpl; [| discriminate].
    intros [= <-] [E | H] Hc; simpl; [now left | right]. now apply IH.
Qed.

Lemma mem_In (name : string) (cols : list string) :
  mem name cols = true <-> In name cols.
Proof.
  unfold mem. rewrite existsb_exists. split.
  - intros (x & Hx & E). apply String.eqb_eq in E. now subst.
  - intros H. exists name. split; [exact H | apply String.eqb_refl].
Qed.

Lemma log_columns_cases (P : string -> Prop) (c : string) :
  In c log_columns ->
  P "site" -> P "date" -> P "dicom" -> P "bids" -> P "bids_validation" ->
  P "T1w" -> P "b1000" -> P "b2000" -> P "bold" -> P "id" -> P c.
Proof.
  unfold log_columns. simpl.
  intros [<- | [<- | [<- | [<- | [<- | [<- | [<- | [<- | [<- | [<- | []]]]]]]]]]];
    auto.
Qed.

(** The columns of the merge of a log view with an old table that has the
    column [id] at position [j]. *)
Lemma merged_columns_In (cols : list string) (j : nat) (name : string) :
  In name
    (map (fun c => if negb (String.eqb c "id") && mem c (remove_at j cols)
                   then c ++ "_x" else c)%string log_columns
     ++ map (fun c => if mem c log_columns then c ++ "_y" else c)%string
          (remove_at j cols)) ->
  (In name log_columns
   /\ (name = "id" \/ ~ In name (remove_at j cols)))
  \/ (In name (remove_at j cols) /\ ~ In name log_columns)
  \/ (exists c, In c log_columns
                /\ (name = c ++ "_x" \/ name = c ++ "_y")%string).
Proof.
  intros H. apply in_app_or in H as [H | H];
    apply in_map_iff in H as (c & E & Hc).
  - destruct (String.eqb c "id") eqn:Eid; simpl in E.
    + apply String.eqb_eq in Eid. left. subst.
      split; [exact Hc | now left].
    + destruct (mem c (remove_at j cols)) eqn:M; subst name.
      * right. right. exists c. auto.
      * left. split; [exact Hc |]. right. intros H.
        apply mem_In in H. congruence.
  - destruct (mem c log_columns) eqn:M; subst name.
    + right. right. exists c. split; [now apply mem_In | now right].
    + right. left. split; [exact Hc |]. intros H. apply mem_In in H.
      congruence.
Qed.

Lemma no_suffixed_column (c name : string) :
  In c log_columns -> In name published_columns ->
  (name = c ++ "_x" \/ name = c ++ "_y")%string -> False.
Proof.
  intros Hc Hn.
  apply (log_columns_cases (fun c => (name = c ++ "_x" \/ name = c ++ "_y")%string
                                     -> False) c Hc);
    intros [-> | ->]; simpl in Hn;
    repeat (destruct Hn as [Hn | Hn]; [discriminate Hn |]); exact Hn.
Qed.

(** X16: [merge_logs], given a log view and an old table whose column
    names are distinct and are not those of the log view with the suffix
    [_y] (names for which pandas refuses the merge itself), raises
    [KeyError] when the old table has no column [id], when it has no column
    [notes], and when it has a column of the log view other than [id]: the
    merge renames both columns, and the selection of the published columns
    misses them. *)
Theorem merge_logs_KeyError (old : DataFrame.t) (log : list LogView.t) :
  NoDup (DataFrame.columns old) ->
  (forall c, In c log_columns ->
             ~ In (c ++ "_y")%string (DataFrame.columns old)) ->
  ~ In "id" (DataFrame.columns old)
  \/ ~ In "notes" (DataFrame.columns old)
  \/ (exists c, In c log_columns /\ c <> "id" /\ In c (DataFrame.columns old)) ->
  merge_logs old (read_sql_table log) = raise "KeyError".
Proof.
  intros _ _ H. unfold merge_logs, merge_left.
  cbn [read_sql_table DataFrame.columns DataFrame.rows].
  change (index_of "id" log_columns) with (Some 9%nat).
  destruct (index_of "id" (DataFrame.columns old)) as [j |] eqn:Ej;
    [| reflexivity].
  cbn [bind ret]. unfold getitem. cbn [DataFrame.columns].
  assert (Hid : In "id" (DataFrame.columns old)).
  { destruct (in_dec string_dec "id" (DataFrame.columns old)) as [I | N];
      [exact I |]. apply index_of_none in N. congruence. }
  assert (Hmiss : exists name,
             In name published_columns
             /\ ~ In name
                  (map (fun c => if negb (String.eqb c "id")
                                    && mem c (remove_at j (DataFrame.columns old))
                                 then c ++ "_x" else c)%string log_columns
                   ++ map (fun c => if mem c log_columns
                                    then c ++ "_y" else c)%string
                        (remove_at j (DataFrame.columns old)))).
  { destruct H as [N | [N | (c & Hc & Hne & Hin)]].
    - contradiction.
    - exists "notes". split; [simpl; tauto |]. intros Hm.
      apply merged_columns_In in Hm as [(Hl & _) | [(Ho & _) | (c & Hc & E)]].
      + simpl in Hl.
        repeat (destruct Hl as [Hl | Hl]; [discriminate Hl |]). exact Hl.
      + apply N. now apply remove_at_In with j.
      + apply (no_suffixed_column c "notes" Hc); [simpl; tauto | exact E].
    - exists c. split.
      + apply (log_columns_cases (fun c => In c published_columns) c Hc);
          simpl; tauto.
      + intros Hm.
        apply merged_columns_In in Hm
          as [(_ & [E | Hno]) | [(_ & Hno) | (c' & Hc' & E)]].
        * contradiction.
        * apply Hno. now apply remove_at_other with "id".
        * contradiction.
        * apply (no_suffixed_column c' c Hc'); [| exact E].
          apply (log_columns_cases (fun c => In c published_columns) c Hc);
            simpl; tauto. }
  destruct Hmiss as (name & Hp & Hm).
  now rewrite (indices_missing _ _ name Hp Hm).
Qed.

Lemma merge_logs_KeyError_witness :
  let old := DataFrame.mk ["id"; "site"; "notes"]
               [[Text "UC003"; Text "UC"; Text "re-scan requested"]] in
  NoDup (DataFrame.columns old)
  /\ (forall c, In c log_columns ->
                ~ In (c ++ "_y")%string (DataFrame.columns old))
  /\ (exists c, In c log_columns /\ c <> "id" /\ In c (DataFrame.columns old))
  /\ merge_logs old (read_sql_table log_D) = raise "KeyError".
Proof.
  intros old.
  assert (Hnd : NoDup (DataFrame.columns old)).
  { simpl. repeat constructor; simpl; intuition discriminate. }
  assert (Hy : forall c, In c log_columns ->
                         ~ In (c ++ "_y")%string (DataFrame.columns old)).
  { intros c Hc.
    apply (log_columns_cases
             (fun c => ~ In (c ++ "_y")%string (DataFrame.columns old)) c Hc);
      simpl; intuition discriminate. }
  assert (H : exists c, In c log_columns /\ c <> "id"
                        /\ In c (DataFrame.columns old)).
  { exists "site". split; [left; reflexivity |].
    split; [discriminate | right; left; reflexivity]. }
  split; [exact Hnd |]. split; [exact Hy |]. split; [exact H |].
  exact (merge_logs_KeyError old log_D Hnd Hy (or_intror (or_intror H))).
Defined.

(** ** What of the old table matters *)

Lemma selected_rows_ext (table table' : list OldLog.t) (log : list LogView.t) :
  (forall r, In r log ->
     notes_of table (LogView.id r) = notes_of table' (LogView.id r)) ->
  selected_rows table log = selected_rows table' log.
Proof.
  unfold selected_rows. induction log as [| r log IH]; intros H;
    [reflexivity |].
  simpl. rewrite (H r (or_introl eq_refl)). f_equal.
  apply IH. intros x Hx. apply H. now right.
Qed.

Lemma merge_logs_ext (table table' : list OldLog.t) (log : list LogView.t) :
  (forall r, In r log ->
     notes_of table (LogView.id r) = notes_of table' (LogView.id r)) ->
  merge_logs (OldLog.frame table) (read_sql_table log)
  = merge_logs (OldLog.frame table') (read_sql_table log).
Proof.
  intros H. rewrite !merge_logs_eq. now rewrite (selected_rows_ext _ _ _ H).
Qed.

(** X17: the old rows whose identifier is not in the log view have no
    influence: [merge_logs] gives the same result with them and without
    them. *)
Theorem merge_logs_ignores_stale (table : list OldLog.t) (log : list LogView.t) :
  merge_logs (OldLog.frame (filter (known log) table)) (read_sql_table log)
  = merge_logs (OldLog.frame table) (read_sql_table log).
Proof.
  apply merge_logs_ext. intros r Hr. unfold notes_of, old_rows.
  replace (filter (fun o => cell_eqb (Text (LogView.id r))
                              (cell_of_text (OldLog.id o)))
             (filter (known log) table))
    with (filter (fun o => cell_eqb (Text (LogView.id r))
                             (cell_of_text (OldLog.id o))) table);
    [reflexivity |].
  induction table as [| o table IH]; simpl; [reflexivity |].
  destruct (cell_eqb (Text (LogView.id r)) (cell_of_text (OldLog.id o))) eqn:E.
  - assert (K : known log o = true).
    { unfold known. apply existsb_exists. now exists r. }
    rewrite K. simpl. now rewrite E, IH.
  - destruct (known log o); simpl; [now rewrite E |]; exact IH.
Qed.

Example merge_logs_ignores_stale_sample :
  filter (known log_D) table_E
  = [OldLog.mk (Some "UC003") (Some "re-scan requested")]
  /\ merge_logs (OldLog.frame table_E) (read_sql_table log_D)
     = merge_logs (OldLog.frame table_D) (read_sql_table log_D).
Proof. split; reflexivity. Qed.

Lemma filter_perm_unique {X : Type} (P : X -> bool) (l l' : list X) :
  Permutation l l' -> (List.length (filter P l) <= 1)%nat ->
  filter P l = filter P l'.
Proof.
  intros Hp Hl.
  assert (Hf : Permutation (filter P l) (filter P l')).
  { clear Hl. induction Hp as [| x l l' _ IH | x y l | l l' l'' _ IH1 _ IH2];
      simpl.
    - constructor.
    - destruct (P x); [now constructor | exact IH].
    - destruct (P x), (P y); try reflexivity. apply perm_swap.
    - now transitivity (filter P l'). }
  destruct (filter P l) as [| a [| b t]]; simpl in Hl.
  - now apply Permutation_nil in Hf.
  - now apply Permutation_length_1_inv in Hf.
  - lia.
Qed.

(** X18: when the old table has at most one row for an identifier, the
    order of its rows does not matter: [merge_logs] gives the same result
    for any rearrangement of the old table. *)
Theorem merge_logs_old_order (table table' : list OldLog.t)
    (log : list LogView.t) :
  (forall i, (List.length (old_rows table i) <= 1)%nat) ->
  Permutation table table' ->
  merge_logs (OldLog.frame table') (read_sql_table log)
  = merge_logs (OldLog.frame table) (read_sql_table log).
Proof.
  intros Hu Hp. apply merge_logs_ext. intros r _. unfold notes_of, old_rows.
  now rewrite (filter_perm_unique _ _ _ Hp (Hu (LogView.id r))).
Qed.

Lemma merge_logs_old_order_witness :
  let table' := [ OldLog.mk (Some "UC003") (Some "re-scan requested");
                  OldLog.mk (Some "GONE99") (Some "x") ] in
  (forall i, (List.length (old_rows table_E i) <= 1)%nat)
  /\ Permutation table_E table'
  /\ merge_logs (OldLog.frame table') (read_sql_table log_mixed)
     = merge_logs (OldLog.frame table_E) (read_sql_table log_mixed).
Proof.
  intros table'.
  assert (Hu : forall i, (List.length (old_rows table_E i) <= 1)%nat).
  { intros i. unfold old_rows, table_E. cbn [filter OldLog.id cell_of_text].
    destruct (cell_eqb (Text i) (Text "GONE99")) eqn:E1;
      destruct (cell_eqb (Text i) (Text "UC003")) eqn:E2;
      cbn [List.length]; try lia.
    apply cell_eqb_eq in E1, E2. rewrite E1 in E2. discriminate E2. }
  assert (Hp : Permutation table_E table') by apply perm_swap.
  split; [exact Hu |]. split; [exact Hp |].
  exact (merge_logs_old_order table_E table' log_mixed Hu Hp).
Defined.

(** ** Paths: names, stems and ancestors *)

Lemma contains_slash (c : ascii) (s : string) :
  contains Ascii.eqb "/" (String c s)
  = Ascii.eqb "/" c || contains Ascii.eqb "/" s.
Proof. cbn [contains starts_with]. now rewrite andb_true_r. Qed.

Lemma split_nonempty (sep : ascii) (s : string) : Path.split sep s <> [].
Proof.
  induction s as [| c s IH]; simpl; [discriminate |].
  destruct (Ascii.eqb c sep); [discriminate |].
  destruct (Path.split sep s); [contradiction | discriminate].
Qed.

Lemma split_plain (a : string) :
  contains Ascii.eqb "/" a = false -> Path.split "/" a = [a].
Proof.
  induction a as [| c a IH]; [reflexivity |].
  rewrite contains_slash. intros H. apply orb_false_iff in H as [Hc Ha].
  simpl. rewrite Ascii.eqb_sym, Hc, (IH Ha). reflexivity.
Qed.

Lemma split_app (s a : string) :
  contains Ascii.eqb "/" a = false ->
  Path.split "/" (s ++ String "/" a)%string = Path.split "/" s ++ [a].
Proof.
  intros Ha. induction s as [| c s IH].
  - simpl. now rewrite (split_plain a Ha).
  - cbn [append Path.split]. rewrite IH.
    destruct (Ascii.eqb c "/"); [reflexivity |].
    destruct (Path.split "/" s) as [| p ps] eqn:E;
      [now apply split_nonempty in E | reflexivity].
Qed.

Lemma parts_app (s a : string) :
  component a = true ->
  Path.parts (s ++ String "/" a)%string = Path.parts s ++ [a].
Proof.
  unfold component, Path.parts. intros H.
  apply andb_true_iff in H as [Hne Hs]. apply negb_true_iff in Hs.
  rewrite (split_app s a Hs), filter_app. simpl. now rewrite Hne.
Qed.

Lemma name_app (s a : string) :
  component a = true -> Path.name (s ++ String "/" a)%string = a.
Proof.
  intros H. unfold Path.name. rewrite (parts_app s a H). apply last_last.
Qed.

Lemma has_dot_suffix (n ext : string) :
  Path.has_dot (n ++ String "." ext)%string = true.
Proof.
  induction n as [| c n IH]; simpl; [reflexivity |].
  rewrite IH. apply orb_true_r.
Qed.

Lemma before_last_dot_suffix (n ext : string) :
  Path.has_dot ext = false ->
  Path.before_last_dot (n ++ String "." ext)%string = n.
Proof.
  intros H. induction n as [| c n IH]; simpl.
  - now rewrite H.
  - now rewrite has_dot_suffix, IH.
Qed.

Lemma after_last_dot_suffix (n ext : string) :
  Path.has_dot ext = false ->
  Path.after_last_dot (n ++ String "." ext)%string = ext.
Proof.
  intros H. induction n as [| c n IH]; simpl.
  - now rewrite H.
  - now rewrite has_dot_suffix, IH.
Qed.

Lemma stem_of_zip (n : string) :
  n <> "" -> Path.stem_of (n ++ ".zip")%string = n.
Proof.
  intros H. unfold Path.stem_of.
  change (n ++ ".zip")%string with (n ++ String "." "zip")%string.
  rewrite has_dot_suffix, before_last_dot_suffix, after_last_dot_suffix
    by reflexivity.
  destruct (String.eqb_spec n "") as [E | _]; [contradiction | reflexivity].
Qed.

Lemma stem_of_plain (n : string) :
  Path.has_dot n = false -> Path.stem_of n = n.
Proof. intros H. unfold Path.stem_of. now rewrite H. Qed.

Lemma component_app (n ext : string) :
  component n = true -> contains Ascii.eqb "/" ext = false ->
  component (n ++ ext)%string = true.
Proof.
  unfold component. intros H He. apply andb_true_iff in H as [Hne Hs].
  apply negb_true_iff in Hs. apply andb_true_iff. split.
  - destruct n; [discriminate | reflexivity].
  - apply negb_true_iff. clear Hne.
    induction n as [| c n IH]; [exact He |].
    rewrite contains_slash in Hs. apply orb_false_iff in Hs as [Hc Hn].
    cbn [append]. rewrite contains_slash, Hc. now apply IH.
Qed.

Lemma DICOM_id_of_archive_aux (disk : fs.t) (dir n : string) (d : DICOM.t) :
  component n = true ->
  DICOM_from_path disk (dir ++ "/" ++ n ++ ".zip")%string = ret d ->
  DICOM.id d = n.
Proof.
  intros Hn H.
  assert (E : Path.stem (dir ++ "/" ++ n ++ ".zip")%string = n).
  { unfold Path.stem.
    change (dir ++ "/" ++ n ++ ".zip")%string
      with (dir ++ String "/" (n ++ ".zip"))%string.
    rewrite name_app by (apply component_app; [exact Hn | reflexivity]).
    apply stem_of_zip. unfold component in Hn.
    destruct n; [discriminate | discriminate]. }
  unfold DICOM_from_path in H. rewrite E in H.
  destruct (_extract_phantom_date _) as [e | day]; [discriminate |].
  destruct (_extract_site n) as [e | site]; [discriminate |].
  simpl in H. now injection H as <-.
Qed.

(** X19: the identifier of a scan is the name of its archive without the
    suffix [.zip], whatever other dots the name has: [DICOM.from_path] of
    [dir/n.zip], when it returns, returns a record of identifier [n]. *)
Theorem DICOM_id_of_archive (disk : fs.t) (dir n : string) (d : DICOM.t) :
  component n = true ->
  DICOM_from_path disk (dir ++ "/" ++ n ++ ".zip")%string = ret d ->
  DICOM.id d = n.
Proof. apply DICOM_id_of_archive_aux. Qed.

Lemma DICOM_id_of_archive_witness :
  component "NS_QC_1.5T" = true
  /\ DICOM_from_path sample_disk ("/products/mris/NS/dicoms" ++ "/"
                                  ++ "NS_QC_1.5T" ++ ".zip")%string
     = ret (DICOM.mk "NS_QC_1.5T" "NS" (date.mk 2022 3 15)
              (Some (date.mk 2022 3 14)))
  /\ DICOM.id (DICOM.mk "NS_QC_1.5T" "NS" (date.mk 2022 3 15)
                 (Some (date.mk 2022 3 14))) = "NS_QC_1.5T".
Proof.
  assert (Hc : component "NS_QC_1.5T" = true) by reflexivity.
  assert (H : DICOM_from_path sample_disk
                ("/products/mris/NS/dicoms" ++ "/" ++ "NS_QC_1.5T" ++ ".zip")%string
              = ret (DICOM.mk "NS_QC_1.5T" "NS" (date.mk 2022 3 15)
                       (Some (date.mk 2022 3 14)))) by reflexivity.
  split; [exact Hc |]. split; [exact H |].
  exact (DICOM_id_of_archive sample_disk _ _ _ Hc H).
Defined.

(** ** Linking records to scans *)

Lemma session_get_some (session : list DICOM.t) (key : string) (d : DICOM.t) :
  session_get session key = Some d -> In d session /\ DICOM.id d = key.
Proof.
  unfold session_get. intros H. apply find_some in H as [Hin E].
  now apply String.eqb_eq in E.
Qed.

Lemma session_get_key (session : list DICOM.t) (key : string) :
  (option_map DICOM.id (session_get session key) = Some key
   /\ exists d, In d session /\ DICOM.id d = key)
  \/ (option_map DICOM.id (session_get session key) = None
      /\ forall d, In d session -> DICOM.id d <> key).
Proof.
  destruct (session_get session key) as [d |] eqn:E.
  - left. apply session_get_some in E as [Hin <-]. split; [reflexivity |].
    now exists d.
  - right. split; [reflexivity |]. intros d Hd Hk.
    unfold session_get in E. apply (find_none _ _ E) in Hd.
    rewrite Hk, String.eqb_refl in Hd. discriminate.
Qed.

(** X20: a conversion directory named as an archive, without any dot in the
    name, is linked to the scan of that archive: when [DICOM.from_path] of
    [dir/n.zip] returned a scan that is in the session, [BIDS.from_path] of
    [dir'/n] returns a record whose [dicom_id] is the identifier of that
    scan. *)
Theorem BIDS_links_archive (disk : fs.t) (session : list DICOM.t) (pk : Z)
    (dir dir' n : string) (d : DICOM.t) :
  component n = true ->
  Path.has_dot n = false ->
  DICOM_from_path disk (dir ++ "/" ++ n ++ ".zip")%string = ret d ->
  In d session ->
  exists b,
    BIDS_from_path disk session pk (dir' ++ "/" ++ n)%string = ret b
    /\ BIDS.dicom_id b = Some (DICOM.id d).
Proof.
  intros Hn Hdot Hd Hin.
  rewrite (DICOM_id_of_archive_aux disk dir n d Hn Hd).
  unfold BIDS_from_path. eexists. split; [reflexivity |].
  cbn [BIDS.dicom_id]. unfold Path.stem.
  change (dir' ++ "/" ++ n)%string with (dir' ++ String "/" n)%string.
  rewrite (name_app dir' n Hn), (stem_of_plain n Hdot).
  destruct (session_get_key session n) as [[E _] | [_ N]]; [exact E |].
  exfalso. apply (N d Hin).
  exact (DICOM_id_of_archive_aux disk dir n d Hn Hd).
Qed.

Lemma BIDS_links_archive_witness :
  let d := DICOM.mk "NS_QC_20220314" "NS" (date.mk 2022 3 15)
             (Some (date.mk 2022 3 14)) in
  component "NS_QC_20220314" = true
  /\ Path.has_dot "NS_QC_20220314" = false
  /\ DICOM_from_path sample_disk
       ("/products/mris/NS/dicoms" ++ "/" ++ "NS_QC_20220314" ++ ".zip")%string
     = ret d
  /\ exists b,
       BIDS_from_path sample_disk [d] 1
         ("/products/mris/NS/bids" ++ "/" ++ "NS_QC_20220314")%string = ret b
       /\ BIDS.dicom_id b = Some "NS_QC_20220314".
Proof.
  intros d.
  assert (Hc : component "NS_QC_20220314" = true) by reflexivity.
  assert (Hdot : Path.has_dot "NS_QC_20220314" = false) by reflexivity.
  assert (H : DICOM_from_path sample_disk
                ("/products/mris/NS/dicoms" ++ "/" ++ "NS_QC_20220314"
                 ++ ".zip")%string = ret d) by reflexivity.
  split; [exact Hc |]. split; [exact Hdot |]. split; [exact H |].
  exact (BIDS_links_archive sample_disk [d] 1 "/products/mris/NS/dicoms"
           "/products/mris/NS/bids" "NS_QC_20220314" d Hc Hdot H
           (or_introl eq_refl)).
Defined.

Lemma parents_nth_3 (f : Path.t) (ps : list string) (a b c file : string) :
  Path.parts f = ps ++ [a; b; c; file] ->
  nth_error (parents f) 3 = Some ps.
Proof.
  intros H. unfold parents. rewrite H, length_app.
  cbn [List.length]. rewrite seq_app, rev_app_distr. cbn [seq rev app].
  cbn [map nth_error Nat.add].
  rewrite firstn_app, firstn_all, Nat.sub_diag.
  cbn [firstn]. now rewrite app_nil_r.
Qed.

(** X21: a derivative found three directories below a conversion directory
    is linked as the conversion record of that directory is: for a file
    [dir/a/b/c/file], [ScanMixin.from_path] returns whenever the sidecar is
    read, with the stem of the file name for identifier and, for
    [dicom_id], the [dicom_id] that [BIDS.from_path] gives [dir]; this is
    the stem of [dir] when the session has a scan of this identifier and
    NULL when it has none: a derivative without scan is recorded, not
    refused. *)
Theorem derivative_links_like_BIDS (disk : fs.t) (session : list DICOM.t)
    (pk : Z) (dir a b c file : string) :
  component a = true -> component b = true -> component c = true ->
  component file = true ->
  let f := (dir ++ "/" ++ a ++ "/" ++ b ++ "/" ++ c ++ "/" ++ file)%string in
  exists key bid,
    BIDS_from_path disk session pk dir = ret bid
    /\ BIDS.dicom_id bid = key
    /\ (forall meta,
          fs.read_json disk f = ret meta ->
          ScanMixin_from_path disk session f
          = ret (ScanMixin.mk (Path.stem_of file) meta key))
    /\ ((key = Some (Path.stem dir)
         /\ exists d, In d session /\ DICOM.id d = Path.stem dir)
        \/ (key = None
            /\ forall d, In d session -> DICOM.id d <> Path.stem dir)).
Proof.
  intros Ha Hb Hc Hf f.
  assert (Ef : f = ((((dir ++ String "/" a) ++ String "/" b)
                      ++ String "/" c) ++ String "/" file)%string)
    by (unfold f; rewrite !append_assoc; reflexivity).
  assert (Hparts : Path.parts f = Path.parts dir ++ [a; b; c; file]).
  { rewrite Ef, !parts_app by assumption. now rewrite <- !app_assoc. }
  exists (option_map DICOM.id (session_get session (Path.stem dir))).
  eexists. split; [reflexivity |]. split; [reflexivity |]. split.
  - intros meta Hmeta. unfold ScanMixin_from_path.
    rewrite Hmeta. cbn [bind ret].
    rewrite (parents_nth_3 f _ a b c file Hparts).
    unfold Path.stem at 1, Path.name. rewrite Hparts.
    change (Path.parts dir ++ [a; b; c; file])
      with (Path.parts dir ++ [a; b; c] ++ [file]).
    now rewrite app_assoc, last_last.
  - apply session_get_key.
Qed.

Lemma derivative_links_like_BIDS_witness :
  let d := DICOM.mk "NS_QC_20220314" "NS" (date.mk 2022 3 15) None in
  let dir := "/products/mris/NS/bids/NS_QC_20220314" in
  component "sub-1" = true /\ component "ses-1" = true
  /\ component "anat" = true /\ component "sub-1_T1w.json" = true
  /\ ScanMixin_from_path sample_disk [d]
       (dir ++ "/" ++ "sub-1" ++ "/" ++ "ses-1" ++ "/" ++ "anat" ++ "/"
        ++ "sub-1_T1w.json")%string
     = ret (ScanMixin.mk "sub-1_T1w" "{}" (Some "NS_QC_20220314")).
Proof.
  intros d dir.
  destruct (derivative_links_like_BIDS sample_disk [d] 1 dir
              "sub-1" "ses-1" "anat" "sub-1_T1w.json"
              eq_refl eq_refl eq_refl eq_refl)
    as (key & bid & Hb & Hk & Hs & _).
  repeat (split; [reflexivity |]).
  rewrite (Hs "{}" eq_refl). injection Hb as <-. now subst key.
Defined.

(** ** The validation directory of a conversion *)

Lemma replace_from_id (old new s : string) :
  contains Ascii.eqb old s = false -> replace_from old new 0 s = s.
Proof.
  induction s as [| c s IH]; [reflexivity |].
  cbn [contains replace_from]. intros H.
  apply orb_false_iff in H as [H1 H2]. now rewrite H1, (IH H2).
Qed.

Lemma replace_from_skip (old new x s : string) :
  replace_from old new (String.length x) (x ++ s) = replace_from old new 0 s.
Proof. induction x as [| c x IH]; [reflexivity | exact IH]. Qed.

Lemma starts_with_bids_shift (p post : string) :
  p <> "" ->
  starts_with Ascii.eqb "bids" (p ++ "bid") = false ->
  starts_with Ascii.eqb "bids" (p ++ "bids" ++ post) = false.
Proof.
  intros Hp.
  destruct p as [| c1 [| c2 [| c3 [| c4 p]]]]; [contradiction | | | |];
    cbn [append starts_with];
    repeat match goal with
           | |- context [Ascii.eqb ?a ?b] => destruct (Ascii.eqb a b)
           end; cbn [andb]; auto.
Qed.

Lemma replace_bids (pre post : string) :
  contains Ascii.eqb "bids" (pre ++ "bid") = false ->
  str_replace "bids" "bids_validation" (pre ++ "bids" ++ post)
  = (pre ++ "bids_validation"
     ++ str_replace "bids" "bids_validation" post)%string.
Proof.
  unfold str_replace. induction pre as [| c pre IH]; intros H.
  - cbn [append]. cbn [replace_from starts_with]. rewrite !Ascii.eqb_refl.
    cbn [andb String.length Nat.sub].
    rewrite <- (replace_from_skip "bids" "bids_validation" "ids" post).
    reflexivity.
  - cbn [append] in H. cbn [contains] in H.
    apply orb_false_iff in H as [H1 H2].
    change (String c pre ++ "bids" ++ post)%string
      with (String c (pre ++ "bids" ++ post)).
    cbn [replace_from].
    change (String c (pre ++ "bids" ++ post))
      with (String c pre ++ "bids" ++ post)%string.
    rewrite (starts_with_bids_shift (String c pre) post);
      [| discriminate | exact H1].
    cbn [append]. f_equal. now apply IH.
Qed.

Lemma filter_count_existsb {X : Type} (P : X -> bool) (l : list X) :
  (0 <? List.length (filter P l))%nat = existsb P l.
Proof.
  induction l as [| x l IH]; [reflexivity |].
  simpl. destruct (P x); [reflexivity | exact IH].
Qed.

(** X22: the validation outcome of a conversion directory [root/bids...],
    where [bids] occurs nowhere else in the path, is read from the
    directory of the same name under [root/bids_validation]: [valid] is
    NULL when nothing exists there, true when an entry there has a name
    ending in [out], false otherwise. *)
Theorem BIDS_valid_from_sibling (disk : fs.t) (session : list DICOM.t)
    (pk : Z) (root rest : string) :
  contains Ascii.eqb "bids" (root ++ "/bid") = false ->
  contains Ascii.eqb "bids" rest = false ->
  exists b,
    BIDS_from_path disk session pk (root ++ "/bids" ++ rest)%string = ret b
    /\ BIDS.valid b
       = match fs.listdir disk (root ++ "/bids_validation" ++ rest)%string with
         | None => None
         | Some names => Some (existsb (ends_with "out") names)
         end.
Proof.
  intros Hroot Hrest. unfold BIDS_from_path. eexists.
  split; [reflexivity |]. cbn [BIDS.valid].
  assert (E : str_replace "bids" "bids_validation"
                (root ++ "/bids" ++ rest)%string
              = (root ++ "/bids_validation" ++ rest)%string).
  { change (root ++ "/bids" ++ rest)%string
      with (root ++ String "/" ("bids" ++ rest))%string.
    replace (root ++ String "/" ("bids" ++ rest))%string
      with ((root ++ "/") ++ "bids" ++ rest)%string
      by (now rewrite append_assoc).
    rewrite replace_bids.
    - unfold str_replace. rewrite (replace_from_id _ _ rest Hrest).
      now rewrite append_assoc.
    - now rewrite append_assoc. }
  rewrite E. destruct (fs.listdir disk _) as [names |]; [| reflexivity].
  rewrite filter_count_existsb. now destruct (existsb _ names).
Qed.

Lemma BIDS_valid_from_sibling_witness :
  contains Ascii.eqb "bids" ("/products/mris/NS" ++ "/bid") = false
  /\ contains Ascii.eqb "bids" "/NS_QC_20220314" = false
  /\ exists b,
       BIDS_from_path sample_disk [] 1
         ("/products/mris/NS" ++ "/bids" ++ "/NS_QC_20220314")%string = ret b
       /\ BIDS.valid b = Some true.
Proof.
  assert (H1 : contains Ascii.eqb "bids" ("/products/mris/NS" ++ "/bid") = false)
    by reflexivity.
  assert (H2 : contains Ascii.eqb "bids" "/NS_QC_20220314" = false)
    by reflexivity.
  split; [exact H1 |]. split; [exact H2 |].
  destruct (BIDS_valid_from_sibling sample_disk [] 1 "/products/mris/NS"
              "/NS_QC_20220314" H1 H2) as (b & Hb & Hv).
  exists b. split; [exact Hb | exact Hv].
Defined.

(** ** From the database to the published table *)

Lemma cell_eqb_text (a b : string) :
  cell_eqb (Text a) (Text b) = String.eqb a b.
Proof.
  destruct (String.eqb_spec a b) as [-> | N].
  - now apply cell_eqb_eq.
  - destruct (cell_eqb (Text a) (Text b)) eqn:E; [| reflexivity].
    apply cell_eqb_eq in E. injection E as E. now contradiction N.
Qed.

Lemma count_rows_id_log (table : list OldLog.t) (log : list LogView.t)
    (i : string) :
  (forall k, (List.length (old_rows table k) <= 1)%nat) ->
  count_rows_id i
    (fillna
       (DataFrame.mk published_columns
          (stable_sort (lex_leb [0; 1]%nat) (selected_rows table log))) "")
  = count_id i log.
Proof.
  intros Hu. unfold count_rows_id, count_id, fillna.
  cbn [DataFrame.rows DataFrame.columns].
  rewrite filter_map_comm, length_map.
  rewrite (filter_length_perm _ _ _ (stable_sort_perm _ _)).
  rewrite (selected_rows_unique _ _ Hu), filter_map_comm, length_map.
  f_equal. apply filter_ext. intros r. rewrite value_id.
  cbn [cell_at nth published_cells map fill_cell]. apply cell_eqb_text.
Qed.

(** X23: from the database to the table to publish: when the scans have
    distinct identifiers, each scan is referenced by at most one row of each
    relation joined (so that the joins make one row of it), and the old
    table has at most one row for an identifier, [merge_logs] applied to the
    log view returns a table with exactly one row for each scan, and with
    as many rows as there are scans. *)
Theorem published_one_row_per_scan (db : Database.t) (table : list OldLog.t) :
  NoDup (map DICOM.id (Database.dicoms db)) ->
  (forall d, In d (Database.dicoms db) -> fanout db (DICOM.id d) = 1%nat) ->
  (forall k, (List.length (old_rows table k) <= 1)%nat) ->
  exists out,
    merge_logs (OldLog.frame table) (read_sql_table (LogView.table db)) = ret out
    /\ (forall d, In d (Database.dicoms db) ->
          count_rows_id (DICOM.id d) out = 1%nat)
    /\ List.length (DataFrame.rows out) = List.length (Database.dicoms db).
Proof.
  intros Hnd Hone Hu. eexists. split; [apply merge_logs_eq |]. split.
  - intros d Hd. rewrite (count_rows_id_log _ _ _ Hu), table_count.
    now rewrite (primary_key_count _ _ Hnd Hd), (Hone d Hd).
  - unfold fillna. cbn [DataFrame.rows].
    rewrite length_map, (Permutation_length (stable_sort_perm _ _)),
      (selected_rows_unique _ _ Hu), length_map.
    unfold LogView.table, view.
    rewrite length_map, (Permutation_length (stable_sort_perm _ _)).
    clear Hu table. unfold LogView.joins.
    assert (L : forall (A B : Type) (key : A -> string) (fk : B -> option string)
                       (a : list A) (b : list B),
               (forall x, In x a ->
                  Nat.max 1 (List.length (referencing fk (key x) b)) = 1%nat) ->
               List.length
                 (left_outer_join
                    (fun x y => sql_eq String.eqb (Some (key x)) (fk y)) a b)
               = List.length a).
    { intros A B key fk a b H. unfold left_outer_join.
      induction a as [| x a IH]; [reflexivity |].
      cbn [flat_map]. rewrite length_app, (join_block_length key fk x b).
      rewrite (H x (or_introl eq_refl)), IH; [reflexivity |].
      intros y Hy. apply H. now right. }
    assert (M : forall d, In d (Database.dicoms db) ->
              Nat.max 1 (List.length (referencing BIDS.dicom_id (DICOM.id d)
                                        (Database.bids db))) = 1%nat
              /\ Nat.max 1 (List.length (referencing ScanMixin.dicom_id
                                           (DICOM.id d) (Database.t1ws db)))
                 = 1%nat
              /\ Nat.max 1 (List.length (referencing ScanMixin.dicom_id
                                           (DICOM.id d) (Database.bolds db)))
                 = 1%nat
              /\ Nat.max 1 (List.length (referencing TagView.dicom_id
                                           (DICOM.id d) (B1000View db)))
                 = 1%nat
              /\ Nat.max 1 (List.length (referencing TagView.dicom_id
                                           (DICOM.id d) (B2000View db)))
                 = 1%nat).
    { intros d Hd. specialize (Hone d Hd). unfold fanout in Hone.
      repeat match goal with
             | H : (_ * _ = 1)%nat |- _ => apply Nat.eq_mul_1 in H as [H ?]
             end.
      auto. }
    unfold LogView.on_dicom. cbv zeta.
    rewrite (L (DICOM.t * option BIDS.t * option ScanMixin.t
                * option ScanMixin.t * option TagView.t)%type _
               (fun x => DICOM.id (fst (fst (fst (fst x)))))
               TagView.dicom_id).
    rewrite (L (DICOM.t * option BIDS.t * option ScanMixin.t
                * option ScanMixin.t)%type _
               (fun x => DICOM.id (fst (fst (fst x)))) TagView.dicom_id).
    rewrite (L (DICOM.t * option BIDS.t * option ScanMixin.t)%type _
               (fun x => DICOM.id (fst (fst x))) ScanMixin.dicom_id).
    rewrite (L (DICOM.t * option BIDS.t)%type _
               (fun x => DICOM.id (fst x)) ScanMixin.dicom_id).
    rewrite (L _ _ DICOM.id BIDS.dicom_id). reflexivity.
    + intros d Hd. apply (M d Hd).
    + intros [d b] H. apply left_outer_join_fst in H. apply (M d H).
    + intros [[d b] t1] H. do 2 apply left_outer_join_fst in H.
      apply (M d H).
    + intros [[[d b] t1] bo] H. do 3 apply left_outer_join_fst in H.
      apply (M d H).
    + intros [[[[d b] t1] bo] v1] H. do 4 apply left_outer_join_fst in H.
      apply (M d H).
Qed.

Lemma published_one_row_per_scan_witness :
  NoDup (map DICOM.id (Database.dicoms sample_db))
  /\ (forall d, In d (Database.dicoms sample_db) ->
        fanout sample_db (DICOM.id d) = 1%nat)
  /\ (forall k, (List.length (old_rows table_D k) <= 1)%nat)
  /\ exists out,
       merge_logs (OldLog.frame table_D)
         (read_sql_table (LogView.table sample_db)) = ret out
       /\ count_rows_id "UC003" out = 1%nat
       /\ List.length (DataFrame.rows out) = 3%nat.
Proof.
  assert (Hnd : NoDup (map DICOM.id (Database.dicoms sample_db))).
  { simpl. repeat constructor; simpl; intuition discriminate. }
  assert (Hone : forall d, In d (Database.dicoms sample_db) ->
                           fanout sample_db (DICOM.id d) = 1%nat).
  { intros d [<- | [<- | [<- | []]]]; reflexivity. }
  assert (Hu : forall k, (List.length (old_rows table_D k) <= 1)%nat).
  { intros k. unfold old_rows, table_D. simpl.
    destruct (cell_eqb _ _); simpl; lia. }
  split; [exact Hnd |]. split; [exact Hone |]. split; [exact Hu |].
  destruct (published_one_row_per_scan sample_db table_D Hnd Hone Hu)
    as (out & H & Hc & Hl).
  exists out. split; [exact H |]. split; [| exact Hl].
  apply (Hc (DICOM.mk "UC003" "UC" (date.mk 2022 3 17)
               (Some (date.mk 2022 3 16)))).
  right. right. left. reflexivity.
Defined.
